(** * Browser-side countdown controllers and password checklist

    A shallow embedding of the verification-countdown scripts
    (token_timer.js, token_status_checker.js, verify_account.js), of
    password_checklist.js, login.js, user-dropdown.js and auto_logout.js,
    and the properties their specification states.

    Modelling conventions.
    - A JavaScript string is the list of its UTF-16 code units.
    - A JavaScript Number that holds an integer is a [Z]; the scripts only
      subtract one and take quotient and remainder by sixty, which are exact
      on the safe integers (below 2^53), far beyond any countdown in
      seconds.  Statements about the value of a countdown assume it is a
      safe integer ([Number_isSafeInteger]).
    - An expression that dereferences [null] or [undefined] throws a
      TypeError: the primitives that read or write through a reference take
      an optional reference and return an [outcome].
    - The browser's interval table is explicit state; one "tick" is one
      firing of the script's recurring callback, and it runs the callback
      only while the interval is still scheduled. *)

From Stdlib Require Import ZArith NArith String Ascii List Bool Lia.
From Stdlib Require DecimalPos.
Import ListNotations.
Local Open Scope Z_scope.

(* ================================================================== *)
(** ** The fragment of JavaScript the scripts use *)

Module JS.

Definition jsstring : Type := list N.

(** An ASCII literal as code units. *)
Definition lit (s : string) : jsstring :=
  map N_of_ascii (list_ascii_of_string s).

Fixpoint str_eqb (a b : jsstring) : bool :=
  match a, b with
  | [], [] => true
  | x :: a', y :: b' => N.eqb x y && str_eqb a' b'
  | _, _ => false
  end.

(** *** Exceptions *)

Inductive exn : Type := TypeError.

Inductive outcome (A : Type) : Type :=
| Normal (a : A)
| Throws (e : exn).
Arguments Normal {A} a.
Arguments Throws {A} e.

Definition bind {A B : Type} (m : outcome A) (k : A -> outcome B) : outcome B :=
  match m with
  | Normal a => k a
  | Throws e => Throws e
  end.

Definition map_outcome {A B : Type} (f : A -> B) (m : outcome A) : outcome B :=
  match m with
  | Normal a => Normal (f a)
  | Throws e => Throws e
  end.

(** *** Numbers

    The scripts count whole seconds.  A Number that is an integer is
    represented by that integer.  On the safe integers (magnitude below
    2^53) this is exact: every one of them is a Number, and adding or
    subtracting 1, comparing, parseInt and toString give the same result on
    Numbers as on integers.  Beyond that range Number arithmetic rounds
    (2^53 + 2 minus 1 is 2^53) and parseInt returns the nearest Number, so
    a statement about the value of a countdown is one about safe integers;
    fractions, NaN and the infinities are not represented. *)

Definition MAX_SAFE_INTEGER : Z := 2 ^ 53 - 1.

(** Number.isSafeInteger, on integers. *)
Definition Number_isSafeInteger (z : Z) : bool :=
  Z.abs z <=? MAX_SAFE_INTEGER.

(** *** Number to string, for integers

    Plain decimal digits, as Number.prototype.toString prints an integer
    below 10^21 (from there on it switches to exponent form). *)

Fixpoint uint_units (d : Decimal.uint) : jsstring :=
  match d with
  | Decimal.Nil => []
  | Decimal.D0 r => 48%N :: uint_units r
  | Decimal.D1 r => 49%N :: uint_units r
  | Decimal.D2 r => 50%N :: uint_units r
  | Decimal.D3 r => 51%N :: uint_units r
  | Decimal.D4 r => 52%N :: uint_units r
  | Decimal.D5 r => 53%N :: uint_units r
  | Decimal.D6 r => 54%N :: uint_units r
  | Decimal.D7 r => 55%N :: uint_units r
  | Decimal.D8 r => 56%N :: uint_units r
  | Decimal.D9 r => 57%N :: uint_units r
  end.

Definition Number_toString (z : Z) : jsstring :=
  match z with
  | Z0 => [48%N]
  | Zpos p => uint_units (Pos.to_uint p)
  | Zneg p => 45%N :: uint_units (Pos.to_uint p)
  end.

(** *** String.prototype.padStart *)

Fixpoint cycle_take (n : nat) (pad rest : jsstring) : jsstring :=
  match n with
  | O => []
  | S n' =>
      match rest with
      | c :: r => c :: cycle_take n' pad r
      | [] =>
          match pad with
          | c :: r => c :: cycle_take n' pad r
          | [] => []
          end
      end
  end.

Definition padStart (target : nat) (pad s : jsstring) : jsstring :=
  if (target <=? length s)%nat then s
  else match pad with
       | [] => s
       | _ :: _ => cycle_take (target - length s) pad pad ++ s
       end.

(** The two decimal digits of [r], for [0 <= r < 100]. *)
Definition two_digits (r : Z) : jsstring :=
  [Z.to_N (48 + r / 10); Z.to_N (48 + r mod 10)].

(** *** parseInt(string, 10)

    ToString of the argument ([undefined] gives the text "undefined"),
    leading white space trimmed, an optional sign, then the longest prefix
    of decimal digits; NaN ([None]) when that prefix is empty.  The value
    is the mathematical one, which is the Number parseInt returns when it
    is a safe integer (any text of up to fifteen digits); for a longer text
    parseInt returns the nearest Number. *)

Definition isWhiteSpace (c : N) : bool :=
  ((c =? 9) || (c =? 10) || (c =? 11) || (c =? 12) || (c =? 13) || (c =? 32)
   || (c =? 160) || (c =? 5760) || ((8192 <=? c) && (c <=? 8202))
   || (c =? 8232) || (c =? 8233) || (c =? 8239) || (c =? 8287)
   || (c =? 12288) || (c =? 65279))%N.

Fixpoint trimStart (s : jsstring) : jsstring :=
  match s with
  | c :: r => if isWhiteSpace c then trimStart r else s
  | [] => []
  end.

Definition isDigit (c : N) : bool := ((48 <=? c) && (c <=? 57))%N.

(** Value of the longest digit prefix, accumulated left to right. *)
Fixpoint digits_value (acc : Z) (s : jsstring) : Z :=
  match s with
  | c :: r => if isDigit c then digits_value (10 * acc + Z.of_N (c - 48)) r else acc
  | [] => acc
  end.

Definition starts_with_digit (s : jsstring) : bool :=
  match s with
  | c :: _ => isDigit c
  | [] => false
  end.

Definition parseInt10_string (input : jsstring) : option Z :=
  let trimmed := trimStart input in
  let '(sign, body) :=
    match trimmed with
    | c :: r =>
        if (c =? 45)%N then (-1, r)            (* "-" *)
        else if (c =? 43)%N then (1, r)        (* "+" *)
        else (1, trimmed)
    | [] => (1, trimmed)
    end in
  if starts_with_digit body then Some (sign * digits_value 0 body) else None.

Definition parseInt10 (v : option jsstring) : option Z :=
  match v with
  | Some s => parseInt10_string s
  | None => parseInt10_string (lit "undefined")
  end.

(** The text after its leading white space and one optional sign. *)
Definition unsigned_part (s : jsstring) : jsstring :=
  match trimStart s with
  | c :: r => if ((c =? 45) || (c =? 43))%N then r else c :: r
  | [] => []
  end.

(** The values that are not a number when read as a decimal integer: an
    absent value, and a text that does not start, after white space and an
    optional sign, with a decimal digit. *)
Definition not_a_number (v : option jsstring) : bool :=
  match v with
  | Some s => negb (starts_with_digit (unsigned_part s))
  | None => true
  end.

(** *** DOM elements *)

Record Element : Type := mkElement {
  disabled : bool;
  classList : list jsstring;
  text : jsstring;            (* innerText / textContent *)
  styleDisplay : jsstring     (* style.display *)
}.

(** document.createElement: a fresh, empty element. *)
Definition createElement : Element := mkElement false [] [] [].

Definition set_disabled (b : bool) (e : Element) : Element :=
  mkElement b (classList e) (text e) (styleDisplay e).
Definition set_classList (l : list jsstring) (e : Element) : Element :=
  mkElement (disabled e) l (text e) (styleDisplay e).
Definition set_text (t : jsstring) (e : Element) : Element :=
  mkElement (disabled e) (classList e) t (styleDisplay e).
Definition set_styleDisplay (d : jsstring) (e : Element) : Element :=
  mkElement (disabled e) (classList e) (text e) d.

(** DOMTokenList: an ordered set of tokens. *)
Definition contains (t : jsstring) (l : list jsstring) : bool :=
  existsb (str_eqb t) l.
Definition token_add (t : jsstring) (l : list jsstring) : list jsstring :=
  if contains t l then l else l ++ [t].
Definition token_remove (t : jsstring) (l : list jsstring) : list jsstring :=
  filter (fun u => negb (str_eqb t u)) l.
Definition token_toggle (t : jsstring) (force : bool) (l : list jsstring)
  : list jsstring :=
  if force then token_add t l else token_remove t l.

(** classList.toggle(t), without the force argument. *)
Definition token_flip (t : jsstring) (l : list jsstring) : list jsstring :=
  if contains t l then token_remove t l else l ++ [t].

Definition classList_flip (t : jsstring) (e : Element) : Element :=
  set_classList (token_flip t (classList e)) e.

Definition classList_add (t : jsstring) (e : Element) : Element :=
  set_classList (token_add t (classList e)) e.
Definition classList_remove (t : jsstring) (e : Element) : Element :=
  set_classList (token_remove t (classList e)) e.
Definition classList_toggle (t : jsstring) (force : bool) (e : Element) : Element :=
  set_classList (token_toggle t force (classList e)) e.

(** *** setInterval / clearInterval

    [live] lists the handles whose callback is still scheduled;
    [cancelled] counts the calls of clearInterval that removed one. *)

Record Timers : Type := mkTimers {
  issued : nat;
  live : list nat;
  cancelled : nat
}.

Definition no_timers : Timers := mkTimers 0 [] 0.

Definition setInterval (t : Timers) : nat * Timers :=
  let h := S (issued t) in
  (h, mkTimers h (live t ++ [h]) (cancelled t)).

Definition clearInterval (h : option nat) (t : Timers) : Timers :=
  match h with
  | Some id =>
      if existsb (Nat.eqb id) (live t)
      then mkTimers (issued t)
                    (filter (fun x => negb (Nat.eqb id x)) (live t))
                    (S (cancelled t))
      else t
  | None => t
  end.

End JS.

Import JS.

Notation "x <- m ;; k" := (JS.bind m (fun x => k))
  (at level 61, m at next level, right associativity).

(* ================================================================== *)
(** ** token_timer.js *)

Module TokenTimer.

(** The three elements the script looks up, by id: "token-timer",
    "resend-btn" and "verify-btn". *)
Inductive ref : Type := TokenTimerEl | ResendBtn | VerifyBtn.

Record Page : Type := mkPage {
  token_timer : option Element;
  resend_btn : option Element;
  verify_btn : option Element;
  parent_appended : list Element     (* children appended to the parent of #token-timer *)
}.

Definition lookup (p : Page) (r : ref) : option Element :=
  match r with
  | TokenTimerEl => token_timer p
  | ResendBtn => resend_btn p
  | VerifyBtn => verify_btn p
  end.

Definition getElementById (p : Page) (r : ref) : option ref :=
  match lookup p r with
  | Some _ => Some r
  | None => None
  end.

Definition update (r : ref) (f : Element -> Element) (p : Page) : Page :=
  match r with
  | TokenTimerEl =>
      mkPage (option_map f (token_timer p)) (resend_btn p) (verify_btn p)
             (parent_appended p)
  | ResendBtn =>
      mkPage (token_timer p) (option_map f (resend_btn p)) (verify_btn p)
             (parent_appended p)
  | VerifyBtn =>
      mkPage (token_timer p) (resend_btn p) (option_map f (verify_btn p))
             (parent_appended p)
  end.

Definition appendChild (child : Element) (p : Page) : Page :=
  mkPage (token_timer p) (resend_btn p) (verify_btn p)
         (parent_appended p ++ [child]).

(** The script's file-scope variables, the page, and the browser's timers. *)
Record State : Type := mkState {
  countdown : Z;
  timerDisplay : option ref;
  resendButton : option ref;
  verifyButton : option ref;
  timerInterval : option nat;
  page : Page;
  timers : Timers
}.

Definition with_countdown (c : Z) (s : State) : State :=
  mkState c (timerDisplay s) (resendButton s) (verifyButton s)
          (timerInterval s) (page s) (timers s).
Definition with_refs (d r v : option ref) (s : State) : State :=
  mkState (countdown s) d r v (timerInterval s) (page s) (timers s).
Definition with_timerInterval (h : option nat) (s : State) : State :=
  mkState (countdown s) (timerDisplay s) (resendButton s) (verifyButton s)
          h (page s) (timers s).
Definition with_page (p : Page) (s : State) : State :=
  mkState (countdown s) (timerDisplay s) (resendButton s) (verifyButton s)
          (timerInterval s) p (timers s).
Definition with_timers (t : Timers) (s : State) : State :=
  mkState (countdown s) (timerDisplay s) (resendButton s) (verifyButton s)
          (timerInterval s) (page s) t.

(** [target.property = value] and friends: a TypeError on a null target. *)
Definition assign (target : option ref) (f : Element -> Element) (s : State)
  : outcome State :=
  match target with
  | Some r => Normal (with_page (update r f (page s)) s)
  | None => Throws TypeError
  end.

(** [target.parentNode.appendChild(child)]; an element found by
    getElementById is in the document, so it has a parent. *)
Definition appendToParent (target : option ref) (child : Element) (s : State)
  : outcome State :=
  match target with
  | Some _ => Normal (with_page (appendChild child (page s)) s)
  | None => Throws TypeError
  end.

(** Lines 9-15: the script body, run when the file is loaded (with the
    document already parsed, so that it sees #token-timer if the page has
    one).  [data_seconds] is the data-seconds attribute the server rendered
    on #token-timer ([None] when the attribute is absent); the script reads
    it once and never writes it. *)
Definition countdownRaw (data_seconds : option jsstring) (p : Page)
  : option jsstring :=
  match token_timer p with
  | Some _ => data_seconds
  | None => None
  end.

Definition load (data_seconds : option jsstring) (p : Page) : State :=
  let countdown :=
    match parseInt10 (countdownRaw data_seconds p) with
    | Some c => c
    | None => 180
    end in
  mkState countdown None None None None p no_timers.

Definition expiredMessage : jsstring :=
  9940%N :: lit " Token invalid or expired "
  ++ 8212%N :: lit " please request a new code.".

Definition warningMessage : jsstring :=
  9888%N :: 65039%N
  :: lit " After 3 failed attempts, your session will be blocked.".

Definition warningDiv : Element :=
  set_text warningMessage
    (set_classList [lit "text-warning"; lit "small"; lit "mt-2"; lit "text-center"]
       createElement).

Definition remainingText (c : Z) : jsstring :=
  let minutes := c / 60 in
  let seconds := Z.rem c 60 in
  lit "Token expires in " ++ Number_toString minutes ++ lit ":"
  ++ padStart 2 (lit "0") (Number_toString seconds) ++ lit " seconds".

(** Lines 26-66.  [countdown--] is exact on safe integers. *)
Definition updateTimer (s : State) : outcome State :=
  match timerDisplay s with
  | None => Normal s
  | Some _ =>
      if countdown s <=? 0 then
        let s := with_timers (clearInterval (timerInterval s) (timers s)) s in
        s <- assign (timerDisplay s) (set_text expiredMessage) s ;;
        s <- appendToParent (timerDisplay s) warningDiv s ;;
        s <- match resendButton s with
             | Some _ =>
                 s <- assign (resendButton s) (set_disabled false) s ;;
                 s <- assign (resendButton s)
                        (classList_remove (lit "btn-resend-disabled")) s ;;
                 s <- assign (resendButton s)
                        (classList_add (lit "btn-resend-active")) s ;;
                 assign (resendButton s) (set_text (lit "Re-send Code")) s
             | None => Normal s
             end ;;
        match verifyButton s with
        | Some _ =>
            s <- assign (verifyButton s) (set_disabled true) s ;;
            assign (verifyButton s) (classList_add (lit "btn-verify-disabled")) s
        | None => Normal s
        end
      else
        s <- assign (timerDisplay s) (set_text (remainingText (countdown s))) s ;;
        Normal (with_countdown (countdown s - 1) s)
  end.

Definition initTokenTimer (s : State) : outcome State :=
  let s := with_refs (getElementById (page s) TokenTimerEl)
                     (getElementById (page s) ResendBtn)
                     (getElementById (page s) VerifyBtn) s in
  match timerDisplay s with
  | None => Normal s
  | Some _ =>
      s <- match resendButton s with
           | Some _ =>
               s <- assign (resendButton s) (set_disabled true) s ;;
               assign (resendButton s) (classList_add (lit "btn-resend-disabled")) s
           | None => Normal s
           end ;;
      s <- match verifyButton s with
           | Some _ =>
               s <- assign (verifyButton s) (set_disabled false) s ;;
               assign (verifyButton s)
                 (classList_remove (lit "btn-verify-disabled")) s
           | None => Normal s
           end ;;
      s <- updateTimer s ;;
      let '(h, t) := setInterval (timers s) in
      Normal (with_timerInterval (Some h) (with_timers t s))
  end.

(** One second passes: the interval, if still scheduled, fires once.
    (initTokenTimer runs once per page, so at most one interval exists.) *)
Definition tick (s : State) : outcome State :=
  match live (timers s) with
  | [] => Normal s
  | _ :: _ => updateTimer s
  end.

Fixpoint ticks (k : nat) (s : State) : outcome State :=
  match k with
  | O => Normal s
  | S k' => s' <- tick s ;; ticks k' s'
  end.

(** The page is loaded and DOMContentLoaded fires, then [k] seconds pass. *)
Definition run (data_seconds : option jsstring) (p : Page) (k : nat)
  : outcome State :=
  s <- initTokenTimer (load data_seconds p) ;; ticks k s.

(** The operations that can reach a started controller: the interval
    fires, or updateTimer is called directly. *)
Inductive op : Type := Fire | Call.

Definition step (o : op) (s : State) : outcome State :=
  match o with
  | Fire => tick s
  | Call => updateTimer s
  end.

Fixpoint exec (ops : list op) (s : State) : outcome State :=
  match ops with
  | [] => Normal s
  | o :: rest => s' <- step o s ;; exec rest s'
  end.

(** The page without one of its elements. *)
Definition remove (r : ref) (p : Page) : Page :=
  match r with
  | TokenTimerEl => mkPage None (resend_btn p) (verify_btn p) (parent_appended p)
  | ResendBtn => mkPage (token_timer p) None (verify_btn p) (parent_appended p)
  | VerifyBtn => mkPage (token_timer p) (resend_btn p) None (parent_appended p)
  end.

(** The state of the script had the page lacked element [r]: the variable
    for [r] is null and the element is not there. *)
Definition drop (r : ref) (s : State) : State :=
  mkState (countdown s)
          (match r with TokenTimerEl => None | _ => timerDisplay s end)
          (match r with ResendBtn => None | _ => resendButton s end)
          (match r with VerifyBtn => None | _ => verifyButton s end)
          (timerInterval s) (remove r (page s)) (timers s).

(** *** Observations and invariants used by the statements *)

(** What a user and the browser see of the controller. *)
Record Snapshot : Type := mkSnapshot {
  seen_countdown : Z;
  seen_text : option jsstring;             (* text of #token-timer *)
  seen_verify_disabled : option bool;
  seen_resend_disabled : option bool;
  seen_scheduled : list nat;               (* handles still scheduled *)
  seen_cancelled : nat
}.

Definition snapshot (s : State) : Snapshot :=
  mkSnapshot (countdown s)
             (option_map text (token_timer (page s)))
             (option_map disabled (verify_btn (page s)))
             (option_map disabled (resend_btn (page s)))
             (live (timers s)) (cancelled (timers s)).

Definition displayed (s : State) : option jsstring :=
  option_map text (token_timer (page s)).

Definition verify_disabled (s : State) : Prop :=
  forall b, verify_btn (page s) = Some b -> disabled b = true.
Definition verify_enabled (s : State) : Prop :=
  forall b, verify_btn (page s) = Some b -> disabled b = false.
Definition resend_disabled (s : State) : Prop :=
  forall b, resend_btn (page s) = Some b -> disabled b = true.
Definition resend_enabled (s : State) : Prop :=
  forall b, resend_btn (page s) = Some b -> disabled b = false.

(** Both controls are on the page and neither is disabled. *)
Definition both_enabled (s : State) : bool :=
  match verify_btn (page s), resend_btn (page s) with
  | Some v, Some r => negb (disabled v) && negb (disabled r)
  | _, _ => false
  end.

(** The variables refer to the elements the page has. *)
Definition bound (s : State) : Prop :=
  timerDisplay s = Some TokenTimerEl
  /\ token_timer (page s) <> None
  /\ resendButton s = getElementById (page s) ResendBtn
  /\ verifyButton s = getElementById (page s) VerifyBtn.

(** The interval is scheduled and nothing was cancelled yet. *)
Definition armed (s : State) : Prop :=
  exists h, timerInterval s = Some h
            /\ live (timers s) = [h] /\ cancelled (timers s) = 0%nat.

(** The interval was cancelled, once, and nothing is scheduled. *)
Definition idle (s : State) : Prop :=
  live (timers s) = [] /\ cancelled (timers s) = 1%nat.

Definition fresh (s : State) : Prop := verify_enabled s /\ resend_disabled s.

Definition flipped (s : State) : Prop :=
  displayed s = Some expiredMessage /\ verify_disabled s /\ resend_enabled s.

(** Counting down: [c] is the value the next firing will show. *)
Definition Counting (c : Z) (s : State) : Prop :=
  bound s /\ armed s /\ fresh s /\ countdown s = c /\ 0 <= c
  /\ displayed s = Some (remainingText (c + 1)).

(** Expired at load: the controls are flipped, the interval just started. *)
Definition ExpiredLive (s : State) : Prop :=
  bound s /\ armed s /\ flipped s /\ countdown s <= 0.

Definition Expired (s : State) : Prop :=
  bound s /\ idle s /\ flipped s /\ countdown s <= 0.

(** The page after the expired branch of updateTimer, when the variables
    are bound to the page's elements. *)
Definition expired_page (p : Page) : Page :=
  update VerifyBtn
    (fun e => classList_add (lit "btn-verify-disabled") (set_disabled true e))
    (update ResendBtn
       (fun e => set_text (lit "Re-send Code")
                   (classList_add (lit "btn-resend-active")
                      (classList_remove (lit "btn-resend-disabled")
                         (set_disabled false e))))
       (appendChild warningDiv (update TokenTimerEl (set_text expiredMessage) p))).

(** The page after the button set-up of initTokenTimer. *)
Definition initial_page (p : Page) : Page :=
  update VerifyBtn
    (fun e => classList_remove (lit "btn-verify-disabled") (set_disabled false e))
    (update ResendBtn
       (fun e => classList_add (lit "btn-resend-disabled") (set_disabled true e))
       p).

(** The page while the display reads [v]: the buttons as initTokenTimer
    left them, the text of the last call of updateTimer. *)
Definition counting_page (v : Z) (p : Page) : Page :=
  update TokenTimerEl (set_text (remainingText v)) (initial_page p).

(** The page [k] seconds after initialization with the value [n]. *)
Definition page_at (n : Z) (k : nat) (p : Page) : Page :=
  if 0 <? n then
    if Z.of_nat k <? n then counting_page (n - Z.of_nat k) p
    else expired_page (counting_page 1 p)
  else
    match k with
    | O => expired_page (initial_page p)
    | S _ => expired_page (expired_page (initial_page p))
    end.

(** How many warnings have been appended by then. *)
Definition warnings_shown (n : Z) (k : nat) : nat :=
  if 0 <? n then (if Z.of_nat k <? n then 0 else 1)
  else match k with O => 1 | S _ => 2 end.

(** The state in which initTokenTimer makes its call of updateTimer. *)
Definition ready (c : Z) (p : Page) : State :=
  mkState c (Some TokenTimerEl) (getElementById p ResendBtn)
          (getElementById p VerifyBtn) None (initial_page p) no_timers.

(** The last two lines of initTokenTimer. *)
Definition arm (s : State) : State :=
  let '(h, t) := setInterval (timers s) in
  with_timerInterval (Some h) (with_timers t s).

End TokenTimer.

(* ================================================================== *)
(** ** token_status_checker.js *)

Module StatusChecker.

(** Ids "verification_code", "verify-code-button", "resend-code-button"
    and "countdown-timer". *)
Inductive ref : Type := CodeTextarea | VerifyButton | ResendButton | CountdownTimer.

Record Page : Type := mkPage {
  verification_code : option Element;
  verify_code_button : option Element;
  resend_code_button : option Element;
  countdown_timer : option Element
}.

Definition lookup (p : Page) (r : ref) : option Element :=
  match r with
  | CodeTextarea => verification_code p
  | VerifyButton => verify_code_button p
  | ResendButton => resend_code_button p
  | CountdownTimer => countdown_timer p
  end.

Definition getElementById (p : Page) (r : ref) : option ref :=
  match lookup p r with
  | Some _ => Some r
  | None => None
  end.

Definition update (r : ref) (f : Element -> Element) (p : Page) : Page :=
  match r with
  | CodeTextarea =>
      mkPage (option_map f (verification_code p)) (verify_code_button p)
             (resend_code_button p) (countdown_timer p)
  | VerifyButton =>
      mkPage (verification_code p) (option_map f (verify_code_button p))
             (resend_code_button p) (countdown_timer p)
  | ResendButton =>
      mkPage (verification_code p) (verify_code_button p)
             (option_map f (resend_code_button p)) (countdown_timer p)
  | CountdownTimer =>
      mkPage (verification_code p) (verify_code_button p)
             (resend_code_button p) (option_map f (countdown_timer p))
  end.

(** The [config] argument and the [state] object built from it.
    [initialCountdown] is a whole number of seconds, as the page's template
    writes it; a fraction or a missing value is not represented. *)
Record Config : Type := mkConfig {
  config_canVerify : bool;
  config_canResend : bool;
  config_isExpired : bool;
  initialCountdown : Z
}.

Record Flags : Type := mkFlags {
  canVerify : bool;
  canResend : bool;
  isExpired : bool;
  timeLeft : Z
}.

(** The closure of initTokenStatusChecker: its constants, [state],
    [countdownInterval], and the page and timers it acts on. *)
Record State : Type := mkState {
  codeTextarea : option ref;
  verifyButton : option ref;
  resendButton : option ref;
  countdownTimerEl : option ref;
  state : Flags;
  countdownInterval : option nat;
  page : Page;
  timers : Timers
}.

Definition with_state (f : Flags) (s : State) : State :=
  mkState (codeTextarea s) (verifyButton s) (resendButton s) (countdownTimerEl s)
          f (countdownInterval s) (page s) (timers s).
Definition with_countdownInterval (h : option nat) (s : State) : State :=
  mkState (codeTextarea s) (verifyButton s) (resendButton s) (countdownTimerEl s)
          (state s) h (page s) (timers s).
Definition with_page (p : Page) (s : State) : State :=
  mkState (codeTextarea s) (verifyButton s) (resendButton s) (countdownTimerEl s)
          (state s) (countdownInterval s) p (timers s).
Definition with_timers (t : Timers) (s : State) : State :=
  mkState (codeTextarea s) (verifyButton s) (resendButton s) (countdownTimerEl s)
          (state s) (countdownInterval s) (page s) t.

Definition assign (target : option ref) (f : Element -> Element) (s : State)
  : outcome State :=
  match target with
  | Some r => Normal (with_page (update r f (page s)) s)
  | None => Throws TypeError
  end.

Definition updateUI (s : State) : outcome State :=
  s <- match codeTextarea s with
       | Some _ => assign (codeTextarea s) (set_disabled (negb (canVerify (state s)))) s
       | None => Normal s
       end ;;
  s <- match verifyButton s with
       | Some _ => assign (verifyButton s) (set_disabled (negb (canVerify (state s)))) s
       | None => Normal s
       end ;;
  match resendButton s with
  | Some _ => assign (resendButton s) (set_disabled (negb (canResend (state s)))) s
  | None => Normal s
  end.

(** The arrow function handed to setInterval (lines 46-62).
    [state.timeLeft--] is exact on safe integers. *)
Definition onInterval (s : State) : outcome State :=
  let st := state s in
  let s := with_state (mkFlags (canVerify st) (canResend st) (isExpired st)
                               (timeLeft st - 1)) s in
  s <- match countdownTimerEl s with
       | Some _ =>
           assign (countdownTimerEl s)
                  (set_text (Number_toString (timeLeft (state s)))) s
       | None => Normal s
       end ;;
  if timeLeft (state s) <=? 0 then
    let s := with_timers (clearInterval (countdownInterval s) (timers s)) s in
    let s := with_state (mkFlags false true true (timeLeft (state s))) s in
    updateUI s
  else Normal s.

Definition startCountdown (s : State) : outcome State :=
  let s := with_timers (clearInterval (countdownInterval s) (timers s)) s in
  if timeLeft (state s) <=? 0 then
    s <- match countdownTimerEl s with
         | Some _ => assign (countdownTimerEl s) (set_text (lit "0")) s
         | None => Normal s
         end ;;
    updateUI s
  else
    let '(h, t) := setInterval (timers s) in
    Normal (with_countdownInterval (Some h) (with_timers t s)).

Definition initTokenStatusChecker (config : Config) (p : Page) : outcome State :=
  let s := mkState (getElementById p CodeTextarea)
                   (getElementById p VerifyButton)
                   (getElementById p ResendButton)
                   (getElementById p CountdownTimer)
                   (mkFlags (config_canVerify config) (config_canResend config)
                            (config_isExpired config) (initialCountdown config))
                   None p no_timers in
  s <- updateUI s ;;
  startCountdown s.

Definition tick (s : State) : outcome State :=
  match live (timers s) with
  | [] => Normal s
  | _ :: _ => onInterval s
  end.

Fixpoint ticks (k : nat) (s : State) : outcome State :=
  match k with
  | O => Normal s
  | S k' => s' <- tick s ;; ticks k' s'
  end.

Definition run (config : Config) (p : Page) (k : nat) : outcome State :=
  s <- initTokenStatusChecker config p ;; ticks k s.

(** The operations that can reach a started controller: the interval
    fires, its callback is called directly, or the controls are rendered. *)
Inductive op : Type := Fire | Callback | Render.

Definition step (o : op) (s : State) : outcome State :=
  match o with
  | Fire => tick s
  | Callback => onInterval s
  | Render => updateUI s
  end.

Fixpoint exec (ops : list op) (s : State) : outcome State :=
  match ops with
  | [] => Normal s
  | o :: rest => s' <- step o s ;; exec rest s'
  end.

(** The page without one of its elements. *)
Definition remove (r : ref) (p : Page) : Page :=
  match r with
  | CodeTextarea =>
      mkPage None (verify_code_button p) (resend_code_button p) (countdown_timer p)
  | VerifyButton =>
      mkPage (verification_code p) None (resend_code_button p) (countdown_timer p)
  | ResendButton =>
      mkPage (verification_code p) (verify_code_button p) None (countdown_timer p)
  | CountdownTimer =>
      mkPage (verification_code p) (verify_code_button p) (resend_code_button p) None
  end.

(** The closure had the page lacked element [r]. *)
Definition drop (r : ref) (s : State) : State :=
  mkState (match r with CodeTextarea => None | _ => codeTextarea s end)
          (match r with VerifyButton => None | _ => verifyButton s end)
          (match r with ResendButton => None | _ => resendButton s end)
          (match r with CountdownTimer => None | _ => countdownTimerEl s end)
          (state s) (countdownInterval s) (remove r (page s)) (timers s).

(** *** Observations and invariants used by the statements *)

(** What a user and the browser see of the controller. *)
Record Snapshot : Type := mkSnapshot {
  seen_state : Flags;
  seen_text : option jsstring;             (* text of #countdown-timer *)
  seen_verify_disabled : option bool;
  seen_resend_disabled : option bool;
  seen_scheduled : list nat;               (* handles still scheduled *)
  seen_cancelled : nat
}.

Definition snapshot (s : State) : Snapshot :=
  mkSnapshot (state s)
             (option_map text (countdown_timer (page s)))
             (option_map disabled (verify_code_button (page s)))
             (option_map disabled (resend_code_button (page s)))
             (live (timers s)) (cancelled (timers s)).

Definition flags_of (config : Config) : Flags :=
  mkFlags (config_canVerify config) (config_canResend config)
          (config_isExpired config) (initialCountdown config).

Definition with_timeLeft (t : Z) (f : Flags) : Flags :=
  mkFlags (canVerify f) (canResend f) (isExpired f) t.

(** Every element the display is bound to shows [t]. *)
Definition shows (t : jsstring) (s : State) : Prop :=
  forall e, countdown_timer (page s) = Some e -> text e = t.

(** The controls on the page reflect the flags [f]. *)
Definition rendered (f : Flags) (p : Page) : Prop :=
  (forall e, verification_code p = Some e -> disabled e = negb (canVerify f))
  /\ (forall e, verify_code_button p = Some e -> disabled e = negb (canVerify f))
  /\ (forall e, resend_code_button p = Some e -> disabled e = negb (canResend f)).

Definition bound (s : State) : Prop :=
  codeTextarea s = getElementById (page s) CodeTextarea
  /\ verifyButton s = getElementById (page s) VerifyButton
  /\ resendButton s = getElementById (page s) ResendButton
  /\ countdownTimerEl s = getElementById (page s) CountdownTimer.

Definition armed (s : State) : Prop :=
  exists h, countdownInterval s = Some h
            /\ live (timers s) = [h] /\ cancelled (timers s) = 0%nat.

Definition idle (s : State) : Prop :=
  live (timers s) = [] /\ cancelled (timers s) = 1%nat.

(** Counting down with the configured flags and [t] seconds left. *)
Definition Counting (config : Config) (t : Z) (s : State) : Prop :=
  bound s /\ armed s /\ rendered (state s) (page s)
  /\ state s = with_timeLeft t (flags_of config) /\ 0 < t.

Definition Expired (s : State) : Prop :=
  bound s /\ idle s /\ rendered (state s) (page s)
  /\ state s = mkFlags false true true 0
  /\ shows (lit "0") s.

(** The page after updateUI, when the constants are bound to the page. *)
Definition ui_page (f : Flags) (p : Page) : Page :=
  update ResendButton (set_disabled (negb (canResend f)))
    (update VerifyButton (set_disabled (negb (canVerify f)))
       (update CodeTextarea (set_disabled (negb (canVerify f))) p)).

End StatusChecker.

(* ================================================================== *)
(** ** verify_account.js *)

Module VerifyAccount.

(** Ids "timer" and "resendButton". *)
Inductive ref : Type := Timer | ResendButton.

Record Page : Type := mkPage {
  timer : option Element;
  resendButton_el : option Element
}.

Definition lookup (p : Page) (r : ref) : option Element :=
  match r with
  | Timer => timer p
  | ResendButton => resendButton_el p
  end.

Definition getElementById (p : Page) (r : ref) : option ref :=
  match lookup p r with
  | Some _ => Some r
  | None => None
  end.

Definition update (r : ref) (f : Element -> Element) (p : Page) : Page :=
  match r with
  | Timer => mkPage (option_map f (timer p)) (resendButton_el p)
  | ResendButton => mkPage (timer p) (option_map f (resendButton_el p))
  end.

(** [scheduled]: a setTimeout(updateTimer, 1000) is pending. *)
Record State : Type := mkState {
  countdown : Z;
  resendButton : option ref;
  page : Page;
  scheduled : bool
}.

Definition with_page (p : Page) (s : State) : State :=
  mkState (countdown s) (resendButton s) p (scheduled s).

Definition assign (target : option ref) (f : Element -> Element) (s : State)
  : outcome State :=
  match target with
  | Some r => Normal (with_page (update r f (page s)) s)
  | None => Throws TypeError
  end.

Definition load (p : Page) : State := mkState 60 None p false.

Definition clockText (c : Z) : jsstring :=
  let minutes := c / 60 in
  let seconds := Z.rem c 60 in
  Number_toString minutes ++ lit ":"
  ++ (if seconds <? 10 then lit "0" else lit "") ++ Number_toString seconds.

Definition updateTimer (s : State) : outcome State :=
  let timerDisplay := getElementById (page s) Timer in
  s <- assign timerDisplay (set_text (clockText (countdown s))) s ;;
  if 0 <? countdown s then
    Normal (mkState (countdown s - 1) (resendButton s) (page s) true)
  else
    s <- assign timerDisplay (set_text (lit "You can now re-send the code.")) s ;;
    match resendButton s with
    | Some _ => assign (resendButton s) (set_disabled false) s
    | None => Normal s
    end.

Definition initVerifyAccountFlow (s : State) : outcome State :=
  let s := mkState (countdown s) (getElementById (page s) ResendButton)
                   (page s) (scheduled s) in
  s <- match resendButton s with
       | Some _ => assign (resendButton s) (set_disabled true) s
       | None => Normal s
       end ;;
  updateTimer s.

(** One second passes: a pending timeout fires, once. *)
Definition tick (s : State) : outcome State :=
  if scheduled s
  then updateTimer (mkState (countdown s) (resendButton s) (page s) false)
  else Normal s.

Fixpoint ticks (k : nat) (s : State) : outcome State :=
  match k with
  | O => Normal s
  | S k' => s' <- tick s ;; ticks k' s'
  end.

(** window.onload fires, then [k] seconds pass. *)
Definition run (p : Page) (k : nat) : outcome State :=
  s <- initVerifyAccountFlow (load p) ;; ticks k s.

Definition resendMessage : jsstring := lit "You can now re-send the code.".

(** Counting down: [c] is the value the pending call will show. *)
Definition Counting (c : Z) (s : State) : Prop :=
  countdown s = c /\ 0 <= c /\ scheduled s = true
  /\ resendButton s = getElementById (page s) ResendButton
  /\ option_map text (timer (page s)) = Some (clockText (c + 1))
  /\ (forall b, resendButton_el (page s) = Some b -> disabled b = true).

Definition Finished (s : State) : Prop :=
  countdown s = 0 /\ scheduled s = false
  /\ option_map text (timer (page s)) = Some resendMessage
  /\ (forall b, resendButton_el (page s) = Some b -> disabled b = false).

End VerifyAccount.

(* ================================================================== *)
(** ** password_checklist.js *)

Module PasswordChecklist.

(** The keys of the [checklist] and [rules] objects, in insertion order. *)
Inductive key : Type := Length | Uppercase | Lowercase | Number | Symbol.

Definition keys : list key := [Length; Uppercase; Lowercase; Number; Symbol].

(** Ids "id_password1", "password-checklist" and "check-<key>". *)
Inductive ref : Type := PasswordInput | Container | Check (k : key).

Record Page : Type := mkPage {
  id_password1 : option jsstring;        (* the input's value, when it exists *)
  password_checklist : option Element;
  check_length : option Element;
  check_uppercase : option Element;
  check_lowercase : option Element;
  check_number : option Element;
  check_symbol : option Element
}.

Definition lookup (p : Page) (r : ref) : option Element :=
  match r with
  | PasswordInput => option_map (fun _ => createElement) (id_password1 p)
  | Container => password_checklist p
  | Check Length => check_length p
  | Check Uppercase => check_uppercase p
  | Check Lowercase => check_lowercase p
  | Check Number => check_number p
  | Check Symbol => check_symbol p
  end.

Definition getElementById (p : Page) (r : ref) : option ref :=
  match lookup p r with
  | Some _ => Some r
  | None => None
  end.

Definition update (r : ref) (f : Element -> Element) (p : Page) : Page :=
  match r with
  | PasswordInput => p
  | Container =>
      mkPage (id_password1 p) (option_map f (password_checklist p)) (check_length p)
             (check_uppercase p) (check_lowercase p) (check_number p) (check_symbol p)
  | Check Length =>
      mkPage (id_password1 p) (password_checklist p) (option_map f (check_length p))
             (check_uppercase p) (check_lowercase p) (check_number p) (check_symbol p)
  | Check Uppercase =>
      mkPage (id_password1 p) (password_checklist p) (check_length p)
             (option_map f (check_uppercase p)) (check_lowercase p) (check_number p)
             (check_symbol p)
  | Check Lowercase =>
      mkPage (id_password1 p) (password_checklist p) (check_length p)
             (check_uppercase p) (option_map f (check_lowercase p)) (check_number p)
             (check_symbol p)
  | Check Number =>
      mkPage (id_password1 p) (password_checklist p) (check_length p)
             (check_uppercase p) (check_lowercase p) (option_map f (check_number p))
             (check_symbol p)
  | Check Symbol =>
      mkPage (id_password1 p) (password_checklist p) (check_length p)
             (check_uppercase p) (check_lowercase p) (check_number p)
             (option_map f (check_symbol p))
  end.

(** What the DOMContentLoaded handler leaves behind: its constants, and
    whether it registered the input listener. *)
Record State : Type := mkState {
  passwordInput : option ref;
  checklistContainer : option ref;
  checklist : key -> option ref;
  listening : bool;
  page : Page
}.

Definition with_page (p : Page) (s : State) : State :=
  mkState (passwordInput s) (checklistContainer s) (checklist s) (listening s) p.

Definition assign (target : option ref) (f : Element -> Element) (s : State)
  : outcome State :=
  match target with
  | Some r => Normal (with_page (update r f (page s)) s)
  | None => Throws TypeError
  end.

(** [target.value] *)
Definition value_of (target : option ref) (s : State) : outcome jsstring :=
  match target with
  | Some _ =>
      match id_password1 (page s) with
      | Some v => Normal v
      | None => Throws TypeError
      end
  | None => Throws TypeError
  end.

Definition onDOMContentLoaded (p : Page) : State :=
  let passwordInput := getElementById p PasswordInput in
  match passwordInput with
  | None => mkState None None (fun _ => None) false p
  | Some _ =>
      mkState passwordInput (getElementById p Container)
              (fun k => getElementById p (Check k)) true p
  end.

(** The regular expressions, tested on code units (no flags). *)
Definition upper (c : N) : bool := ((65 <=? c) && (c <=? 90))%N.
Definition lower (c : N) : bool := ((97 <=? c) && (c <=? 122))%N.
Definition digit (c : N) : bool := ((48 <=? c) && (c <=? 57))%N.

Definition rules (val : jsstring) (k : key) : bool :=
  match k with
  | Length => (8 <=? length val)%nat
  | Uppercase => existsb upper val
  | Lowercase => existsb lower val
  | Number => existsb digit val
  | Symbol => existsb (fun c => negb (upper c || lower c || digit c)) val
  end.

Fixpoint toggle_each (val : jsstring) (ks : list key) (s : State) : outcome State :=
  match ks with
  | [] => Normal s
  | k :: rest =>
      s <- assign (checklist s k) (classList_toggle (lit "valid") (rules val k)) s ;;
      toggle_each val rest s
  end.

Definition onInput (s : State) : outcome State :=
  val <- value_of (passwordInput s) s ;;
  s <- toggle_each val keys s ;;
  let allValid := forallb (fun k => rules val k) keys in
  if allValid
  then assign (checklistContainer s) (set_styleDisplay (lit "none")) s
  else assign (checklistContainer s) (set_styleDisplay (lit "block")) s.

(** The user edits the field to [val]; the browser dispatches "input". *)
Definition input (val : jsstring) (s : State) : outcome State :=
  let p := page s in
  let s := with_page (mkPage (option_map (fun _ => val) (id_password1 p))
                             (password_checklist p) (check_length p)
                             (check_uppercase p) (check_lowercase p)
                             (check_number p) (check_symbol p)) s in
  if listening s then onInput s else Normal s.

(** The page after the input listener ran on the value [val], on a page
    that has every element. *)
Definition after_input (val : jsstring) (p : Page) : Page :=
  let shown := if forallb (fun k => rules val k) keys
               then lit "none" else lit "block" in
  mkPage (option_map (fun _ => val) (id_password1 p))
         (option_map (set_styleDisplay shown) (password_checklist p))
         (option_map (classList_toggle (lit "valid") (rules val Length))
                     (check_length p))
         (option_map (classList_toggle (lit "valid") (rules val Uppercase))
                     (check_uppercase p))
         (option_map (classList_toggle (lit "valid") (rules val Lowercase))
                     (check_lowercase p))
         (option_map (classList_toggle (lit "valid") (rules val Number))
                     (check_number p))
         (option_map (classList_toggle (lit "valid") (rules val Symbol))
                     (check_symbol p)).

(** A page that has the field, the container and the five items. *)
Definition complete (p : Page) : Prop :=
  id_password1 p <> None /\ password_checklist p <> None
  /\ forall k, lookup p (Check k) <> None.

(** *** The five rules, as the checklist words them *)

Definition holds (val : jsstring) (k : key) : Prop :=
  match k with
  | Length => (8 <= length val)%nat
  | Uppercase => exists c, In c val /\ (65 <= c <= 90)%N       (* A-Z *)
  | Lowercase => exists c, In c val /\ (97 <= c <= 122)%N      (* a-z *)
  | Number => exists c, In c val /\ (48 <= c <= 57)%N          (* 0-9 *)
  | Symbol =>
      exists c, In c val
                /\ ~ (65 <= c <= 90)%N /\ ~ (97 <= c <= 122)%N /\ ~ (48 <= c <= 57)%N
  end.

End PasswordChecklist.

(* ================================================================== *)
(** ** login.js *)

Module Login.

(** Ids "id_password" and "togglePassword", and the first element of
    class "toggle-password". *)
Inductive ref : Type := PasswordField | TogglePassword | ToggleIcon.

Record Page : Type := mkPage {
  id_password : option (option jsstring);  (* the field's type attribute, when the field exists *)
  id_togglePassword : option Element;
  class_toggle_password : option Element
}.

Definition getElementById (p : Page) (r : ref) : option ref :=
  match r with
  | PasswordField => option_map (fun _ => r) (id_password p)
  | TogglePassword => option_map (fun _ => r) (id_togglePassword p)
  | ToggleIcon => option_map (fun _ => r) (class_toggle_password p)
  end.

(** document.querySelector, for the one selector the script uses. *)
Definition querySelector (p : Page) (r : ref) : option ref := getElementById p r.

(** [target.type = v] and [target.setAttribute('type', v)] *)
Definition set_type (target : option ref) (v : jsstring) (p : Page) : outcome Page :=
  match target with
  | Some _ =>
      Normal (mkPage (option_map (fun _ => Some v) (id_password p))
                     (id_togglePassword p) (class_toggle_password p))
  | None => Throws TypeError
  end.

(** [target.getAttribute('type')]: [None] is null, the attribute is absent. *)
Definition get_type (target : option ref) (p : Page) : outcome (option jsstring) :=
  match target with
  | Some _ =>
      match id_password p with
      | Some t => Normal t
      | None => Throws TypeError
      end
  | None => Throws TypeError
  end.

Definition set_icon_text (target : option ref) (t : jsstring) (p : Page)
  : outcome Page :=
  match target with
  | Some _ =>
      Normal (mkPage (id_password p) (id_togglePassword p)
                     (option_map (set_text t) (class_toggle_password p)))
  | None => Throws TypeError
  end.

(** *** Show the password while the eye icon is pressed (lines 1-29) *)

Record State : Type := mkState {
  passwordInput : option ref;
  togglePassword : option ref;
  listening : bool;              (* the five listeners are registered *)
  page : Page
}.

Definition onDOMContentLoaded (p : Page) : State :=
  let passwordInput := getElementById p PasswordField in
  let togglePassword := getElementById p TogglePassword in
  match passwordInput, togglePassword with
  | Some _, Some _ => mkState passwordInput togglePassword true p
  | _, _ => mkState passwordInput togglePassword false p
  end.

Inductive event : Type := MouseDown | MouseUp | MouseLeave | TouchStart | TouchEnd.

(** The listener of each event; the boolean tells whether it called
    preventDefault. *)
Definition listener (e : event) (s : State) : outcome (bool * State) :=
  match e with
  | MouseDown =>
      p <- set_type (passwordInput s) (lit "text") (page s) ;;
      Normal (false, mkState (passwordInput s) (togglePassword s) (listening s) p)
  | MouseUp | MouseLeave | TouchEnd =>
      p <- set_type (passwordInput s) (lit "password") (page s) ;;
      Normal (false, mkState (passwordInput s) (togglePassword s) (listening s) p)
  | TouchStart =>
      p <- set_type (passwordInput s) (lit "text") (page s) ;;
      Normal (true, mkState (passwordInput s) (togglePassword s) (listening s) p)
  end.

(** The browser dispatches [e] on #togglePassword. *)
Definition dispatch (e : event) (s : State) : outcome (bool * State) :=
  if listening s then listener e s else Normal (false, s).

Fixpoint events (es : list event) (s : State) : outcome State :=
  match es with
  | [] => Normal s
  | e :: rest => r <- dispatch e s ;; events rest (snd r)
  end.

(** The events that press the icon. *)
Definition pressing (e : event) : bool :=
  match e with
  | MouseDown | TouchStart => true
  | _ => false
  end.

(** *** togglePasswordVisibility (lines 33-44) *)

Definition eyeIcon : jsstring := [55357%N; 56385%N; 65039%N].
Definition monkeyIcon : jsstring := [55357%N; 56904%N].

Definition is_password (t : option jsstring) : bool :=
  match t with
  | Some v => str_eqb v (lit "password")
  | None => false
  end.

Definition togglePasswordVisibility (p : Page) : outcome Page :=
  let passwordInput := getElementById p PasswordField in
  let toggleIcon := querySelector p ToggleIcon in
  match passwordInput, toggleIcon with
  | Some _, Some _ =>
      t <- get_type passwordInput p ;;
      let type := if is_password t then lit "text" else lit "password" in
      p <- set_type passwordInput type p ;;
      set_icon_text toggleIcon
        (if str_eqb type (lit "password") then eyeIcon else monkeyIcon) p
  | _, _ => Normal p
  end.

(** The type toggling settles on: "password" or "text". *)
Definition type_after (was_password : bool) (calls : nat) : jsstring :=
  if Bool.eqb was_password (Nat.even calls) then lit "password" else lit "text".

Definition icon_for (type : jsstring) : jsstring :=
  if str_eqb type (lit "password") then eyeIcon else monkeyIcon.

Fixpoint toggles (n : nat) (p : Page) : outcome Page :=
  match n with
  | O => Normal p
  | S n' => p' <- togglePasswordVisibility p ;; toggles n' p'
  end.

End Login.

(* ================================================================== *)
(** ** user-dropdown.js *)

Module UserDropdown.

(** Id "user-dropdown" and the first element of class "user-avatar". *)
Inductive ref : Type := Dropdown | Avatar.

Record Page : Type := mkPage {
  user_dropdown : option Element;
  user_avatar : option Element
}.

Definition getElementById (p : Page) (r : ref) : option ref :=
  match r with
  | Dropdown => option_map (fun _ => r) (user_dropdown p)
  | Avatar => option_map (fun _ => r) (user_avatar p)
  end.

(** document.querySelector, for the one selector the script uses. *)
Definition querySelector (p : Page) (r : ref) : option ref := getElementById p r.

Definition update (r : ref) (f : Element -> Element) (p : Page) : Page :=
  match r with
  | Dropdown => mkPage (option_map f (user_dropdown p)) (user_avatar p)
  | Avatar => mkPage (user_dropdown p) (option_map f (user_avatar p))
  end.

Definition assign (target : option ref) (f : Element -> Element) (p : Page)
  : outcome Page :=
  match target with
  | Some r => Normal (update r f p)
  | None => Throws TypeError
  end.

(** A click, by where its target lies: inside #user-dropdown, inside the
    avatar (an element contains itself). *)
Record Click : Type := mkClick {
  in_dropdown : bool;
  in_avatar : bool
}.

(** [target.contains(event.target)] *)
Definition contains_target (target : option ref) (answer : bool) : outcome bool :=
  match target with
  | Some _ => Normal answer
  | None => Throws TypeError
  end.

Definition toggleUserMenu (p : Page) : outcome Page :=
  let menu := getElementById p Dropdown in
  assign menu (classList_flip (lit "hidden")) p.

(** The document's click listener; [&&] evaluates its right operand only
    when the left one is true. *)
Definition onDocumentClick (ev : Click) (p : Page) : outcome Page :=
  let dropdown := getElementById p Dropdown in
  let avatar := querySelector p Avatar in
  inside <- contains_target dropdown (in_dropdown ev) ;;
  if negb inside then
    on_avatar <- contains_target avatar (in_avatar ev) ;;
    if negb on_avatar
    then assign dropdown (classList_add (lit "hidden")) p
    else Normal p
  else Normal p.

End UserDropdown.

(* ================================================================== *)
(** ** auto_logout.js

    Time is the number of milliseconds since the page was opened.  A
    timeout is due [delay] milliseconds after it was set and runs when the
    clock reaches that time. *)

Module AutoLogout.

Definition inactivityLimit : Z := 15 * 60 * 1000.

Definition logoutUrl : jsstring := lit "/users/logout/?auto=1".

Record State : Type := mkState {
  inactivityTimer : option nat;
  listening : bool;                (* the six activity listeners are attached *)
  issued : nat;                    (* handles given out so far *)
  pending : list (nat * Z);        (* handle and due time of each timeout *)
  location : option jsstring       (* where the page navigated to, if it did *)
}.

Definition initial : State := mkState None false 0 [] None.

Definition clearTimeout (h : option nat) (l : list (nat * Z)) : list (nat * Z) :=
  match h with
  | Some id => filter (fun x => negb (Nat.eqb id (fst x))) l
  | None => l
  end.

Definition resetTimer (now : Z) (s : State) : State :=
  let l := clearTimeout (inactivityTimer s) (pending s) in
  let h := S (issued s) in
  mkState (Some h) (listening s) h (l ++ [(h, now + inactivityLimit)]) (location s).

(** The "load" listener: resetTimer, then attachListeners. *)
Definition onLoad (now : Z) (s : State) : State :=
  let s := resetTimer now s in
  mkState (inactivityTimer s) true (issued s) (pending s) (location s).

(** mousemove, keydown, click, scroll, touchstart or touchmove at [now]. *)
Definition activity (now : Z) (s : State) : State :=
  if listening s then resetTimer now s else s.

(** The clock reaches [now]: every timeout that is due runs (each sets
    window.location.href) and is gone. *)
Definition advance (now : Z) (s : State) : State :=
  let due := filter (fun x => snd x <=? now) (pending s) in
  let rest := filter (fun x => negb (snd x <=? now)) (pending s) in
  match due with
  | [] => s
  | _ :: _ =>
      mkState (inactivityTimer s) (listening s) (issued s) rest (Some logoutUrl)
  end.

(** The user is active at the times [ts], in order; once the page has
    navigated away nothing more happens on it. *)
Fixpoint session (ts : list Z) (s : State) : State :=
  match ts with
  | [] => s
  | t :: rest =>
      let s := advance t s in
      match location s with
      | Some _ => s
      | None => session rest (activity t s)
      end
  end.

(** Loaded at [t0], active at [ts], observed at [now]. *)
Definition observe (t0 : Z) (ts : list Z) (now : Z) : State :=
  advance now (session ts (onLoad t0 initial)).

(** The times are in order from [t0] on, each less than [inactivityLimit]
    after the one before. *)
Fixpoint steady (t0 : Z) (ts : list Z) : Prop :=
  match ts with
  | [] => True
  | t :: rest => t0 <= t < t0 + inactivityLimit /\ steady t rest
  end.

(** One timeout is pending, due [inactivityLimit] after [last]. *)
Definition Waiting (last : Z) (s : State) : Prop :=
  listening s = true /\ location s = None
  /\ exists h, inactivityTimer s = Some h /\ issued s = h
               /\ pending s = [(h, last + inactivityLimit)].

End AutoLogout.

(* ================================================================== *)
(** ** Concrete pages and configurations *)

Module Samples.

Definition box : Element := mkElement false [] [] [].
Definition button : Element := mkElement false [lit "btn"] (lit "Send") [].

(** A page with the timer display and both buttons. *)
Definition token_page : TokenTimer.Page :=
  TokenTimer.mkPage (Some box) (Some button) (Some button) [].

(** The same page without #token-timer. *)
Definition token_page_no_display : TokenTimer.Page :=
  TokenTimer.mkPage None (Some button) (Some button) [].

Definition status_page : StatusChecker.Page :=
  StatusChecker.mkPage (Some box) (Some button) (Some button) (Some box).

(** Served with time left. *)
Definition config_open (n : Z) : StatusChecker.Config :=
  StatusChecker.mkConfig true false false n.

(** Served as already expired. *)
Definition config_closed : StatusChecker.Config :=
  StatusChecker.mkConfig false true true 0.



Definition verify_page_no_timer : VerifyAccount.Page :=
  VerifyAccount.mkPage None (Some button).

Definition checklist_page : PasswordChecklist.Page :=
  PasswordChecklist.mkPage (Some []) (Some box) (Some box) (Some box)
                           (Some box) (Some box) (Some box).

(** The checklist page without the password field, and without one item. *)
Definition checklist_page_no_field : PasswordChecklist.Page :=
  PasswordChecklist.mkPage None (Some box) (Some box) (Some box)
                           (Some box) (Some box) (Some box).

Definition checklist_page_no_number : PasswordChecklist.Page :=
  PasswordChecklist.mkPage (Some []) (Some box) (Some box) (Some box)
                           (Some box) None (Some box).

(** A login page without the eye icon "togglePassword". *)
Definition login_page_no_icon : Login.Page :=
  Login.mkPage (Some (Some (lit "password"))) None None.

(** A page without the menu "user-dropdown", and one with the menu but
    no avatar. *)
Definition dropdown_page_no_menu : UserDropdown.Page :=
  UserDropdown.mkPage None (Some box).

Definition dropdown_page_no_avatar : UserDropdown.Page :=
  UserDropdown.mkPage (Some box) None.

End Samples.

(* ================================================================== *)
(** * Properties *)

(** ** Sanity checks of the JavaScript fragment *)

Example toString_75 : Number_toString 75 = lit "75".
Proof. reflexivity. Qed.
Example padStart_5 : padStart 2 (lit "0") (Number_toString 5) = lit "05".
Proof. reflexivity. Qed.
Example parseInt_prefix : parseInt10 (Some (lit "  12abc")) = Some 12.
Proof. reflexivity. Qed.
Example parseInt_undefined : parseInt10 None = None.
Proof. reflexivity. Qed.

(** ** Facts about the JavaScript fragment *)

Module JSFacts.

Lemma str_eqb_eq (a b : jsstring) : str_eqb a b = true <-> a = b.
Proof.
  revert b. induction a as [|x a IH]; intros [|y b]; simpl;
    try (split; [discriminate | discriminate]); try tauto.
  rewrite andb_true_iff, N.eqb_eq, IH. split.
  - intros [-> ->]. reflexivity.
  - intros [= -> ->]. auto.
Qed.

(** padStart(2, "0") on a value below sixty gives its two digits. *)
Lemma padStart_two_digits (r : Z) :
  0 <= r < 60 ->
  padStart 2 (lit "0") (Number_toString r) = two_digits r.
Proof.
  intros Hr.
  assert (Hall : forallb
            (fun n => str_eqb (padStart 2 (lit "0") (Number_toString (Z.of_nat n)))
                              (two_digits (Z.of_nat n)))
            (seq 0 60) = true) by (vm_compute; reflexivity).
  rewrite forallb_forall in Hall.
  specialize (Hall (Z.to_nat r)).
  rewrite Z2Nat.id in Hall by lia.
  apply str_eqb_eq, Hall, in_seq. lia.
Qed.

(** A string with no decimal digit in it parses to NaN. *)
Lemma parseInt10_no_digit (s : jsstring) :
  (forall c, In c s -> isDigit c = false) -> parseInt10 (Some s) = None.
Proof.
  intros Hs. simpl. unfold parseInt10_string.
  assert (Ht : forall c, In c (trimStart s) -> isDigit c = false).
  { clear -Hs. induction s as [|c s IH]; simpl; [tauto|].
    destruct (isWhiteSpace c).
    - apply IH. intros x Hx. apply Hs. now right.
    - exact Hs. }
  destruct (trimStart s) as [|c r] eqn:E; [reflexivity|].
  assert (Hc : isDigit c = false) by (apply Ht; now left).
  assert (Hr : starts_with_digit r = false).
  { destruct r as [|c' r']; [reflexivity|]. simpl. apply Ht. right. now left. }
  destruct (c =? 45)%N; [now rewrite Hr|].
  destruct (c =? 43)%N; [now rewrite Hr|].
  simpl. now rewrite Hc.
Qed.

(** parseInt is NaN exactly on the values that are not a number. *)
Lemma parseInt10_cases (v : option jsstring) :
  match parseInt10 v with
  | None => not_a_number v = true
  | Some _ => not_a_number v = false
  end.
Proof.
  destruct v as [s|]; [|vm_compute; reflexivity].
  cbn [parseInt10 not_a_number]. unfold parseInt10_string, unsigned_part.
  destruct (trimStart s) as [|c r]; [reflexivity|].
  destruct (c =? 45)%N; [|destruct (c =? 43)%N]; cbn [orb];
    match goal with
    | |- context [starts_with_digit ?b] => destruct (starts_with_digit b)
    end; reflexivity.
Qed.

End JSFacts.

(** ** Facts about password_checklist.js *)

Module PasswordChecklistFacts.
Import PasswordChecklist.

Lemma pc_contains_In (t : jsstring) (l : list jsstring) :
  contains t l = true <-> In t l.
Proof.
  unfold contains. rewrite existsb_exists. split.
  - intros (u & Hu & E). apply JSFacts.str_eqb_eq in E. now subst.
  - intros H. exists t. split; [exact H | now apply JSFacts.str_eqb_eq].
Qed.

(** classList.toggle(t, force) leaves [t] in the list exactly when forced. *)
Lemma pc_token_toggle_In (t : jsstring) (force : bool) (l : list jsstring) :
  In t (token_toggle t force l) <-> force = true.
Proof.
  destruct force; simpl; unfold token_add, token_remove.
  - split; [reflexivity|]. intros _.
    destruct (contains t l) eqn:E.
    + now apply pc_contains_In.
    + apply in_or_app. right. now left.
  - split; [|discriminate]. intros H. apply filter_In in H. destruct H as [_ H].
    assert (E : str_eqb t t = true) by now apply JSFacts.str_eqb_eq.
    rewrite E in H. discriminate.
Qed.

Lemma pc_rules_holds (val : jsstring) (k : key) :
  rules val k = true <-> holds val k.
Proof.
  destruct k; unfold rules, holds.
  - apply Nat.leb_le.
  - rewrite existsb_exists. unfold upper.
    split; intros (c & Hc & H); exists c; (split; [exact Hc|]);
      rewrite andb_true_iff, !N.leb_le in *; exact H.
  - rewrite existsb_exists. unfold lower.
    split; intros (c & Hc & H); exists c; (split; [exact Hc|]);
      rewrite andb_true_iff, !N.leb_le in *; exact H.
  - rewrite existsb_exists. unfold digit.
    split; intros (c & Hc & H); exists c; (split; [exact Hc|]);
      rewrite andb_true_iff, !N.leb_le in *; exact H.
  - rewrite existsb_exists. unfold upper, lower, digit.
    split; intros (c & Hc & H); exists c; (split; [exact Hc|]).
    + rewrite negb_true_iff, !orb_false_iff, !andb_false_iff, !N.leb_gt in H.
      lia.
    + rewrite negb_true_iff, !orb_false_iff, !andb_false_iff, !N.leb_gt.
      lia.
Qed.

Lemma pc_all_rules (val : jsstring) :
  forallb (fun k => rules val k) keys = true <-> forall k, holds val k.
Proof.
  unfold keys. cbn [forallb]. rewrite !andb_true_iff, !pc_rules_holds. split.
  - intros (A & B & C & D & E & _) k. destruct k; assumption.
  - intros H. repeat split; apply H.
Qed.

End PasswordChecklistFacts.

(** ** Facts about token_timer.js *)

Module TokenTimerFacts.
Import TokenTimer.

Arguments lit : simpl never.
Arguments remainingText : simpl never.

Lemma tt_updateTimer_unbound (s : State) :
  timerDisplay s = None -> updateTimer s = Normal s.
Proof. intros H. unfold updateTimer. now rewrite H. Qed.

Lemma tt_updateTimer_counting (s : State) (r : ref) :
  timerDisplay s = Some r -> 0 < countdown s ->
  updateTimer s =
  Normal (with_countdown (countdown s - 1)
            (with_page (update r (set_text (remainingText (countdown s))) (page s)) s)).
Proof.
  intros Hd Hc. unfold updateTimer. rewrite Hd.
  destruct (Z.leb_spec (countdown s) 0) as [Hle|_]; [lia|].
  reflexivity.
Qed.

Lemma tt_updateTimer_expired (s : State) :
  bound s -> countdown s <= 0 ->
  updateTimer s =
  Normal (with_page (expired_page (page s))
            (with_timers (clearInterval (timerInterval s) (timers s)) s)).
Proof.
  intros (Hd & _ & Hr & Hv) Hc. unfold updateTimer. rewrite Hd.
  destruct (Z.leb_spec (countdown s) 0) as [_|Hgt]; [|lia].
  destruct s as [c td rb vb ti [d r v app] tm]; simpl in *. subst td rb vb.
  unfold getElementById; simpl.
  destruct r as [r|], v as [v|]; reflexivity.
Qed.

Lemma tt_initTokenTimer_absent a (p : Page) :
  token_timer p = None ->
  initTokenTimer (load a p) =
  Normal (with_refs None (getElementById p ResendBtn) (getElementById p VerifyBtn)
            (load a p)).
Proof.
  intros H. unfold initTokenTimer, with_refs, getElementById; simpl.
  rewrite H. reflexivity.
Qed.

Lemma tt_initTokenTimer_present a (p : Page) (d : Element) :
  token_timer p = Some d ->
  initTokenTimer (load a p) =
  (s <- updateTimer (ready (countdown (load a p)) p) ;; Normal (arm s)).
Proof.
  intros H. unfold initTokenTimer, with_refs, getElementById, ready, arm; simpl.
  rewrite H.
  destruct p as [td r v app]; simpl in *.
  destruct r as [r|], v as [v|]; simpl; reflexivity.
Qed.

Lemma tt_bound_ready (c : Z) (p : Page) :
  token_timer p <> None -> bound (ready c p).
Proof.
  intros H. destruct p as [td r v app]; simpl in *.
  unfold bound, ready, getElementById; simpl.
  repeat split; try assumption; [destruct r | destruct v]; reflexivity.
Qed.

Lemma tt_fresh_ready (c : Z) (p : Page) : fresh (ready c p).
Proof.
  destruct p as [td r v app].
  split; intros b; unfold ready; simpl;
    [destruct v | destruct r]; simpl; intros [= <-]; reflexivity.
Qed.

(** What a firing that finds the countdown at zero or below leaves. *)
Lemma tt_expired_branch (s : State) :
  bound s -> countdown s <= 0 ->
  exists s', updateTimer s = Normal s'
    /\ bound s' /\ flipped s' /\ countdown s' = countdown s
    /\ timerInterval s' = timerInterval s
    /\ timers s' = clearInterval (timerInterval s) (timers s).
Proof.
  intros Hb Hc. eexists. split; [apply (tt_updateTimer_expired s Hb Hc)|].
  destruct Hb as (Hd & Hp & Hr & Hv).
  destruct s as [c td rb vb ti [d r v app] tm]; simpl in *.
  unfold bound, flipped, displayed, verify_disabled, resend_enabled,
    getElementById in *; simpl in *.
  destruct d as [d|]; [|congruence].
  repeat split; try assumption; try reflexivity.
  - discriminate.
  - subst rb. destruct r; reflexivity.
  - subst vb. destruct v; reflexivity.
  - intros b. destruct v; simpl; intros [= <-]; reflexivity.
  - intros b. destruct r; simpl; intros [= <-]; reflexivity.
Qed.

(** What a firing that finds a positive countdown leaves. *)
Lemma tt_counting_branch (s : State) :
  bound s -> 0 < countdown s ->
  exists s', updateTimer s = Normal s'
    /\ bound s' /\ countdown s' = countdown s - 1
    /\ displayed s' = Some (remainingText (countdown s))
    /\ verify_btn (page s') = verify_btn (page s)
    /\ resend_btn (page s') = resend_btn (page s)
    /\ parent_appended (page s') = parent_appended (page s)
    /\ timerInterval s' = timerInterval s
    /\ timers s' = timers s.
Proof.
  intros (Hd & Hp & Hr & Hv) Hc.
  eexists. split; [apply (tt_updateTimer_counting s _ Hd Hc)|].
  destruct s as [c td rb vb ti [d r v app] tm]; simpl in *.
  unfold bound, displayed, getElementById in *; simpl in *.
  destruct d as [d|]; [|congruence].
  repeat split; try assumption; try reflexivity. discriminate.
Qed.

Lemma tt_clearInterval_armed (h : nat) (t : Timers) :
  live t = [h] ->
  live (clearInterval (Some h) t) = []
  /\ cancelled (clearInterval (Some h) t) = S (cancelled t).
Proof.
  intros Hl. unfold clearInterval. rewrite Hl. simpl.
  rewrite Nat.eqb_refl. simpl. split; reflexivity.
Qed.

Lemma tt_tick_armed (s : State) : armed s -> tick s = updateTimer s.
Proof. intros (h & _ & Hl & _). unfold tick. now rewrite Hl. Qed.

Lemma tt_tick_idle (s : State) : live (timers s) = [] -> tick s = Normal s.
Proof. intros Hl. unfold tick. now rewrite Hl. Qed.

Lemma tt_init_counting a (p : Page) (d : Element) :
  token_timer p = Some d -> 0 < countdown (load a p) ->
  exists s, initTokenTimer (load a p) = Normal s
            /\ Counting (countdown (load a p) - 1) s.
Proof.
  intros Hp Hc. rewrite (tt_initTokenTimer_present a p d Hp).
  set (c := countdown (load a p)) in *.
  assert (Hb : bound (ready c p)) by (apply tt_bound_ready; congruence).
  destruct (tt_counting_branch (ready c p) Hb Hc)
    as (s' & -> & Hb' & Hc' & Hd' & Hv' & Hr' & _ & _ & Ht').
  eexists. split; [reflexivity|].
  destruct (tt_fresh_ready c p) as [Fv Fr].
  unfold Counting, bound, armed, fresh, verify_enabled, resend_disabled,
    displayed, arm, setInterval in *.
  rewrite Ht'. simpl in *.
  repeat split; try tauto; try lia.
  - exists 1%nat. repeat split; reflexivity.
  - intros b. rewrite Hv'. apply Fv.
  - intros b. rewrite Hr'. apply Fr.
  - rewrite Hd'. do 2 f_equal. lia.
Qed.

Lemma tt_init_expired a (p : Page) (d : Element) :
  token_timer p = Some d -> countdown (load a p) <= 0 ->
  exists s, initTokenTimer (load a p) = Normal s
            /\ ExpiredLive s /\ countdown s = countdown (load a p).
Proof.
  intros Hp Hc. rewrite (tt_initTokenTimer_present a p d Hp).
  set (c := countdown (load a p)) in *.
  assert (Hb : bound (ready c p)) by (apply tt_bound_ready; congruence).
  destruct (tt_expired_branch (ready c p) Hb Hc)
    as (s' & -> & Hb' & Hf' & Hc' & _ & Ht').
  eexists. split; [reflexivity|].
  unfold ExpiredLive, bound, armed, flipped, verify_disabled, resend_enabled,
    displayed, arm, setInterval in *.
  rewrite Ht'. simpl in *.
  repeat split; try tauto; try lia.
  exists 1%nat. repeat split; reflexivity.
Qed.

Lemma tt_tick_counting (c : Z) (s : State) :
  Counting c s -> 0 < c ->
  exists s', tick s = Normal s' /\ Counting (c - 1) s'.
Proof.
  intros (Hb & Ha & (Fv & Fr) & Hc & Hc0 & Hd) Hpos.
  rewrite (tt_tick_armed s Ha). subst c.
  destruct (tt_counting_branch s Hb Hpos)
    as (s' & -> & Hb' & Hc' & Hd' & Hv' & Hr' & _ & Hi' & Ht').
  exists s'. split; [reflexivity|].
  unfold Counting, armed, fresh, verify_enabled, resend_disabled in *.
  rewrite Hi', Ht', Hv', Hr'.
  split; [exact Hb'|].
  repeat split; try assumption; try lia.
  rewrite Hd'. do 2 f_equal. lia.
Qed.

Lemma tt_tick_last (s : State) :
  Counting 0 s -> exists s', tick s = Normal s' /\ Expired s'.
Proof.
  intros (Hb & Ha & _ & Hc & _ & _).
  rewrite (tt_tick_armed s Ha).
  destruct (tt_expired_branch s Hb ltac:(lia))
    as (s' & -> & Hb' & Hf' & Hc' & _ & Ht').
  exists s'. split; [reflexivity|].
  destruct Ha as (h & Hh & Hl & Hn). rewrite Hh in Ht'.
  destruct (tt_clearInterval_armed h (timers s) Hl) as [L C].
  unfold Expired, idle. rewrite Ht', L, C, Hn.
  split; [exact Hb'|]. split; [split; reflexivity|].
  split; [exact Hf' | lia].
Qed.

Lemma tt_tick_expired_live (s : State) :
  ExpiredLive s -> exists s', tick s = Normal s' /\ Expired s'.
Proof.
  intros (Hb & Ha & _ & Hc).
  rewrite (tt_tick_armed s Ha).
  destruct (tt_expired_branch s Hb Hc)
    as (s' & -> & Hb' & Hf' & Hc' & _ & Ht').
  exists s'. split; [reflexivity|].
  destruct Ha as (h & Hh & Hl & Hn). rewrite Hh in Ht'.
  destruct (tt_clearInterval_armed h (timers s) Hl) as [L C].
  unfold Expired, idle. rewrite Ht', L, C, Hn.
  split; [exact Hb'|]. split; [split; reflexivity|].
  split; [exact Hf' | lia].
Qed.

Lemma tt_ticks_add (j k : nat) (s : State) :
  ticks (j + k) s = (s' <- ticks j s ;; ticks k s').
Proof.
  revert s. induction j as [|j IH]; intros s; simpl; [reflexivity|].
  destruct (tick s) as [s1|e]; simpl; [apply IH | reflexivity].
Qed.

Lemma tt_ticks_expired (k : nat) (s : State) :
  Expired s -> ticks k s = Normal s.
Proof.
  intros (_ & (Hl & _) & _). induction k as [|k IH]; simpl; [reflexivity|].
  rewrite (tt_tick_idle s Hl). simpl. exact IH.
Qed.

Lemma tt_ticks_counting (k : nat) :
  forall (c : Z) (s : State),
    Counting c s -> Z.of_nat k <= c ->
    exists s', ticks k s = Normal s' /\ Counting (c - Z.of_nat k) s'.
Proof.
  induction k as [|k IH]; intros c s HC Hk.
  - exists s. split; [reflexivity|]. now replace (c - Z.of_nat 0) with c by lia.
  - destruct (tt_tick_counting c s HC ltac:(lia)) as (s1 & E1 & HC1).
    destruct (IH (c - 1) s1 HC1 ltac:(lia)) as (s2 & E2 & HC2).
    exists s2.
    replace (c - Z.of_nat (S k)) with (c - 1 - Z.of_nat k) by lia.
    simpl ticks. rewrite E1. split; [exact E2 | exact HC2].
Qed.

(** Before expiry: [k] seconds after initialization, [k < n]. *)
Lemma tt_run_counting a (p : Page) (d : Element) (k : nat) :
  token_timer p = Some d -> Z.of_nat k < countdown (load a p) ->
  exists s, run a p k = Normal s
            /\ Counting (countdown (load a p) - 1 - Z.of_nat k) s.
Proof.
  intros Hp Hk.
  destruct (tt_init_counting a p d Hp ltac:(lia)) as (s0 & E0 & HC0).
  destruct (tt_ticks_counting k _ s0 HC0 ltac:(lia)) as (s1 & E1 & HC1).
  exists s1. unfold run. rewrite E0. simpl. split; assumption.
Qed.

(** From the [n]-th second on, for a positive initial value [n]. *)
Lemma tt_run_expired a (p : Page) (d : Element) (k : nat) :
  token_timer p = Some d ->
  0 < countdown (load a p) <= Z.of_nat k ->
  exists s, run a p k = Normal s /\ Expired s /\ countdown s = 0.
Proof.
  intros Hp [Hpos Hk].
  set (n := countdown (load a p)) in *.
  destruct (tt_run_counting a p d (Z.to_nat (n - 1)) Hp ltac:(fold n; lia))
    as (s1 & E1 & HC1). fold n in HC1.
  replace (n - 1 - Z.of_nat (Z.to_nat (n - 1))) with 0 in HC1 by lia.
  destruct (tt_tick_last s1 HC1) as (s2 & E2 & HX).
  assert (Hc2 : countdown s2 = 0).
  { destruct HC1 as (Hb & Ha & _ & Hc & _).
    rewrite (tt_tick_armed s1 Ha) in E2.
    destruct (tt_expired_branch s1 Hb ltac:(lia)) as (s' & E' & _ & _ & Hc' & _).
    congruence. }
  exists s2. split; [|split; assumption].
  replace k with (Z.to_nat (n - 1) + (1 + (k - Z.to_nat n)))%nat by lia.
  unfold run in *.
  destruct (initTokenTimer (load a p)) as [s0|e]; simpl in *; [|discriminate].
  rewrite tt_ticks_add, E1. simpl. rewrite E2. simpl. apply tt_ticks_expired, HX.
Qed.

(** With a non-positive initial value: expired from the first second on. *)
Lemma tt_run_expired_nonpos a (p : Page) (d : Element) (k : nat) :
  token_timer p = Some d -> countdown (load a p) <= 0 ->
  exists s, run a p (S k) = Normal s /\ Expired s
            /\ countdown s = countdown (load a p).
Proof.
  intros Hp Hc.
  destruct (tt_init_expired a p d Hp Hc) as (s0 & E0 & HX0 & Hc0).
  destruct (tt_tick_expired_live s0 HX0) as (s1 & E1 & HX1).
  assert (Hc1 : countdown s1 = countdown s0).
  { destruct HX0 as (Hb & Ha & _ & Hle).
    rewrite (tt_tick_armed s0 Ha) in E1.
    destruct (tt_expired_branch s0 Hb Hle) as (s' & E' & _ & _ & Hc' & _).
    congruence. }
  exists s1. unfold run. rewrite E0. simpl. rewrite E1. simpl.
  split; [apply tt_ticks_expired, HX1|].
  split; [assumption | rewrite Hc1; exact Hc0].
Qed.

Lemma tt_updateTimer_step (s : State) :
  bound s ->
  exists s', updateTimer s = Normal s' /\ bound s'
             /\ countdown s' <= countdown s
             /\ (countdown s <= 0 -> flipped s').
Proof.
  intros Hb. destruct (Z_lt_le_dec 0 (countdown s)) as [Hpos|Hle].
  - destruct (tt_counting_branch s Hb Hpos) as (s' & E & Hb' & Hc' & _).
    exists s'. refine (conj E (conj Hb' (conj _ _))); lia.
  - destruct (tt_expired_branch s Hb Hle) as (s' & E & Hb' & Hf' & Hc' & _).
    exists s'. refine (conj E (conj Hb' (conj _ (fun _ => Hf')))). lia.
Qed.

Lemma tt_step_bound (o : op) (s : State) :
  bound s ->
  exists s', step o s = Normal s' /\ bound s'
             /\ countdown s' <= countdown s
             /\ (countdown s <= 0 -> flipped s -> flipped s').
Proof.
  intros Hb.
  destruct (tt_updateTimer_step s Hb) as (s' & E & Hb' & Hc' & Hf').
  destruct o; simpl.
  - unfold tick. destruct (live (timers s)).
    + exists s. refine (conj eq_refl (conj Hb (conj _ (fun _ F => F)))). lia.
    + exists s'. exact (conj E (conj Hb' (conj Hc' (fun L _ => Hf' L)))).
  - exists s'. exact (conj E (conj Hb' (conj Hc' (fun L _ => Hf' L)))).
Qed.

Lemma tt_step_inert (o : op) (s : State) :
  timerDisplay s = None -> step o s = Normal s.
Proof.
  intros Hd. destruct o; simpl; [unfold tick; destruct (live (timers s))|];
    try reflexivity; apply tt_updateTimer_unbound, Hd.
Qed.

Lemma tt_exec_monotone (ops : list op) :
  forall s, bound s \/ timerDisplay s = None ->
  exists s', exec ops s = Normal s'
             /\ countdown s' <= countdown s
             /\ (countdown s <= 0 -> flipped s -> flipped s').
Proof.
  induction ops as [|o ops IH]; intros s Hs; simpl.
  - exists s. refine (conj eq_refl (conj _ (fun _ F => F))). lia.
  - destruct Hs as [Hb|Hd].
    + destruct (tt_step_bound o s Hb) as (s1 & E1 & Hb1 & Hc1 & Hf1).
      destruct (IH s1 (or_introl Hb1)) as (s2 & E2 & Hc2 & Hf2).
      exists s2. rewrite E1. simpl. refine (conj E2 (conj _ _)); [lia|].
      intros Hle Hf. apply Hf2; [lia | auto].
    + rewrite (tt_step_inert o s Hd). simpl. apply IH. right. exact Hd.
Qed.

Lemma tt_ticks_absent (k : nat) (s : State) :
  live (timers s) = [] -> ticks k s = Normal s.
Proof.
  intros Hl. induction k as [|k IH]; simpl; [reflexivity|].
  rewrite (tt_tick_idle s Hl). exact IH.
Qed.

Lemma tt_run_absent a (p : Page) (k : nat) :
  token_timer p = None ->
  run a p k =
  Normal (with_refs None (getElementById p ResendBtn) (getElementById p VerifyBtn)
            (load a p)).
Proof.
  intros Hp. unfold run. rewrite (tt_initTokenTimer_absent a p Hp). simpl.
  apply tt_ticks_absent. reflexivity.
Qed.

(** Every run ends normally, in a state whose variables are bound. *)
Lemma tt_run_present a (p : Page) (d : Element) (k : nat) :
  token_timer p = Some d ->
  exists s, run a p k = Normal s /\ bound s.
Proof.
  intros Hp. set (n := countdown (load a p)).
  destruct (Z_lt_le_dec 0 n) as [Hpos|Hle].
  - destruct (Z_lt_le_dec (Z.of_nat k) n) as [Hk|Hk].
    + destruct (tt_run_counting a p d k Hp Hk) as (s & E & (B & _)).
      exists s. auto.
    + destruct (tt_run_expired a p d k Hp ltac:(fold n; lia))
        as (s & E & (B & _) & _).
      exists s. auto.
  - destruct k as [|k].
    + destruct (tt_init_expired a p d Hp Hle) as (s & E & (B & _) & _).
      exists s. unfold run. rewrite E. auto.
    + destruct (tt_run_expired_nonpos a p d k Hp Hle) as (s & E & (B & _) & _).
      exists s. auto.
Qed.

Lemma tt_run_reach a (p : Page) (k : nat) :
  exists s, run a p k = Normal s /\ (bound s \/ timerDisplay s = None).
Proof.
  destruct (token_timer p) as [d|] eqn:Hp.
  - destruct (tt_run_present a p d k Hp) as (s & E & B). exists s. auto.
  - eexists. split; [apply (tt_run_absent a p k Hp)|]. right. reflexivity.
Qed.

(** *** A missing button changes nothing for the other elements *)

Lemma tt_remove_update (r q : ref) (f : Element -> Element) (p : Page) :
  remove r (update q f p) = update q f (remove r p).
Proof. destruct p, r, q; reflexivity. Qed.

Lemma tt_remove_expired_page (r : ref) (p : Page) :
  remove r (expired_page p) = expired_page (remove r p).
Proof. destruct p, r; reflexivity. Qed.

Lemma tt_drop_bound (r : ref) (s : State) :
  r <> TokenTimerEl -> bound s -> bound (drop r s).
Proof.
  intros Hr (Hd & Hp & Hrb & Hvb).
  destruct s as [c td rb vb ti [d rs v app] tm]; simpl in *.
  unfold bound, getElementById in *; simpl in *.
  destruct r; try congruence; simpl; repeat split; assumption.
Qed.

Lemma tt_drop_updateTimer (r : ref) (s : State) :
  r <> TokenTimerEl -> bound s ->
  updateTimer (drop r s) = map_outcome (drop r) (updateTimer s).
Proof.
  intros Hr Hb. pose proof (tt_drop_bound r s Hr Hb) as Hb'.
  destruct (Z_lt_le_dec 0 (countdown s)) as [Hpos|Hle].
  - rewrite (tt_updateTimer_counting (drop r s) TokenTimerEl (proj1 Hb') Hpos).
    rewrite (tt_updateTimer_counting s TokenTimerEl (proj1 Hb) Hpos).
    clear Hb Hb'. destruct s as [c td rb vb ti [d rs v app] tm].
    destruct r; try congruence; reflexivity.
  - rewrite (tt_updateTimer_expired (drop r s) Hb' Hle).
    rewrite (tt_updateTimer_expired s Hb Hle).
    clear Hb Hb'. destruct s as [c td rb vb ti [d rs v app] tm].
    destruct r; try congruence; reflexivity.
Qed.

Lemma tt_drop_ticks (r : ref) (k : nat) :
  forall s, r <> TokenTimerEl -> bound s ->
  ticks k (drop r s) = map_outcome (drop r) (ticks k s).
Proof.
  induction k as [|k IH]; intros s Hr Hb; simpl; [reflexivity|].
  destruct (tt_updateTimer_step s Hb) as (s1 & E1 & Hb1 & _).
  unfold tick. replace (timers (drop r s)) with (timers s) by reflexivity.
  destruct (live (timers s)); simpl.
  - apply IH; assumption.
  - rewrite (tt_drop_updateTimer r s Hr Hb), E1. simpl. apply IH; assumption.
Qed.

Lemma tt_drop_init (r : ref) a (p : Page) (d : Element) :
  r <> TokenTimerEl -> token_timer p = Some d ->
  initTokenTimer (load a (remove r p))
  = map_outcome (drop r) (initTokenTimer (load a p)).
Proof.
  intros Hr Hp.
  assert (Hp' : token_timer (remove r p) = Some d)
    by (destruct r; try congruence; exact Hp).
  rewrite (tt_initTokenTimer_present a (remove r p) d Hp').
  rewrite (tt_initTokenTimer_present a p d Hp).
  assert (Hc : countdown (load a (remove r p)) = countdown (load a p)).
  { unfold load, countdownRaw. rewrite Hp, Hp'. reflexivity. }
  rewrite Hc. set (c := countdown (load a p)).
  assert (Hready : ready c (remove r p) = drop r (ready c p)).
  { destruct p as [td rs v app]. unfold ready, drop, getElementById; simpl.
    destruct r; try congruence; simpl; destruct rs, v; reflexivity. }
  rewrite Hready.
  assert (Hb : bound (ready c p)) by (apply tt_bound_ready; congruence).
  rewrite (tt_drop_updateTimer r _ Hr Hb).
  destruct (updateTimer (ready c p)) as [s1|e]; [|reflexivity].
  destruct r; try congruence; reflexivity.
Qed.

(** Without a button, every run ends as with it, on the page without it. *)
Lemma tt_drop_run (r : ref) a (p : Page) (k : nat) :
  r <> TokenTimerEl ->
  exists s s', run a p k = Normal s /\ run a (remove r p) k = Normal s'
               /\ page s' = remove r (page s)
               /\ countdown s' = countdown s /\ timers s' = timers s.
Proof.
  intros Hr. destruct (token_timer p) as [d|] eqn:Hp.
  - destruct (tt_run_present a p d k Hp) as (s & E & _).
    exists s, (drop r s). split; [exact E|].
    split; [|repeat split].
    unfold run in *. rewrite (tt_drop_init r a p d Hr Hp).
    destruct (initTokenTimer (load a p)) as [s0|e] eqn:E0; simpl in *;
      [|discriminate].
    assert (Hb0 : bound s0).
    { destruct (tt_run_present a p d 0 Hp) as (s0' & E0' & B0).
      unfold run in E0'. rewrite E0 in E0'. simpl in E0'. congruence. }
    rewrite (tt_drop_ticks r k s0 Hr Hb0), E. reflexivity.
  - assert (Hp' : token_timer (remove r p) = None)
      by (destruct r; try congruence; exact Hp).
    rewrite (tt_run_absent a p k Hp), (tt_run_absent a (remove r p) k Hp').
    do 2 eexists. split; [reflexivity|]. split; [reflexivity|].
    unfold load, countdownRaw. rewrite Hp, Hp'. repeat split.
Qed.

(** Without the display the script touches nothing and schedules nothing. *)
Lemma tt_run_no_display a (p : Page) (k : nat) :
  exists s, run a (remove TokenTimerEl p) k = Normal s
            /\ page s = remove TokenTimerEl p /\ timers s = no_timers.
Proof.
  eexists. split; [apply tt_run_absent; reflexivity|]. split; reflexivity.
Qed.

End TokenTimerFacts.

(** ** Facts about token_status_checker.js *)

Module StatusCheckerFacts.
Import StatusChecker.

Lemma sc_updateUI_bound (s : State) :
  bound s ->
  updateUI s = Normal (with_page (ui_page (state s) (page s)) s).
Proof.
  intros (Hc & Hv & Hr & _).
  destruct s as [ct vb rb ce st ci [c v r t] tm]; simpl in *.
  subst ct vb rb. unfold updateUI, getElementById; simpl.
  destruct c, v, r; reflexivity.
Qed.

Lemma sc_rendered_ui_page (f : Flags) (p : Page) : rendered f (ui_page f p).
Proof.
  destruct p as [c v r t].
  repeat split; intros e; simpl; [destruct c | destruct v | destruct r];
    simpl; intros [= <-]; reflexivity.
Qed.

Lemma sc_getElementById_ui_page (f : Flags) (p : Page) (r : ref) :
  getElementById (ui_page f p) r = getElementById p r.
Proof.
  destruct p as [c v rs t]. unfold getElementById.
  destruct r; simpl; [destruct c | destruct v | destruct rs | destruct t];
    reflexivity.
Qed.

Lemma sc_getElementById_update (q r : ref) (g : Element -> Element) (p : Page) :
  getElementById (update q g p) r = getElementById p r.
Proof.
  destruct p as [c v rs t]. unfold getElementById.
  destruct q, r; simpl; try reflexivity;
    [destruct c | destruct v | destruct rs | destruct t]; reflexivity.
Qed.

(** The interval callback, on a state whose constants are bound. *)
Lemma sc_onInterval_bound (s : State) :
  bound s ->
  let f := with_timeLeft (timeLeft (state s) - 1) (state s) in
  let p := update CountdownTimer (set_text (Number_toString (timeLeft f))) (page s) in
  onInterval s =
  Normal (if timeLeft f <=? 0
          then with_page (ui_page (mkFlags false true true (timeLeft f)) p)
                 (with_state (mkFlags false true true (timeLeft f))
                    (with_timers (clearInterval (countdownInterval s) (timers s)) s))
          else with_page p (with_state f s)).
Proof.
  intros (Hc & Hv & Hr & Ht).
  destruct s as [ct vb rb ce st ci [c v r t] tm]; simpl in *.
  subst ct vb rb ce. unfold onInterval, getElementById; simpl.
  destruct t; simpl; destruct (timeLeft st - 1 <=? 0); try reflexivity;
    unfold updateUI; simpl; destruct c, v, r; reflexivity.
Qed.

Arguments update : simpl never.
Arguments ui_page : simpl never.
Arguments getElementById : simpl never.

Lemma sc_tick_armed (s : State) : armed s -> tick s = onInterval s.
Proof. intros (h & _ & Hl & _). unfold tick. now rewrite Hl. Qed.

Lemma sc_tick_idle (s : State) : live (timers s) = [] -> tick s = Normal s.
Proof. intros Hl. unfold tick. now rewrite Hl. Qed.

Lemma sc_init_counting (config : Config) (p : Page) :
  0 < initialCountdown config ->
  exists s, initTokenStatusChecker config p = Normal s
            /\ Counting config (initialCountdown config) s
            /\ countdown_timer (page s) = countdown_timer p.
Proof.
  intros Hn. unfold initTokenStatusChecker.
  match goal with |- context [updateUI ?x] => set (s0 := x) end.
  assert (Hb : bound s0) by (repeat split).
  rewrite (sc_updateUI_bound s0 Hb). simpl.
  unfold startCountdown. simpl.
  destruct (Z.leb_spec (initialCountdown config) 0) as [Hle|_]; [lia|].
  eexists. split; [reflexivity|]. simpl.
  split; [|destruct p; reflexivity].
  split; [|split; [|split; [|split]]]; simpl.
  - repeat split; simpl; symmetry; apply sc_getElementById_ui_page.
  - exists 1%nat. repeat split.
  - apply sc_rendered_ui_page.
  - destruct config; reflexivity.
  - exact Hn.
Qed.

(** Loaded with nothing left: no interval, the configured flags rendered. *)
Lemma sc_init_nonpos (config : Config) (p : Page) :
  initialCountdown config <= 0 ->
  exists s, initTokenStatusChecker config p = Normal s
            /\ state s = flags_of config
            /\ rendered (state s) (page s)
            /\ shows (lit "0") s
            /\ live (timers s) = [] /\ cancelled (timers s) = 0%nat
            /\ bound s.
Proof.
  intros Hn. unfold initTokenStatusChecker.
  match goal with |- context [updateUI ?x] => set (s0 := x) end.
  assert (Hb : bound s0) by (repeat split).
  rewrite (sc_updateUI_bound s0 Hb). simpl.
  unfold startCountdown. simpl.
  destruct (Z.leb_spec (initialCountdown config) 0) as [_|Hgt]; [|lia].
  destruct p as [c v r t]. unfold getElementById, shows, rendered, ui_page, update.
  simpl.
  destruct t as [t|]; simpl; unfold updateUI, update; simpl;
    destruct c, v, r; simpl; eexists; (split; [reflexivity|]); simpl;
    repeat split; try reflexivity; intros ? [= <-]; reflexivity.
Qed.

Lemma sc_rendered_update_display (f g : Flags) (fn : Element -> Element) (p : Page) :
  canVerify f = canVerify g -> canResend f = canResend g ->
  rendered g p -> rendered f (update CountdownTimer fn p).
Proof.
  intros Hv Hr (A & B & C). destruct p as [c v r t].
  unfold rendered, update in *; simpl in *. rewrite Hv, Hr. auto.
Qed.

Lemma sc_tick_counting (config : Config) (t : Z) (s : State) :
  Counting config t s -> 1 < t ->
  exists s', tick s = Normal s' /\ Counting config (t - 1) s'
             /\ shows (Number_toString (t - 1)) s'.
Proof.
  intros (Hb & Ha & Hr & Hs & _) Ht.
  rewrite (sc_tick_armed s Ha), (sc_onInterval_bound s Hb).
  rewrite Hs. simpl.
  destruct (Z.leb_spec (t - 1) 0) as [Hle|_]; [lia|].
  eexists. split; [reflexivity|]. split.
  - split; [|split; [|split; [|split]]]; simpl.
    + destruct Hb as (B1 & B2 & B3 & B4).
      repeat split; simpl; rewrite sc_getElementById_update; assumption.
    + exact Ha.
    + eapply sc_rendered_update_display; [| |exact Hr]; rewrite Hs; reflexivity.
    + reflexivity.
    + lia.
  - intros e. simpl. destruct (page s) as [c v r d]; unfold ui_page, update; simpl.
    destruct d; simpl; intros [= <-]; reflexivity.
Qed.

Lemma sc_clearInterval_armed (h : nat) (t : Timers) :
  live t = [h] ->
  live (clearInterval (Some h) t) = []
  /\ cancelled (clearInterval (Some h) t) = S (cancelled t).
Proof.
  intros Hl. unfold clearInterval. rewrite Hl. simpl.
  rewrite Nat.eqb_refl. simpl. split; reflexivity.
Qed.

Lemma sc_tick_last (config : Config) (s : State) :
  Counting config 1 s -> exists s', tick s = Normal s' /\ Expired s'.
Proof.
  intros (Hb & Ha & Hr & Hs & _).
  rewrite (sc_tick_armed s Ha), (sc_onInterval_bound s Hb).
  rewrite Hs. simpl.
  eexists. split; [reflexivity|].
  destruct Ha as (h & Hh & Hl & Hn). rewrite Hh.
  destruct (sc_clearInterval_armed h (timers s) Hl) as [L C].
  split; [|split; [|split; [|split]]]; simpl.
  - destruct Hb as (B1 & B2 & B3 & B4).
    repeat split; simpl;
      rewrite sc_getElementById_ui_page, sc_getElementById_update; assumption.
  - split; [exact L|].
    transitivity (S (cancelled (timers s))); [exact C | now rewrite Hn].
  - apply sc_rendered_ui_page.
  - reflexivity.
  - intros e. simpl. destruct (page s) as [c v r d]; unfold ui_page, update; simpl.
    destruct d; simpl; intros [= <-]; reflexivity.
Qed.

Lemma sc_ticks_add (j k : nat) (s : State) :
  ticks (j + k) s = (s' <- ticks j s ;; ticks k s').
Proof.
  revert s. induction j as [|j IH]; intros s; simpl; [reflexivity|].
  destruct (tick s) as [s1|e]; simpl; [apply IH | reflexivity].
Qed.

Lemma sc_ticks_expired (k : nat) (s : State) :
  Expired s -> ticks k s = Normal s.
Proof.
  intros (_ & (Hl & _) & _). induction k as [|k IH]; simpl; [reflexivity|].
  rewrite (sc_tick_idle s Hl). simpl. exact IH.
Qed.

Lemma sc_ticks_counting (config : Config) (k : nat) :
  forall (t : Z) (s : State),
    Counting config t s -> Z.of_nat k < t ->
    exists s', ticks k s = Normal s' /\ Counting config (t - Z.of_nat k) s'.
Proof.
  induction k as [|k IH]; intros t s HC Hk.
  - exists s. split; [reflexivity|]. now replace (t - Z.of_nat 0) with t by lia.
  - destruct (sc_tick_counting config t s HC ltac:(lia)) as (s1 & E1 & HC1 & _).
    destruct (IH (t - 1) s1 HC1 ltac:(lia)) as (s2 & E2 & HC2).
    exists s2.
    replace (t - Z.of_nat (S k)) with (t - 1 - Z.of_nat k) by lia.
    simpl ticks. rewrite E1. split; [exact E2 | exact HC2].
Qed.

Lemma sc_run_counting (config : Config) (p : Page) (k : nat) :
  Z.of_nat k < initialCountdown config ->
  exists s, run config p k = Normal s
            /\ Counting config (initialCountdown config - Z.of_nat k) s.
Proof.
  intros Hk.
  destruct (sc_init_counting config p ltac:(lia)) as (s0 & E0 & HC0 & _).
  destruct (sc_ticks_counting config k _ s0 HC0 Hk) as (s1 & E1 & HC1).
  exists s1. unfold run. rewrite E0. split; assumption.
Qed.

Lemma sc_run_expired (config : Config) (p : Page) (k : nat) :
  0 < initialCountdown config <= Z.of_nat k ->
  exists s, run config p k = Normal s /\ Expired s.
Proof.
  intros [Hpos Hk].
  set (n := initialCountdown config) in *.
  destruct (sc_run_counting config p (Z.to_nat (n - 1)) ltac:(fold n; lia))
    as (s1 & E1 & HC1). fold n in HC1.
  replace (n - Z.of_nat (Z.to_nat (n - 1))) with 1 in HC1 by lia.
  destruct (sc_tick_last config s1 HC1) as (s2 & E2 & HX).
  exists s2. split; [|assumption].
  replace k with (Z.to_nat (n - 1) + (1 + (k - Z.to_nat n)))%nat by lia.
  unfold run in *.
  destruct (initTokenStatusChecker config p) as [s0|e]; simpl in *; [|discriminate].
  rewrite sc_ticks_add, E1. simpl. rewrite E2. simpl. apply sc_ticks_expired, HX.
Qed.

Lemma sc_onInterval_step (s : State) :
  bound s ->
  exists s', onInterval s = Normal s' /\ bound s'
             /\ timeLeft (state s') = timeLeft (state s) - 1
             /\ (isExpired (state s) = true -> isExpired (state s') = true)
             /\ (canVerify (state s) = false -> canVerify (state s') = false)
             /\ (canResend (state s) = true -> canResend (state s') = true).
Proof.
  intros Hb. rewrite (sc_onInterval_bound s Hb). simpl.
  destruct Hb as (B1 & B2 & B3 & B4).
  destruct (timeLeft (state s) - 1 <=? 0); eexists; (split; [reflexivity|]);
    simpl; (split; [|auto]).
  - repeat split; simpl;
      rewrite sc_getElementById_ui_page, sc_getElementById_update; assumption.
  - repeat split; simpl; rewrite sc_getElementById_update; assumption.
Qed.

Lemma sc_updateUI_step (s : State) :
  bound s ->
  exists s', updateUI s = Normal s' /\ bound s' /\ state s' = state s.
Proof.
  intros Hb. rewrite (sc_updateUI_bound s Hb).
  destruct Hb as (B1 & B2 & B3 & B4).
  eexists. split; [reflexivity|]. split; [|reflexivity].
  repeat split; simpl; rewrite sc_getElementById_ui_page; assumption.
Qed.

Lemma sc_step_bound (o : op) (s : State) :
  bound s ->
  exists s', step o s = Normal s' /\ bound s'
             /\ timeLeft (state s') <= timeLeft (state s)
             /\ (isExpired (state s) = true -> isExpired (state s') = true)
             /\ (canVerify (state s) = false -> canVerify (state s') = false)
             /\ (canResend (state s) = true -> canResend (state s') = true).
Proof.
  intros Hb.
  destruct (sc_onInterval_step s Hb) as (s1 & E1 & Hb1 & Ht1 & Hx1).
  assert (Hsame : exists s', Normal s = Normal s' /\ bound s'
             /\ timeLeft (state s') <= timeLeft (state s)
             /\ (isExpired (state s) = true -> isExpired (state s') = true)
             /\ (canVerify (state s) = false -> canVerify (state s') = false)
             /\ (canResend (state s) = true -> canResend (state s') = true)).
  { exists s. refine (conj eq_refl (conj Hb (conj _ _))); [lia | auto]. }
  destruct o; simpl.
  - unfold tick. destruct (live (timers s)); [exact Hsame|].
    exists s1. refine (conj E1 (conj Hb1 (conj _ Hx1))). lia.
  - exists s1. refine (conj E1 (conj Hb1 (conj _ Hx1))). lia.
  - destruct (sc_updateUI_step s Hb) as (s2 & E2 & Hb2 & Hs2).
    exists s2. rewrite Hs2. refine (conj E2 (conj Hb2 (conj _ _))); [lia | auto].
Qed.

Lemma sc_exec_monotone (ops : list op) :
  forall s, bound s ->
  exists s', exec ops s = Normal s'
             /\ timeLeft (state s') <= timeLeft (state s)
             /\ (isExpired (state s) = true -> isExpired (state s') = true)
             /\ (canVerify (state s) = false -> canVerify (state s') = false)
             /\ (canResend (state s) = true -> canResend (state s') = true).
Proof.
  induction ops as [|o ops IH]; intros s Hb; simpl.
  - exists s. refine (conj eq_refl (conj _ _)); [lia | auto].
  - destruct (sc_step_bound o s Hb) as (s1 & E1 & Hb1 & Ht1 & Hx1 & Hv1 & Hr1).
    destruct (IH s1 Hb1) as (s2 & E2 & Ht2 & Hx2 & Hv2 & Hr2).
    exists s2. rewrite E1. simpl.
    refine (conj E2 (conj _ (conj _ (conj _ _)))); [lia | auto ..].
Qed.

Lemma sc_ticks_bound (k : nat) :
  forall s, bound s -> exists s', ticks k s = Normal s' /\ bound s'.
Proof.
  induction k as [|k IH]; intros s Hb; simpl.
  - exists s. auto.
  - destruct (sc_step_bound Fire s Hb) as (s1 & E1 & Hb1 & _).
    simpl in E1. rewrite E1. simpl. apply IH, Hb1.
Qed.

(** Every run ends normally, in a state whose constants are bound. *)
Lemma sc_run_reach (config : Config) (p : Page) (k : nat) :
  exists s, run config p k = Normal s /\ bound s.
Proof.
  unfold run.
  destruct (Z_lt_le_dec 0 (initialCountdown config)) as [Hpos|Hle].
  - destruct (sc_init_counting config p Hpos) as (s0 & E0 & (Hb & _) & _).
    rewrite E0. simpl. apply sc_ticks_bound, Hb.
  - destruct (sc_init_nonpos config p Hle) as (s0 & E0 & _ & _ & _ & _ & _ & Hb).
    rewrite E0. simpl. apply sc_ticks_bound, Hb.
Qed.

(** *** A missing element changes nothing for the other elements *)

Lemma sc_drop_bound (r : ref) (s : State) : bound s -> bound (drop r s).
Proof.
  intros (B1 & B2 & B3 & B4).
  destruct s as [ct vb rb ce st ci [c v rs t] tm].
  unfold bound, getElementById in *. cbn in *.
  destruct r; cbn; repeat split; assumption.
Qed.

Lemma sc_drop_onInterval (r : ref) (s : State) :
  bound s -> onInterval (drop r s) = map_outcome (drop r) (onInterval s).
Proof.
  intros Hb. pose proof (sc_drop_bound r s Hb) as Hb'.
  rewrite (sc_onInterval_bound (drop r s) Hb'), (sc_onInterval_bound s Hb).
  clear Hb Hb'. destruct s as [ct vb rb ce st ci [c v rs t] tm].
  cbn [map_outcome]. f_equal.
  destruct r; cbn; destruct (timeLeft st - 1 <=? 0); reflexivity.
Qed.

Lemma sc_drop_ticks (r : ref) (k : nat) :
  forall s, bound s -> ticks k (drop r s) = map_outcome (drop r) (ticks k s).
Proof.
  induction k as [|k IH]; intros s Hb; [reflexivity|].
  cbn [ticks].
  destruct (sc_onInterval_step s Hb) as (s1 & E1 & Hb1 & _).
  unfold tick. replace (timers (drop r s)) with (timers s) by reflexivity.
  destruct (live (timers s)); cbn [JS.bind].
  - apply IH; assumption.
  - rewrite (sc_drop_onInterval r s Hb), E1. cbn [map_outcome JS.bind].
    apply IH; assumption.
Qed.

Lemma sc_drop_init (r : ref) (config : Config) (p : Page) :
  initTokenStatusChecker config (remove r p)
  = map_outcome (drop r) (initTokenStatusChecker config p).
Proof.
  destruct p as [c v rs t].
  unfold initTokenStatusChecker, startCountdown, updateUI, getElementById.
  destruct r, c, v, rs, t; cbn; destruct (initialCountdown config <=? 0);
    reflexivity.
Qed.

(** Without an element, every run ends as with it, on the page without it. *)
Lemma sc_drop_run (r : ref) (config : Config) (p : Page) (k : nat) :
  exists s, run config p k = Normal s
            /\ run config (remove r p) k = Normal (drop r s).
Proof.
  destruct (sc_run_reach config p k) as (s & E & _).
  exists s. split; [exact E|].
  unfold run in *. rewrite sc_drop_init.
  destruct (initTokenStatusChecker config p) as [s0|e] eqn:E0;
    cbn [JS.bind map_outcome] in *; [|discriminate].
  assert (Hb0 : bound s0).
  { destruct (sc_run_reach config p 0) as (s0' & E0' & B0).
    unfold run in E0'. rewrite E0 in E0'. cbn in E0'. congruence. }
  rewrite (sc_drop_ticks r k s0 Hb0), E. reflexivity.
Qed.

End StatusCheckerFacts.

(** ** Decimal text and class lists *)

Module TextFacts.

Lemma tx_digit_cases (c : N) :
  isDigit c = true ->
  isWhiteSpace c = false /\ (c =? 45)%N = false /\ (c =? 43)%N = false.
Proof.
  unfold isDigit. rewrite andb_true_iff, !N.leb_le. intros [Hlo Hhi].
  assert (H : (c = 48 \/ c = 49 \/ c = 50 \/ c = 51 \/ c = 52 \/ c = 53
               \/ c = 54 \/ c = 55 \/ c = 56 \/ c = 57)%N) by lia.
  repeat (destruct H as [-> | H]; [repeat split; reflexivity|]).
  subst c. repeat split; reflexivity.
Qed.

Lemma tx_units_acc (d : Decimal.uint) :
  forall acc : positive,
    digits_value (Z.pos acc) (uint_units d) = Z.pos (Pos.of_uint_acc d acc).
Proof.
  induction d; intros acc; cbn [uint_units digits_value Pos.of_uint_acc];
    [reflexivity | ..];
    match goal with
    | |- context [isDigit ?c] => change (isDigit c) with true
    end; cbv iota; rewrite <- IHd; f_equal;
    match goal with
    | |- context [Z.of_N ?x] =>
        let v := eval compute in (Z.of_N x) in change (Z.of_N x) with v
    end; lia.
Qed.

Lemma tx_units_value (d : Decimal.uint) :
  digits_value 0 (uint_units d) = Z.of_N (Pos.of_uint d).
Proof.
  induction d; cbn [uint_units digits_value Pos.of_uint]; [reflexivity | ..];
    match goal with
    | |- context [isDigit ?c] => change (isDigit c) with true
    end; cbv iota; [exact IHd | ..];
    match goal with
    | |- digits_value ?a _ = Z.of_N (N.pos (Pos.of_uint_acc _ ?q)) =>
        change a with (Z.pos q)
    end; apply tx_units_acc.
Qed.

Lemma tx_units_head (d : Decimal.uint) :
  d <> Decimal.Nil ->
  exists c r, uint_units d = c :: r /\ isDigit c = true.
Proof.
  destruct d; [congruence | ..]; intros _; cbn [uint_units];
    do 2 eexists; split; reflexivity.
Qed.

(** Trailing text that does not start with a digit is not read. *)
Lemma tx_digits_stop (s tail : jsstring) :
  starts_with_digit tail = false ->
  forall acc, digits_value acc (s ++ tail) = digits_value acc s.
Proof.
  intros Ht. induction s as [|c s IH]; intros acc; cbn [app digits_value].
  - destruct tail as [|c r]; [reflexivity|].
    cbn [starts_with_digit] in Ht. cbn [digits_value]. now rewrite Ht.
  - destruct (isDigit c); [apply IH | reflexivity].
Qed.

Lemma tx_trim_spaces (ws rest : jsstring) :
  (forall c, In c ws -> isWhiteSpace c = true) ->
  trimStart (ws ++ rest) = trimStart rest.
Proof.
  induction ws as [|c ws IH]; intros H; [reflexivity|].
  cbn [app trimStart]. rewrite (H c (or_introl eq_refl)).
  apply IH. intros x Hx. apply H. now right.
Qed.

(** The text [body], which starts with a digit, is read as its value. *)
Lemma tx_parse_unsigned (ws body rest : jsstring) (c : N) :
  (forall x, In x ws -> isWhiteSpace x = true) ->
  body = c :: rest -> isDigit c = true ->
  parseInt10_string (ws ++ body) = Some (digits_value 0 body).
Proof.
  intros Hws -> Hc. unfold parseInt10_string.
  rewrite (tx_trim_spaces ws _ Hws).
  destruct (tx_digit_cases c Hc) as (W & M & P).
  cbn [trimStart]. rewrite W, M, P. cbn [starts_with_digit]. rewrite Hc.
  f_equal; try lia.
Qed.

Lemma tx_parse_negative (ws body rest : jsstring) (c : N) :
  (forall x, In x ws -> isWhiteSpace x = true) ->
  body = c :: rest -> isDigit c = true ->
  parseInt10_string (ws ++ 45%N :: body) = Some (- digits_value 0 body).
Proof.
  intros Hws -> Hc. unfold parseInt10_string.
  rewrite (tx_trim_spaces ws _ Hws).
  cbn [trimStart]. change (isWhiteSpace 45) with false. cbv iota.
  rewrite N.eqb_refl. cbn [starts_with_digit]. rewrite Hc.
  f_equal; try lia.
Qed.

(** parseInt reads back what toString wrote, positive number or not,
    whatever white space comes before and whatever text, not starting
    with a digit, comes after. *)
Lemma tx_parse_decimal (ws tail : jsstring) (z : Z) :
  (forall c, In c ws -> isWhiteSpace c = true) ->
  starts_with_digit tail = false ->
  parseInt10 (Some (ws ++ Number_toString z ++ tail)) = Some z.
Proof.
  intros Hws Ht. cbn [parseInt10].
  assert (Hpos : forall p : positive,
             exists c r, uint_units (Pos.to_uint p) = c :: r /\ isDigit c = true)
    by (intros p; apply tx_units_head, DecimalPos.Unsigned.to_uint_nonnil).
  assert (Hval : forall p : positive,
             digits_value 0 (uint_units (Pos.to_uint p) ++ tail) = Z.pos p).
  { intros p. rewrite (tx_digits_stop _ tail Ht), tx_units_value.
    now rewrite DecimalPos.Unsigned.of_to. }
  destruct z as [|p|p]; cbn [Number_toString].
  - rewrite (tx_parse_unsigned ws ([48%N] ++ tail) tail 48 Hws eq_refl eq_refl).
    now rewrite (tx_digits_stop [48%N] tail Ht).
  - destruct (Hpos p) as (c & r & E & Hc).
    rewrite (tx_parse_unsigned ws (uint_units (Pos.to_uint p) ++ tail)
               (r ++ tail) c Hws ltac:(rewrite E; reflexivity) Hc).
    now rewrite Hval.
  - destruct (Hpos p) as (c & r & E & Hc).
    change (ws ++ (45%N :: uint_units (Pos.to_uint p)) ++ tail)
      with (ws ++ 45%N :: (uint_units (Pos.to_uint p) ++ tail)).
    rewrite (tx_parse_negative ws (uint_units (Pos.to_uint p) ++ tail)
               (r ++ tail) c Hws ltac:(rewrite E; reflexivity) Hc).
    now rewrite Hval.
Qed.

(** *** Class lists *)

Lemma tx_contains_In (t : jsstring) (l : list jsstring) :
  contains t l = true <-> In t l.
Proof.
  unfold contains. rewrite existsb_exists. split.
  - intros (u & Hu & E). apply JSFacts.str_eqb_eq in E. now subst.
  - intros H. exists t. split; [exact H | now apply JSFacts.str_eqb_eq].
Qed.

Lemma tx_contains_false (t : jsstring) (l : list jsstring) :
  contains t l = false <-> ~ In t l.
Proof.
  rewrite <- tx_contains_In. destruct (contains t l); split; congruence.
Qed.

Lemma tx_str_eqb_neq (t u : jsstring) : t <> u -> str_eqb t u = false.
Proof.
  intros H. destruct (str_eqb t u) eqn:E; [|reflexivity].
  apply JSFacts.str_eqb_eq in E. contradiction.
Qed.

Lemma tx_In_add (t u : jsstring) (l : list jsstring) :
  In u (token_add t l) <-> u = t \/ In u l.
Proof.
  unfold token_add. destruct (contains t l) eqn:E.
  - apply tx_contains_In in E. split; [auto|]. intros [->|H]; assumption.
  - rewrite in_app_iff. cbn. split; [intros [H|[H|[]]]; auto|].
    intros [->|H]; auto.
Qed.

Lemma tx_In_remove (t u : jsstring) (l : list jsstring) :
  In u (token_remove t l) <-> u <> t /\ In u l.
Proof.
  unfold token_remove. rewrite filter_In, negb_true_iff. split.
  - intros [H E]. split; [|exact H]. intros ->.
    assert (str_eqb t t = true) by now apply JSFacts.str_eqb_eq. congruence.
  - intros [Hne H]. split; [exact H|]. apply tx_str_eqb_neq. congruence.
Qed.

Lemma tx_In_flip (t u : jsstring) (l : list jsstring) :
  In u (token_flip t l) <-> (u = t /\ ~ In t l) \/ (u <> t /\ In u l).
Proof.
  unfold token_flip. destruct (contains t l) eqn:E.
  - apply tx_contains_In in E. rewrite tx_In_remove. tauto.
  - apply tx_contains_false in E. rewrite in_app_iff. cbn. split.
    + intros [H|[<-|[]]]; [|tauto]. right. split; [|exact H]. intros ->. tauto.
    + intros [[-> _]|[_ H]]; auto.
Qed.

Lemma tx_remove_absent (t : jsstring) (l : list jsstring) :
  ~ In t l -> token_remove t l = l.
Proof.
  intros H. unfold token_remove. induction l as [|u l IH]; [reflexivity|].
  cbn. rewrite tx_str_eqb_neq.
  - cbn. f_equal. apply IH. intros Hin. apply H. now right.
  - intros ->. apply H. now left.
Qed.

Lemma tx_toggle_idempotent (t : jsstring) (force : bool) (l : list jsstring) :
  token_toggle t force (token_toggle t force l) = token_toggle t force l.
Proof.
  destruct force; cbn [token_toggle].
  - unfold token_add at 1.
    assert (H : contains t (token_add t l) = true)
      by (apply tx_contains_In, tx_In_add; now left).
    now rewrite H.
  - apply tx_remove_absent. rewrite tx_In_remove. tauto.
Qed.

End TextFacts.

(* ================================================================== *)
(** * The claims of the specification *)

(** C1.  The claim fails on a defect of token_status_checker.js.  A page
    served with [initialCountdown = 0] and the flags still open
    (canVerify true, canResend false, isExpired false) is expired on load,
    yet startCountdown only writes "0" and renders the flags it has; it
    does not set them as the expiry branch of the interval callback does.
    After zero firings, and after any number of seconds, the controller
    still reports canVerify, the verify control is enabled and the resend
    control disabled. *)
Theorem C1_status_checker_expired_on_load :
  forall k : nat,
    map_outcome StatusChecker.snapshot
      (StatusChecker.run (Samples.config_open 0) Samples.status_page k)
    = Normal (StatusChecker.mkSnapshot
                (StatusChecker.mkFlags true false false 0)
                (Some (lit "0")) (Some false) (Some true) [] 0).
Proof.
  intros k.
  assert (E0 : map_outcome StatusChecker.snapshot
                 (StatusChecker.initTokenStatusChecker (Samples.config_open 0)
                    Samples.status_page)
               = Normal (StatusChecker.mkSnapshot
                           (StatusChecker.mkFlags true false false 0)
                           (Some (lit "0")) (Some false) (Some true) [] 0))
    by (vm_compute; reflexivity).
  unfold StatusChecker.run.
  destruct (StatusChecker.initTokenStatusChecker (Samples.config_open 0)
              Samples.status_page) as [s|e]; [|discriminate].
  cbn [JS.bind].
  assert (Hl : live (StatusChecker.timers s) = []).
  { exact (f_equal (fun o => match o with
                             | Normal x => StatusChecker.seen_scheduled x
                             | Throws _ => []
                             end) E0). }
  replace (StatusChecker.ticks k s) with (Normal s); [exact E0|].
  induction k as [|k IH]; [reflexivity|].
  cbn [StatusChecker.ticks]. rewrite (StatusCheckerFacts.sc_tick_idle s Hl).
  exact IH.
Qed.

(** Where the code does what C1 says: after initialization and [n] firings
    of the recurring callback the controller is expired, the verify control
    disabled and the resend control enabled, in token_timer.js for every
    initial value [n >= 0] and in token_status_checker.js for every
    [n > 0]. *)
Theorem expired_after_n_firings :
  forall a (p : TokenTimer.Page) (d : Element) (n : Z)
         (config : StatusChecker.Config) (q : StatusChecker.Page) (m : Z),
    TokenTimer.token_timer p = Some d ->
    TokenTimer.countdown (TokenTimer.load a p) = n -> 0 <= n ->
    Number_isSafeInteger n = true ->
    StatusChecker.initialCountdown config = m -> 0 < m ->
    Number_isSafeInteger m = true ->
    (exists s, TokenTimer.run a p (Z.to_nat n) = Normal s
               /\ TokenTimer.countdown s <= 0
               /\ TokenTimer.displayed s = Some TokenTimer.expiredMessage
               /\ TokenTimer.verify_disabled s
               /\ TokenTimer.resend_enabled s)
    /\ (exists s, StatusChecker.run config q (Z.to_nat m) = Normal s
                  /\ StatusChecker.isExpired (StatusChecker.state s) = true
                  /\ StatusChecker.canVerify (StatusChecker.state s) = false
                  /\ StatusChecker.canResend (StatusChecker.state s) = true
                  /\ StatusChecker.timeLeft (StatusChecker.state s) = 0
                  /\ StatusChecker.rendered (StatusChecker.state s)
                                            (StatusChecker.page s)).
Proof.
  intros a p d n config q m Hp Hn Hn0 _ Hm Hm0 _. split.
  - destruct (Z.eq_dec n 0) as [->|Hne].
    + destruct (TokenTimerFacts.tt_init_expired a p d Hp ltac:(lia))
        as (s & E & (_ & _ & (Hd & Hv & Hr) & Hc) & _).
      exists s. unfold TokenTimer.run. rewrite E. simpl. auto.
    + destruct (TokenTimerFacts.tt_run_expired a p d (Z.to_nat n) Hp ltac:(lia))
        as (s & E & (_ & _ & (Hd & Hv & Hr) & Hc) & _).
      exists s. auto.
  - destruct (StatusCheckerFacts.sc_run_expired config q (Z.to_nat m) ltac:(lia))
      as (s & E & (_ & _ & Hr & Hs & _)).
    exists s. rewrite Hs in *. simpl. auto 6.
Qed.

(** A token timer loaded with 3, a status checker configured with 2. *)
Lemma expired_after_n_firings_at_work :
  (exists s, TokenTimer.run (Some (lit "3")) Samples.token_page 3 = Normal s
             /\ TokenTimer.countdown s <= 0
             /\ TokenTimer.displayed s = Some TokenTimer.expiredMessage
             /\ TokenTimer.verify_disabled s
             /\ TokenTimer.resend_enabled s)
  /\ (exists s, StatusChecker.run (Samples.config_open 2) Samples.status_page 2
                = Normal s
                /\ StatusChecker.isExpired (StatusChecker.state s) = true
                /\ StatusChecker.canVerify (StatusChecker.state s) = false
                /\ StatusChecker.canResend (StatusChecker.state s) = true
                /\ StatusChecker.timeLeft (StatusChecker.state s) = 0
                /\ StatusChecker.rendered (StatusChecker.state s)
                                          (StatusChecker.page s)).
Proof.
  apply (expired_after_n_firings (Some (lit "3")) Samples.token_page Samples.box 3
           (Samples.config_open 2) Samples.status_page 2);
    try reflexivity; lia.
Defined.

(** C2 (amended).  For every whole initial value [n > 0] (a safe integer)
    and every [k < n], after [k] firings of the recurring callback:
    - token_status_checker.js: [state.timeLeft = n - k], positive, the
      interval is scheduled, and the stored [isExpired] flag is the one of
      the configuration (false on a page served unexpired; no firing before
      the last writes it).
    - token_timer.js, on a page that has the timer display: the display
      reads "Token expires in m:ss seconds" for the minutes and the two-digit
      seconds of [n - k], the interval is scheduled, verify is enabled and
      resend disabled; the variable [countdown] holds
      [n - k - 1], the value the next firing will show (updateTimer renders,
      then decrements, and initTokenTimer has already called it once). *)
Theorem C2_remaining_before_expiry :
  forall a (p : TokenTimer.Page) (d : Element)
         (config : StatusChecker.Config) (q : StatusChecker.Page)
         (n : Z) (k : nat),
    0 < n -> Z.of_nat k < n -> Number_isSafeInteger n = true ->
    TokenTimer.token_timer p = Some d ->
    TokenTimer.countdown (TokenTimer.load a p) = n ->
    StatusChecker.initialCountdown config = n ->
    (exists s, StatusChecker.run config q k = Normal s
               /\ StatusChecker.timeLeft (StatusChecker.state s) = n - Z.of_nat k
               /\ (StatusChecker.timeLeft (StatusChecker.state s) <=? 0) = false
               /\ StatusChecker.armed s
               /\ StatusChecker.isExpired (StatusChecker.state s)
                  = StatusChecker.config_isExpired config)
    /\ (exists s, TokenTimer.run a p k = Normal s
                  /\ TokenTimer.countdown s = n - Z.of_nat k - 1
                  /\ TokenTimer.displayed s
                     = Some (lit "Token expires in "
                             ++ Number_toString ((n - Z.of_nat k) / 60)
                             ++ lit ":" ++ two_digits ((n - Z.of_nat k) mod 60)
                             ++ lit " seconds")
                  /\ TokenTimer.armed s
                  /\ TokenTimer.verify_enabled s
                  /\ TokenTimer.resend_disabled s).
Proof.
  intros a p d config q n k Hn Hk _ Hp Ha Hq. split.
  - destruct (StatusCheckerFacts.sc_run_counting config q k ltac:(lia))
      as (s & E & (_ & Harm & _ & Hs & Hpos)).
    exists s. rewrite Hs, Hq. simpl. repeat split; try assumption.
    apply Z.leb_gt. lia.
  - destruct (TokenTimerFacts.tt_run_counting a p d k Hp ltac:(lia))
      as (s & E & (_ & Harm & (Fv & Fr) & Hc & _ & Hd)).
    exists s. rewrite Ha in Hd, Hc.
    replace (n - 1 - Z.of_nat k + 1) with (n - Z.of_nat k) in Hd by lia.
    unfold TokenTimer.remainingText in Hd.
    rewrite Z.rem_mod_nonneg in Hd by lia.
    rewrite JSFacts.padStart_two_digits in Hd by (apply Z.mod_pos_bound; lia).
    refine (conj E (conj _ (conj Hd (conj Harm (conj Fv Fr))))). lia.
Qed.

(** C2 at work: both controllers started with 5, two firings later. *)
Lemma C2_remaining_before_expiry_witness :
  (exists s, StatusChecker.run (Samples.config_open 5) Samples.status_page 2 = Normal s
             /\ StatusChecker.timeLeft (StatusChecker.state s) = 5 - Z.of_nat 2
             /\ (StatusChecker.timeLeft (StatusChecker.state s) <=? 0) = false
             /\ StatusChecker.armed s
             /\ StatusChecker.isExpired (StatusChecker.state s)
                = StatusChecker.config_isExpired (Samples.config_open 5))
  /\ (exists s, TokenTimer.run (Some (lit "5")) Samples.token_page 2 = Normal s
                /\ TokenTimer.countdown s = 5 - Z.of_nat 2 - 1
                /\ TokenTimer.displayed s
                   = Some (lit "Token expires in "
                           ++ Number_toString ((5 - Z.of_nat 2) / 60)
                           ++ lit ":" ++ two_digits ((5 - Z.of_nat 2) mod 60)
                           ++ lit " seconds")
                /\ TokenTimer.armed s
                /\ TokenTimer.verify_enabled s
                /\ TokenTimer.resend_disabled s).
Proof.
  apply (C2_remaining_before_expiry (Some (lit "5")) Samples.token_page Samples.box
           (Samples.config_open 5) Samples.status_page 5 2);
    try reflexivity; lia.
Defined.

(** C2, as stated, fails.  In token_timer.js loaded with 5 the variable
    [countdown] is 2 after two firings, not 3 (the display reads 0:03).  In
    token_status_checker.js [isExpired] is the configured flag: configured
    true with 5 seconds left it is still true after two firings.  And on a
    page without the timer display token_timer.js does not count at all. *)
Lemma C2_counterexample_remaining :
  map_outcome TokenTimer.snapshot
    (TokenTimer.run (Some (lit "5")) Samples.token_page 2)
  = Normal (TokenTimer.mkSnapshot 2 (Some (lit "Token expires in 0:03 seconds"))
              (Some false) (Some true) [1%nat] 0)
  /\ map_outcome StatusChecker.snapshot
       (StatusChecker.run (StatusChecker.mkConfig false true true 5)
          Samples.status_page 2)
     = Normal (StatusChecker.mkSnapshot
                 (StatusChecker.mkFlags false true true 3)
                 (Some (lit "3")) (Some true) (Some false) [1%nat] 0)
  /\ map_outcome TokenTimer.snapshot
       (TokenTimer.run (Some (lit "5")) Samples.token_page_no_display 2)
     = Normal (TokenTimer.mkSnapshot 180 None (Some false) (Some false) [] 0).
Proof. repeat split; vm_compute; reflexivity. Qed.

(** C6 (amended).  Initialized with an initial value of zero,
    token_timer.js reports the expired state at once: the expired message
    is on display, the verify control is disabled and the resend control
    enabled.  token_status_checker.js has no expired message: it writes "0"
    on its display and schedules no countdown, and its controls show its
    canVerify and canResend flags. *)
Theorem C6_zero_at_initialization :
  forall a (p : TokenTimer.Page)
         (config : StatusChecker.Config) (q : StatusChecker.Page),
    TokenTimer.countdown (TokenTimer.load a p) = 0 ->
    StatusChecker.initialCountdown config = 0 ->
    (exists s, TokenTimer.initTokenTimer (TokenTimer.load a p) = Normal s
               /\ TokenTimer.countdown s = 0
               /\ TokenTimer.displayed s = Some TokenTimer.expiredMessage
               /\ TokenTimer.verify_disabled s
               /\ TokenTimer.resend_enabled s)
    /\ (exists s, StatusChecker.initTokenStatusChecker config q = Normal s
                  /\ StatusChecker.timeLeft (StatusChecker.state s) = 0
                  /\ StatusChecker.shows (lit "0") s
                  /\ live (StatusChecker.timers s) = []
                  /\ StatusChecker.rendered (StatusChecker.state s)
                                            (StatusChecker.page s)).
Proof.
  intros a p config q Ha Hq. split.
  - destruct (TokenTimer.token_timer p) as [d|] eqn:Hp.
    + destruct (TokenTimerFacts.tt_init_expired a p d Hp ltac:(lia))
        as (s & E & (_ & _ & (Hd & Hv & Hr) & _) & Hc).
      exists s. rewrite Ha in Hc. auto.
    + exfalso. unfold TokenTimer.load, TokenTimer.countdownRaw in Ha.
      rewrite Hp in Ha. vm_compute in Ha. discriminate.
  - destruct (StatusCheckerFacts.sc_init_nonpos config q ltac:(lia))
      as (s & E & Hs & Hr & Hsh & Hl & _).
    exists s. rewrite Hs. cbn [StatusChecker.timeLeft StatusChecker.flags_of].
    rewrite Hs in Hr. auto.
Qed.

(** C6 at work: a token timer loaded with 0, a status checker served as expired. *)
Lemma C6_zero_at_initialization_witness :
  (exists s, TokenTimer.initTokenTimer
               (TokenTimer.load (Some (lit "0")) Samples.token_page) = Normal s
             /\ TokenTimer.countdown s = 0
             /\ TokenTimer.displayed s = Some TokenTimer.expiredMessage
             /\ TokenTimer.verify_disabled s
             /\ TokenTimer.resend_enabled s)
  /\ (exists s, StatusChecker.initTokenStatusChecker Samples.config_closed
                  Samples.status_page = Normal s
                /\ StatusChecker.timeLeft (StatusChecker.state s) = 0
                /\ StatusChecker.shows (lit "0") s
                /\ live (StatusChecker.timers s) = []
                /\ StatusChecker.rendered (StatusChecker.state s)
                                          (StatusChecker.page s)).
Proof.
  apply (C6_zero_at_initialization (Some (lit "0")) Samples.token_page
           Samples.config_closed Samples.status_page); reflexivity.
Defined.

(** C6, as stated, fails in token_status_checker.js, which has no expired
    message: served as expired (canVerify false, canResend true, isExpired
    true) with [initialCountdown = 0], it reports the expired flags and its
    display reads "0". *)
Lemma C6_counterexample_status_checker_init :
  map_outcome StatusChecker.snapshot
    (StatusChecker.initTokenStatusChecker Samples.config_closed
       Samples.status_page)
  = Normal (StatusChecker.mkSnapshot
              (StatusChecker.mkFlags false true true 0)
              (Some (lit "0")) (Some true) (Some false) [] 0).
Proof. vm_compute. reflexivity. Qed.

(** token_status_checker.js renders the flags it is given: configured with
    both of them true it enables both controls. *)
Example status_checker_follows_configuration :
  map_outcome StatusChecker.snapshot
    (StatusChecker.run (StatusChecker.mkConfig true true false 30)
       Samples.status_page 1)
  = Normal (StatusChecker.mkSnapshot
              (StatusChecker.mkFlags true true false 29)
              (Some (lit "29")) (Some false) (Some false) [1%nat] 0).
Proof. vm_compute. reflexivity. Qed.

(** Without #token-timer the token timer is inert: it falls back to 180,
    binds nothing, schedules nothing, and leaves the buttons as the page
    has them. *)
Example token_timer_without_display :
  map_outcome TokenTimer.snapshot
    (TokenTimer.run (Some (lit "3")) Samples.token_page_no_display 5)
  = Normal (TokenTimer.mkSnapshot 180 None (Some false) (Some false) [] 0).
Proof. vm_compute. reflexivity. Qed.

(** C7 (amended).  In token_timer.js, the variant that sets both controls
    itself, on a page that has the timer display: the verify control and
    the resend control are never both enabled, not after initialization and
    not after any number of firings.  On a page without the display the
    script returns before it touches the buttons: it leaves the page as it
    was served and schedules nothing. *)
Theorem C7_never_both_enabled :
  forall a (p : TokenTimer.Page) (k : nat),
    exists s, TokenTimer.run a p k = Normal s
              /\ match TokenTimer.token_timer p with
                 | Some _ => TokenTimer.both_enabled s = false
                 | None => TokenTimer.page s = p
                           /\ live (TokenTimer.timers s) = []
                 end.
Proof.
  intros a p k. destruct (TokenTimer.token_timer p) as [d|] eqn:Hp.
  2:{ rewrite (TokenTimerFacts.tt_run_absent a p k Hp). eexists.
      split; [reflexivity|]. split; reflexivity. }
  assert (Hfresh : forall s, TokenTimer.fresh s -> TokenTimer.both_enabled s = false).
  { intros s (_ & Fr). unfold TokenTimer.both_enabled.
    destruct (TokenTimer.verify_btn (TokenTimer.page s)) as [v|]; [|reflexivity].
    specialize (Fr) as Fr'. unfold TokenTimer.resend_disabled in Fr'.
    destruct (TokenTimer.resend_btn (TokenTimer.page s)) as [r|]; [|reflexivity].
    rewrite (Fr' r eq_refl). apply andb_false_r. }
  assert (Hflip : forall s, TokenTimer.flipped s -> TokenTimer.both_enabled s = false).
  { intros s (_ & Fv & _). unfold TokenTimer.both_enabled.
    unfold TokenTimer.verify_disabled in Fv.
    destruct (TokenTimer.verify_btn (TokenTimer.page s)) as [v|]; [|reflexivity].
    rewrite (Fv v eq_refl).
    destruct (TokenTimer.resend_btn (TokenTimer.page s)); reflexivity. }
  set (n := TokenTimer.countdown (TokenTimer.load a p)).
  destruct (Z_lt_le_dec 0 n) as [Hpos|Hle].
  - destruct (Z_lt_le_dec (Z.of_nat k) n) as [Hk|Hk].
    + destruct (TokenTimerFacts.tt_run_counting a p d k Hp Hk)
        as (s & E & (_ & _ & F & _)).
      exists s. auto.
    + destruct (TokenTimerFacts.tt_run_expired a p d k Hp ltac:(fold n; lia))
        as (s & E & (_ & _ & F & _) & _).
      exists s. auto.
  - destruct k as [|k].
    + destruct (TokenTimerFacts.tt_init_expired a p d Hp Hle)
        as (s & E & (_ & _ & F & _) & _).
      exists s. unfold TokenTimer.run. rewrite E. auto.
    + destruct (TokenTimerFacts.tt_run_expired_nonpos a p d k Hp Hle)
        as (s & E & (_ & _ & F & _) & _).
      exists s. auto.
Qed.

(** C7, as stated for every state reachable from initialization, fails on
    a page that has both buttons but no timer display: initTokenTimer
    returns before it disables the resend button, and both controls stay
    enabled. *)
Lemma C7_counterexample_no_display :
  map_outcome TokenTimer.both_enabled
    (TokenTimer.run (Some (lit "3")) Samples.token_page_no_display 0)
  = Normal true
  /\ map_outcome TokenTimer.both_enabled
       (TokenTimer.run (Some (lit "3")) Samples.token_page_no_display 5)
     = Normal true.
Proof. split; vm_compute; reflexivity. Qed.

(** C8 (amended).  For whole initial values (safe integers): the recurring
    callback is cancelled at most once, by clearInterval on its handle, and
    nothing else cancels it.  token_timer.js cancels it in the firing that
    finds [countdown] at zero or below, token_status_checker.js in the
    firing that brings [timeLeft] to zero.  [cancelled] counts the calls of
    clearInterval that removed a scheduled callback: it is 0 and the
    interval is scheduled ([armed]) before that firing, 1 with nothing
    scheduled ([idle]) from then on.  In token_timer.js that firing is the
    [n]-th (the first, if the page was loaded with [n <= 0]; on a page
    without the timer display no callback is scheduled and none cancelled);
    in token_status_checker.js it is the [n]-th, and a page loaded with
    [n <= 0] never schedules a callback, so there is none to cancel.  A call
    of updateTimer or of the interval callback changes the count only on
    its expired branch, and updateUI leaves the timers alone. *)
Theorem C8_cancelled_exactly_once :
  forall a (p : TokenTimer.Page)
         (config : StatusChecker.Config) (q : StatusChecker.Page) (k : nat),
    Number_isSafeInteger (TokenTimer.countdown (TokenTimer.load a p)) = true ->
    Number_isSafeInteger (StatusChecker.initialCountdown config) = true ->
    (exists s, TokenTimer.run a p k = Normal s
               /\ match TokenTimer.token_timer p with
                  | Some _ =>
                      if Z.max (TokenTimer.countdown (TokenTimer.load a p)) 1
                         <=? Z.of_nat k
                      then TokenTimer.idle s else TokenTimer.armed s
                  | None => live (TokenTimer.timers s) = []
                            /\ cancelled (TokenTimer.timers s) = 0%nat
                  end)
    /\ (exists s, StatusChecker.run config q k = Normal s
                  /\ if StatusChecker.initialCountdown config <=? 0
                     then live (StatusChecker.timers s) = []
                          /\ cancelled (StatusChecker.timers s) = 0%nat
                     else if StatusChecker.initialCountdown config <=? Z.of_nat k
                          then StatusChecker.idle s else StatusChecker.armed s)
    /\ (forall s s', TokenTimer.updateTimer s = Normal s' ->
                     cancelled (TokenTimer.timers s')
                     <> cancelled (TokenTimer.timers s) ->
                     TokenTimer.countdown s <= 0)
    /\ (forall s s', StatusChecker.onInterval s = Normal s' ->
                     cancelled (StatusChecker.timers s')
                     <> cancelled (StatusChecker.timers s) ->
                     StatusChecker.timeLeft (StatusChecker.state s') <= 0)
    /\ (forall s s', StatusChecker.updateUI s = Normal s' ->
                     StatusChecker.timers s' = StatusChecker.timers s).
Proof.
  intros a p config q k _ _. split; [|split; [|split; [|split]]].
  - destruct (TokenTimer.token_timer p) as [d|] eqn:Hp.
    2:{ rewrite (TokenTimerFacts.tt_run_absent a p k Hp). eexists.
        split; [reflexivity|]. split; reflexivity. }
    set (n := TokenTimer.countdown (TokenTimer.load a p)).
    destruct (Z.leb_spec (Z.max n 1) (Z.of_nat k)) as [Hk|Hk].
    + destruct (Z_lt_le_dec 0 n) as [Hpos|Hle].
      * destruct (TokenTimerFacts.tt_run_expired a p d k Hp ltac:(fold n; lia))
          as (s & E & (_ & I & _) & _).
        exists s. auto.
      * destruct k as [|k]; [lia|].
        destruct (TokenTimerFacts.tt_run_expired_nonpos a p d k Hp Hle)
          as (s & E & (_ & I & _) & _).
        exists s. auto.
    + destruct (Z_lt_le_dec 0 n) as [Hpos|Hle].
      * destruct (TokenTimerFacts.tt_run_counting a p d k Hp ltac:(fold n; lia))
          as (s & E & (_ & A & _)).
        exists s. auto.
      * assert (k = 0%nat) as -> by lia.
        destruct (TokenTimerFacts.tt_init_expired a p d Hp Hle)
          as (s & E & (_ & A & _) & _).
        exists s. unfold TokenTimer.run. rewrite E. auto.
  - set (n := StatusChecker.initialCountdown config).
    destruct (Z.leb_spec n 0) as [Hle|Hpos].
    + destruct (StatusCheckerFacts.sc_init_nonpos config q Hle)
        as (s & E & _ & _ & _ & Hl & Hc & _).
      exists s. unfold StatusChecker.run. rewrite E. simpl.
      split; [|auto].
      clear E. induction k as [|k IH]; simpl; [reflexivity|].
      rewrite (StatusCheckerFacts.sc_tick_idle s Hl). exact IH.
    + destruct (Z.leb_spec n (Z.of_nat k)) as [Hk|Hk].
      * destruct (StatusCheckerFacts.sc_run_expired config q k ltac:(fold n; lia))
          as (s & E & (_ & I & _)).
        exists s. auto.
      * destruct (StatusCheckerFacts.sc_run_counting config q k Hk)
          as (s & E & (_ & A & _)).
        exists s. auto.
  - intros s s' E Hne.
    destruct (Z_lt_le_dec 0 (TokenTimer.countdown s)) as [Hpos|Hle]; [|exact Hle].
    exfalso. apply Hne.
    destruct (TokenTimer.timerDisplay s) as [r|] eqn:Hd.
    + rewrite (TokenTimerFacts.tt_updateTimer_counting s r Hd Hpos) in E.
      injection E as <-. reflexivity.
    + rewrite (TokenTimerFacts.tt_updateTimer_unbound s Hd) in E.
      injection E as <-. reflexivity.
  - intros s s' E Hne.
    destruct (Z_lt_le_dec 0 (StatusChecker.timeLeft (StatusChecker.state s')))
      as [Hpos|Hle]; [|exact Hle].
    exfalso. apply Hne. revert E Hpos.
    destruct s as [ct vb rb ce st ci pg tm].
    unfold StatusChecker.onInterval, StatusChecker.updateUI; simpl.
    destruct ce; simpl;
      (destruct (Z.leb_spec (StatusChecker.timeLeft st - 1) 0);
       [ destruct ct, vb, rb; simpl; intros [= <-]; simpl; lia
       | intros [= <-]; reflexivity ]).
  - intros s s'. destruct s as [ct vb rb ce st ci pg tm].
    unfold StatusChecker.updateUI; simpl.
    destruct ct, vb, rb; simpl; intros [= <-]; reflexivity.
Qed.

(** C8 at work: loaded with 2, five seconds later the interval has been cancelled once. *)
Lemma C8_cancelled_exactly_once_witness :
  exists s, TokenTimer.run (Some (lit "2")) Samples.token_page 5 = Normal s
            /\ TokenTimer.idle s.
Proof.
  destruct (C8_cancelled_exactly_once (Some (lit "2")) Samples.token_page
              (Samples.config_open 2) Samples.status_page 5 eq_refl eq_refl)
    as (H & _).
  exact H.
Defined.

(** C8, as stated, fails.  token_timer.js loaded with 0 is at zero and
    expired on initialization, and only then schedules the callback; it is
    cancelled a second later.  Loaded with 2, the countdown is at zero after
    the first firing and the callback is cancelled in the second.
    token_status_checker.js configured with 0 schedules no callback and
    cancels none. *)
Lemma C8_counterexample_cancellation :
  map_outcome TokenTimer.snapshot
    (TokenTimer.run (Some (lit "0")) Samples.token_page 0)
  = Normal (TokenTimer.mkSnapshot 0 (Some TokenTimer.expiredMessage)
              (Some true) (Some false) [1%nat] 0)
  /\ map_outcome TokenTimer.snapshot
       (TokenTimer.run (Some (lit "0")) Samples.token_page 1)
     = Normal (TokenTimer.mkSnapshot 0 (Some TokenTimer.expiredMessage)
                 (Some true) (Some false) [] 1)
  /\ map_outcome TokenTimer.snapshot
       (TokenTimer.run (Some (lit "2")) Samples.token_page 1)
     = Normal (TokenTimer.mkSnapshot 0 (Some (lit "Token expires in 0:01 seconds"))
                 (Some false) (Some true) [1%nat] 0)
  /\ map_outcome TokenTimer.snapshot
       (TokenTimer.run (Some (lit "2")) Samples.token_page 2)
     = Normal (TokenTimer.mkSnapshot 0 (Some TokenTimer.expiredMessage)
                 (Some true) (Some false) [] 1)
  /\ map_outcome StatusChecker.snapshot
       (StatusChecker.run Samples.config_closed Samples.status_page 3)
     = Normal (StatusChecker.mkSnapshot
                 (StatusChecker.mkFlags false true true 0)
                 (Some (lit "0")) (Some true) (Some false) [] 0).
Proof. repeat split; vm_compute; reflexivity. Qed.

(** C9.  Once a controller is started the remaining seconds never
    increase, whatever operations follow, and expiry is one-way.  From any
    state [s] a run reaches, and for any sequence of operations (the
    interval fires, the callback is called, the controls are rendered):
    in token_timer.js [countdown] does not increase, and once it is at zero
    with the expired rendering in place both stay so; in
    token_status_checker.js [timeLeft] does not increase, [isExpired] once
    true stays true, [canVerify] once false stays false and [canResend]
    once true stays true.  Only loading the page again gives a fresh
    countdown. *)
Theorem C9_monotone_and_one_way :
  (forall a (p : TokenTimer.Page) (k : nat) (ops : list TokenTimer.op),
      exists s s',
        TokenTimer.run a p k = Normal s
        /\ TokenTimer.exec ops s = Normal s'
        /\ TokenTimer.countdown s' <= TokenTimer.countdown s
        /\ (TokenTimer.countdown s <= 0 -> TokenTimer.countdown s' <= 0)
        /\ (TokenTimer.countdown s <= 0 -> TokenTimer.flipped s ->
            TokenTimer.flipped s'))
  /\ (forall (config : StatusChecker.Config) (q : StatusChecker.Page) (k : nat)
             (ops : list StatusChecker.op),
        exists s s',
          StatusChecker.run config q k = Normal s
          /\ StatusChecker.exec ops s = Normal s'
          /\ StatusChecker.timeLeft (StatusChecker.state s')
             <= StatusChecker.timeLeft (StatusChecker.state s)
          /\ (StatusChecker.isExpired (StatusChecker.state s) = true ->
              StatusChecker.isExpired (StatusChecker.state s') = true)
          /\ (StatusChecker.canVerify (StatusChecker.state s) = false ->
              StatusChecker.canVerify (StatusChecker.state s') = false)
          /\ (StatusChecker.canResend (StatusChecker.state s) = true ->
              StatusChecker.canResend (StatusChecker.state s') = true)).
Proof.
  split.
  - intros a p k ops.
    destruct (TokenTimerFacts.tt_run_reach a p k) as (s & E & Hs).
    destruct (TokenTimerFacts.tt_exec_monotone ops s Hs) as (s' & E' & Hc & Hf).
    exists s, s'. refine (conj E (conj E' (conj Hc (conj _ Hf)))). lia.
  - intros config q k ops.
    destruct (StatusCheckerFacts.sc_run_reach config q k) as (s & E & Hb).
    destruct (StatusCheckerFacts.sc_exec_monotone ops s Hb) as (s' & E' & H).
    exists s, s'. exact (conj E (conj E' H)).
Qed.




(** C5 (amended).  token_timer.js replaces the configured initial value by
    180 exactly when parseInt(value, 10) is NaN, that is when the value is
    not a number: the attribute (or the element) is absent, or the text,
    after leading white space and an optional sign, does not start with a
    decimal digit.  The controller then behaves as one configured with
    "180".  Every other value is kept as parseInt reads it: a decimal
    integer (a safe integer, negative or not) written after white space and
    before any text that does not start with a digit is read back as that
    integer, so a negative value is kept and a text with a numeric prefix
    is read as that prefix. *)
Theorem C5_nan_falls_back_to_default :
  forall (a : option jsstring) (p : TokenTimer.Page)
         (ws tail : jsstring) (z : Z)
         (d : Element) (r v : option Element) (l : list Element),
    (forall c, In c ws -> isWhiteSpace c = true) ->
    starts_with_digit tail = false ->
    Number_isSafeInteger z = true ->
    match parseInt10 (TokenTimer.countdownRaw a p) with
    | None =>
        not_a_number (TokenTimer.countdownRaw a p) = true
        /\ TokenTimer.countdown (TokenTimer.load a p) = 180
        /\ forall k, TokenTimer.run a p k = TokenTimer.run (Some (lit "180")) p k
    | Some c =>
        not_a_number (TokenTimer.countdownRaw a p) = false
        /\ TokenTimer.countdown (TokenTimer.load a p) = c
    end
    /\ TokenTimer.countdown
         (TokenTimer.load (Some (ws ++ Number_toString z ++ tail))
            (TokenTimer.mkPage (Some d) r v l)) = z.
Proof.
  intros a p ws tail z d r v l Hws Ht _. split.
  - pose proof (JSFacts.parseInt10_cases (TokenTimer.countdownRaw a p)) as Hc.
    destruct (parseInt10 (TokenTimer.countdownRaw a p)) as [c|] eqn:H.
    + split; [exact Hc|]. unfold TokenTimer.load. now rewrite H.
    + assert (E : TokenTimer.load a p = TokenTimer.load (Some (lit "180")) p).
      { unfold TokenTimer.load. rewrite H. unfold TokenTimer.countdownRaw.
        destruct (TokenTimer.token_timer p); reflexivity. }
      split; [exact Hc|]. split; [unfold TokenTimer.load; now rewrite H|].
      intros k. unfold TokenTimer.run. now rewrite E.
  - unfold TokenTimer.load, TokenTimer.countdownRaw.
    cbn [TokenTimer.token_timer TokenTimer.countdown].
    now rewrite (TextFacts.tx_parse_decimal ws tail z Hws Ht).
Qed.

(** C5 at work: the attribute reads "soon", and " -42s". *)
Lemma C5_nan_falls_back_to_default_witness :
  (not_a_number (TokenTimer.countdownRaw (Some (lit "soon")) Samples.token_page)
   = true
   /\ TokenTimer.countdown (TokenTimer.load (Some (lit "soon")) Samples.token_page)
      = 180
   /\ forall k, TokenTimer.run (Some (lit "soon")) Samples.token_page k
                = TokenTimer.run (Some (lit "180")) Samples.token_page k)
  /\ TokenTimer.countdown
       (TokenTimer.load (Some (lit " " ++ Number_toString (-42) ++ lit "s"))
          Samples.token_page) = -42.
Proof.
  refine (C5_nan_falls_back_to_default (Some (lit "soon")) Samples.token_page
            (lit " ") (lit "s") (-42) Samples.box (Some Samples.button)
            (Some Samples.button) [] _ eq_refl eq_refl).
  intros c [<-|[]]. reflexivity.
Defined.

(** C5, as stated, fails: "-5" is not a valid non-negative integer, yet it
    is kept, and the controller expires on load, where one configured with
    "180" shows 3:00 and counts down; "12abc" is read as 12. *)
Lemma C5_counterexample_negative_kept :
  map_outcome TokenTimer.snapshot
    (TokenTimer.run (Some (lit "-5")) Samples.token_page 0)
  = Normal (TokenTimer.mkSnapshot (-5) (Some TokenTimer.expiredMessage)
              (Some true) (Some false) [1%nat] 0)
  /\ map_outcome TokenTimer.snapshot
       (TokenTimer.run (Some (lit "180")) Samples.token_page 0)
     = Normal (TokenTimer.mkSnapshot 179 (Some (lit "Token expires in 3:00 seconds"))
                 (Some false) (Some true) [1%nat] 0)
  /\ TokenTimer.countdown (TokenTimer.load (Some (lit "12abc")) Samples.token_page)
     = 12.
Proof. repeat split; vm_compute; reflexivity. Qed.

(** C10.  For every password, after an input event on a page that has the
    field, the checklist container and its five items: each item carries
    the class "valid" exactly when its rule holds, and the container is
    hidden (display "none") exactly when all five rules hold, and shown
    (display "block") otherwise.  The rules are those of the script: at
    least 8 code units, a letter A-Z, a letter a-z, a digit 0-9, and a code
    unit outside those three ranges. *)
Theorem C10_checklist_after_input :
  forall (old val : jsstring) (c e1 e2 e3 e4 e5 : Element),
    exists s c',
      PasswordChecklist.input val
        (PasswordChecklist.onDOMContentLoaded
           (PasswordChecklist.mkPage (Some old) (Some c) (Some e1) (Some e2)
                                     (Some e3) (Some e4) (Some e5)))
      = Normal s
      /\ (forall k, exists e',
             PasswordChecklist.lookup (PasswordChecklist.page s)
                                      (PasswordChecklist.Check k) = Some e'
             /\ (In (lit "valid") (classList e') <-> PasswordChecklist.holds val k))
      /\ PasswordChecklist.password_checklist (PasswordChecklist.page s) = Some c'
      /\ (styleDisplay c' = lit "none" <-> forall k, PasswordChecklist.holds val k)
      /\ (styleDisplay c' = lit "block"
          <-> ~ forall k, PasswordChecklist.holds val k).
Proof.
  intros old val c e1 e2 e3 e4 e5.
  pose proof (PasswordChecklistFacts.pc_all_rules val) as Hall.
  unfold PasswordChecklist.input, PasswordChecklist.onDOMContentLoaded,
    PasswordChecklist.onInput, PasswordChecklist.keys in *.
  cbn -[PasswordChecklist.rules forallb lit] in *.
  destruct (forallb (fun k => PasswordChecklist.rules val k)
              [PasswordChecklist.Length; PasswordChecklist.Uppercase;
               PasswordChecklist.Lowercase; PasswordChecklist.Number;
               PasswordChecklist.Symbol]) eqn:E;
    cbn -[PasswordChecklist.rules lit]; do 2 eexists;
    (split; [reflexivity|]); cbn -[PasswordChecklist.rules lit];
    (split; [|split; [reflexivity|]]).
  - intros k. destruct k; cbn -[PasswordChecklist.rules lit]; eexists;
      (split; [reflexivity|]); cbn -[PasswordChecklist.rules lit];
      rewrite PasswordChecklistFacts.pc_token_toggle_In;
      apply PasswordChecklistFacts.pc_rules_holds.
  - cbn. split; [tauto|]. split; [discriminate|]. intros H. exfalso.
    apply H, Hall. reflexivity.
  - intros k. destruct k; cbn -[PasswordChecklist.rules lit]; eexists;
      (split; [reflexivity|]); cbn -[PasswordChecklist.rules lit];
      rewrite PasswordChecklistFacts.pc_token_toggle_In;
      apply PasswordChecklistFacts.pc_rules_holds.
  - cbn. split; [split; [discriminate|]|split; [|reflexivity]].
    + intros H. apply Hall in H. discriminate.
    + intros _ H. apply Hall in H. discriminate.
Qed.

(** C4 (amended).  In token_timer.js and token_status_checker.js a missing
    element is never an error, and what happens to the elements that are
    there does not depend on it: every run ends normally; a run on the page
    without one button (token timer) or without any one element (status
    checker) ends on the page of the full run, minus that element; without
    its display the token timer touches nothing and schedules nothing; and
    whatever its variables are bound to, a call of updateTimer or updateUI
    returns normally.  verify_account.js tolerates a missing resend button, but not a missing
    timer display: its updateTimer then throws a TypeError. *)
Theorem C4_missing_elements :
  (forall a (p : TokenTimer.Page) (k : nat),
      exists s sr sv sd,
        TokenTimer.run a p k = Normal s
        /\ TokenTimer.run a (TokenTimer.remove TokenTimer.ResendBtn p) k = Normal sr
        /\ TokenTimer.page sr
           = TokenTimer.remove TokenTimer.ResendBtn (TokenTimer.page s)
        /\ TokenTimer.run a (TokenTimer.remove TokenTimer.VerifyBtn p) k = Normal sv
        /\ TokenTimer.page sv
           = TokenTimer.remove TokenTimer.VerifyBtn (TokenTimer.page s)
        /\ TokenTimer.run a (TokenTimer.remove TokenTimer.TokenTimerEl p) k
           = Normal sd
        /\ TokenTimer.page sd = TokenTimer.remove TokenTimer.TokenTimerEl p
        /\ TokenTimer.timers sd = no_timers)
  /\ (forall (config : StatusChecker.Config) (q : StatusChecker.Page) (k : nat)
             (r : StatusChecker.ref),
        exists s s',
          StatusChecker.run config q k = Normal s
          /\ StatusChecker.run config (StatusChecker.remove r q) k = Normal s'
          /\ StatusChecker.page s' = StatusChecker.remove r (StatusChecker.page s)
          /\ StatusChecker.state s' = StatusChecker.state s
          /\ StatusChecker.timers s' = StatusChecker.timers s)
  /\ (forall s : TokenTimer.State, exists s', TokenTimer.updateTimer s = Normal s')
  /\ (forall s : StatusChecker.State, exists s', StatusChecker.updateUI s = Normal s')
  /\ (forall (d : Element) (r : option Element),
        exists s,
          VerifyAccount.initVerifyAccountFlow
            (VerifyAccount.load (VerifyAccount.mkPage (Some d) r)) = Normal s)
  /\ (forall r : option Element,
        VerifyAccount.initVerifyAccountFlow
          (VerifyAccount.load (VerifyAccount.mkPage None r)) = Throws TypeError).
Proof.
  split; [|split; [|split; [|split; [|split]]]].
  - intros a p k.
    destruct (TokenTimerFacts.tt_drop_run TokenTimer.ResendBtn a p k
                ltac:(discriminate)) as (s & sr & E & Er & Pr & _).
    destruct (TokenTimerFacts.tt_drop_run TokenTimer.VerifyBtn a p k
                ltac:(discriminate)) as (s2 & sv & E2 & Ev & Pv & _).
    destruct (TokenTimerFacts.tt_run_no_display a p k) as (sd & Ed & Pd & Td).
    assert (s2 = s) by congruence. subst s2.
    exists s, sr, sv, sd. auto 10.
  - intros config q k r.
    destruct (StatusCheckerFacts.sc_drop_run r config q k) as (s & E & E').
    exists s, (StatusChecker.drop r s). auto.
  - intros s. unfold TokenTimer.updateTimer.
    destruct s as [c td rb vb ti pg tm]; cbn.
    destruct td; [|eexists; reflexivity].
    destruct (c <=? 0); destruct rb, vb; cbn; eexists; reflexivity.
  - intros s. unfold StatusChecker.updateUI.
    destruct s as [ct vb rb ce st ci pg tm]; cbn.
    destruct ct, vb, rb; cbn; eexists; reflexivity.
  - intros d r. unfold VerifyAccount.initVerifyAccountFlow, VerifyAccount.updateTimer.
    destruct r; cbn; eexists; reflexivity.
  - intros r. destruct r; reflexivity.
Qed.

(** C4, as stated for every variant, fails in verify_account.js: on a page
    without the element "timer", initialization throws. *)
Lemma C4_counterexample_verify_account :
  VerifyAccount.initVerifyAccountFlow
    (VerifyAccount.load Samples.verify_page_no_timer) = Throws TypeError.
Proof. reflexivity. Qed.

(* ================================================================== *)
(** * Further properties of the scripts *)

(** ** More about token_timer.js *)

Module TokenTimerMore.
Import TokenTimer.

Lemma tm_run_succ a (p : Page) (k : nat) :
  run a p (S k) = (s <- run a p k ;; tick s).
Proof.
  unfold run. destruct (initTokenTimer (load a p)) as [s0|e]; [|reflexivity].
  cbn [JS.bind]. replace (S k) with (k + 1)%nat by lia.
  rewrite TokenTimerFacts.tt_ticks_add.
  destruct (ticks k s0) as [s1|e]; [|reflexivity].
  cbn [JS.bind ticks]. destruct (tick s1); reflexivity.
Qed.

Lemma tm_text_overwrite (t1 t2 : jsstring) (q : Page) :
  update TokenTimerEl (set_text t2) (update TokenTimerEl (set_text t1) q)
  = update TokenTimerEl (set_text t2) q.
Proof. destruct q as [[d|] r v app]; reflexivity. Qed.

(** While counting, the page is the initial one with the current text. *)
Lemma tm_run_counting_page a (p : Page) (d : Element) (k : nat) :
  token_timer p = Some d -> Z.of_nat k < countdown (load a p) ->
  exists s, run a p k = Normal s
            /\ Counting (countdown (load a p) - 1 - Z.of_nat k) s
            /\ page s = counting_page (countdown (load a p) - Z.of_nat k) p.
Proof.
  intros Hp. set (n := countdown (load a p)).
  induction k as [|k IH]; intros Hk.
  - destruct (TokenTimerFacts.tt_run_counting a p d 0 Hp Hk) as (s & E & HC).
    exists s. split; [exact E|]. split; [exact HC|].
    unfold run in E.
    rewrite (TokenTimerFacts.tt_initTokenTimer_present a p d Hp) in E.
    fold n in E.
    rewrite (TokenTimerFacts.tt_updateTimer_counting (ready n p) TokenTimerEl
               eq_refl ltac:(change (0 < n); lia)) in E.
    cbn [JS.bind] in E. injection E as <-.
    change (Z.of_nat 0) with 0. rewrite Z.sub_0_r. reflexivity.
  - destruct (IH ltac:(lia)) as (s & E & HC & HP).
    destruct (TokenTimerFacts.tt_run_counting a p d (S k) Hp Hk) as (s' & E' & HC').
    exists s'. split; [exact E'|]. split; [exact HC'|].
    rewrite tm_run_succ, E in E'. cbn [JS.bind] in E'.
    destruct HC as (Hb & Ha & _ & Hc & _).
    rewrite (TokenTimerFacts.tt_tick_armed s Ha) in E'.
    rewrite (TokenTimerFacts.tt_updateTimer_counting s TokenTimerEl (proj1 Hb)
               ltac:(fold n in Hc; lia)) in E'.
    transitivity (update TokenTimerEl (set_text (remainingText (countdown s)))
                    (page s)); [injection E' as <-; reflexivity|].
    rewrite HP. unfold counting_page. rewrite tm_text_overwrite.
    do 3 f_equal. fold n in Hc. lia.
Qed.

(** The page after every run on a page that has the display. *)
Lemma tm_run_page a (p : Page) (d : Element) (k : nat) :
  token_timer p = Some d ->
  exists s, run a p k = Normal s
            /\ page s = page_at (countdown (load a p)) k p.
Proof.
  intros Hp. set (n := countdown (load a p)). unfold page_at.
  destruct (Z.ltb_spec 0 n) as [Hpos|Hle].
  - destruct (Z.ltb_spec (Z.of_nat k) n) as [Hk|Hk].
    + destruct (tm_run_counting_page a p d k Hp Hk) as (s & E & _ & HP).
      exists s. auto.
    + destruct (tm_run_counting_page a p d (Z.to_nat (n - 1)) Hp
                  ltac:(fold n; lia)) as (s1 & E1 & HC1 & HP1).
      fold n in HC1, HP1.
      replace (n - 1 - Z.of_nat (Z.to_nat (n - 1))) with 0 in HC1 by lia.
      replace (n - Z.of_nat (Z.to_nat (n - 1))) with 1 in HP1 by lia.
      destruct (TokenTimerFacts.tt_tick_last s1 HC1) as (s2 & E2 & HX).
      exists s2. split.
      * replace k with (Z.to_nat (n - 1) + (1 + (k - Z.to_nat n)))%nat by lia.
        unfold run in *.
        destruct (initTokenTimer (load a p)) as [s0|e]; simpl in *;
          [|discriminate].
        rewrite TokenTimerFacts.tt_ticks_add, E1. simpl.
        rewrite E2. simpl. apply TokenTimerFacts.tt_ticks_expired, HX.
      * destruct HC1 as (Hb & Ha & _ & Hc & _).
        rewrite (TokenTimerFacts.tt_tick_armed s1 Ha) in E2.
        rewrite (TokenTimerFacts.tt_updateTimer_expired s1 Hb ltac:(lia)) in E2.
        transitivity (expired_page (page s1)); [injection E2 as <-; reflexivity|].
        now rewrite HP1.
  - destruct (TokenTimerFacts.tt_init_expired a p d Hp Hle)
      as (s0 & E0 & HX0 & Hc0).
    assert (P0 : page s0 = expired_page (initial_page p)).
    { rewrite (TokenTimerFacts.tt_initTokenTimer_present a p d Hp) in E0.
      fold n in E0.
      rewrite (TokenTimerFacts.tt_updateTimer_expired (ready n p)
                 (TokenTimerFacts.tt_bound_ready n p ltac:(congruence))
                 ltac:(change (n <= 0); lia)) in E0.
      cbn [JS.bind] in E0. injection E0 as <-. reflexivity. }
    destruct k as [|k].
    + exists s0. unfold run. rewrite E0. auto.
    + destruct (TokenTimerFacts.tt_tick_expired_live s0 HX0) as (s1 & E1 & HX1).
      exists s1. split.
      * unfold run. rewrite E0. cbn [JS.bind ticks]. rewrite E1. cbn [JS.bind].
        apply TokenTimerFacts.tt_ticks_expired, HX1.
      * destruct HX0 as (Hb & Ha & _ & Hc).
        rewrite (TokenTimerFacts.tt_tick_armed s0 Ha) in E1.
        rewrite (TokenTimerFacts.tt_updateTimer_expired s0 Hb Hc) in E1.
        transitivity (expired_page (page s0)); [injection E1 as <-; reflexivity|].
        now rewrite P0.
Qed.

End TokenTimerMore.

(** X1.  token_timer.js appends its attempt-limit warning each time the
    expired branch of updateTimer runs: no warning while the countdown
    runs, exactly one from the firing that expires it on, and, on a page
    loaded with a value of zero or less, one at initialization and a second
    one a second later (the interval, started after the first call, fires
    once before it is cleared).  Nothing else is appended. *)
Theorem X1_token_timer_warnings :
  forall a (p : TokenTimer.Page) (d : Element) (k : nat),
    TokenTimer.token_timer p = Some d ->
    exists s,
      TokenTimer.run a p k = Normal s
      /\ TokenTimer.parent_appended (TokenTimer.page s)
         = TokenTimer.parent_appended p
           ++ repeat TokenTimer.warningDiv
                (TokenTimer.warnings_shown
                   (TokenTimer.countdown (TokenTimer.load a p)) k).
Proof.
  intros a p d k Hp.
  destruct (TokenTimerMore.tm_run_page a p d k Hp) as (s & E & HP).
  exists s. split; [exact E|]. rewrite HP.
  unfold TokenTimer.page_at, TokenTimer.warnings_shown.
  destruct p as [td r v app].
  destruct (0 <? _); [destruct (_ <? _)|destruct k]; cbn;
    rewrite <- ?app_assoc, ?app_nil_r; reflexivity.
Qed.

(** X1 at work: loaded with 0, three seconds later two warnings are there. *)
Lemma X1_token_timer_warnings_witness :
  exists s,
    TokenTimer.run (Some (lit "0")) Samples.token_page 3 = Normal s
    /\ TokenTimer.parent_appended (TokenTimer.page s)
       = TokenTimer.parent_appended Samples.token_page
         ++ repeat TokenTimer.warningDiv
              (TokenTimer.warnings_shown
                 (TokenTimer.countdown
                    (TokenTimer.load (Some (lit "0")) Samples.token_page)) 3).
Proof.
  apply (X1_token_timer_warnings (Some (lit "0")) Samples.token_page Samples.box 3).
  reflexivity.
Defined.

(** X2.  While token_timer.js counts down, the resend button is disabled
    and carries the class "btn-resend-disabled", the verify button is
    enabled and does not carry "btn-verify-disabled"; the text of both and
    every other class are as the page had them. *)
Theorem X2_token_timer_buttons_while_counting :
  forall a (p : TokenTimer.Page) (d r v : Element) (k : nat),
    TokenTimer.token_timer p = Some d ->
    TokenTimer.resend_btn p = Some r ->
    TokenTimer.verify_btn p = Some v ->
    Z.of_nat k < TokenTimer.countdown (TokenTimer.load a p) ->
    exists s r' v',
      TokenTimer.run a p k = Normal s
      /\ TokenTimer.resend_btn (TokenTimer.page s) = Some r'
      /\ TokenTimer.verify_btn (TokenTimer.page s) = Some v'
      /\ disabled r' = true /\ text r' = text r
      /\ (forall u, In u (classList r')
                    <-> u = lit "btn-resend-disabled" \/ In u (classList r))
      /\ disabled v' = false /\ text v' = text v
      /\ (forall u, In u (classList v')
                    <-> u <> lit "btn-verify-disabled" /\ In u (classList v)).
Proof.
  intros a p d r v k Hp Hr Hv Hk.
  destruct (TokenTimerMore.tm_run_counting_page a p d k Hp Hk) as (s & E & _ & HP).
  destruct p as [td rs vs app]. cbn in Hp, Hr, Hv. subst td rs vs.
  exists s. rewrite HP. cbn. do 2 eexists.
  split; [exact E|]. split; [reflexivity|]. split; [reflexivity|]. cbn.
  repeat split; try reflexivity.
  - apply TextFacts.tx_In_add.
  - intros H. apply TextFacts.tx_In_add. exact H.
  - apply TextFacts.tx_In_remove in H. tauto.
  - apply TextFacts.tx_In_remove in H. tauto.
  - intros H. apply TextFacts.tx_In_remove. exact H.
Qed.

(** X2 at work: loaded with 5, two seconds later. *)
Lemma X2_token_timer_buttons_while_counting_witness :
  exists s r' v',
    TokenTimer.run (Some (lit "5")) Samples.token_page 2 = Normal s
    /\ TokenTimer.resend_btn (TokenTimer.page s) = Some r'
    /\ TokenTimer.verify_btn (TokenTimer.page s) = Some v'
    /\ disabled r' = true /\ text r' = text Samples.button
    /\ (forall u, In u (classList r')
                  <-> u = lit "btn-resend-disabled"
                      \/ In u (classList Samples.button))
    /\ disabled v' = false /\ text v' = text Samples.button
    /\ (forall u, In u (classList v')
                  <-> u <> lit "btn-verify-disabled"
                      /\ In u (classList Samples.button)).
Proof.
  apply (X2_token_timer_buttons_while_counting (Some (lit "5")) Samples.token_page
           Samples.box Samples.button Samples.button 2);
    reflexivity.
Defined.

(** X3.  Once token_timer.js has expired (at or after the second at which
    the countdown ran out, or at any time on a page loaded with zero or
    less), the resend button is enabled, reads "Re-send Code" and carries
    "btn-resend-active" but not "btn-resend-disabled"; the verify button is
    disabled and carries "btn-verify-disabled", with its text unchanged.
    No other class of either button is added or removed. *)
Theorem X3_token_timer_buttons_after_expiry :
  forall a (p : TokenTimer.Page) (d r v : Element) (k : nat),
    TokenTimer.token_timer p = Some d ->
    TokenTimer.resend_btn p = Some r ->
    TokenTimer.verify_btn p = Some v ->
    TokenTimer.countdown (TokenTimer.load a p) <= Z.of_nat k ->
    exists s r' v',
      TokenTimer.run a p k = Normal s
      /\ TokenTimer.resend_btn (TokenTimer.page s) = Some r'
      /\ TokenTimer.verify_btn (TokenTimer.page s) = Some v'
      /\ disabled r' = false /\ text r' = lit "Re-send Code"
      /\ (forall u, In u (classList r')
                    <-> u = lit "btn-resend-active"
                        \/ (u <> lit "btn-resend-disabled" /\ In u (classList r)))
      /\ disabled v' = true /\ text v' = text v
      /\ (forall u, In u (classList v')
                    <-> u = lit "btn-verify-disabled" \/ In u (classList v)).
Proof.
  intros a p d r v k Hp Hr Hv Hk.
  destruct (TokenTimerMore.tm_run_page a p d k Hp) as (s & E & HP).
  unfold TokenTimer.page_at in HP.
  destruct p as [td rs vs app]. cbn in Hp, Hr, Hv. subst td rs vs.
  exists s. rewrite HP.
  destruct (Z.ltb_spec 0 (TokenTimer.countdown
              (TokenTimer.load a (TokenTimer.mkPage (Some d) (Some r) (Some v) app))))
    as [Hpos|Hle];
    [destruct (Z.ltb_spec (Z.of_nat k) (TokenTimer.countdown
                (TokenTimer.load a (TokenTimer.mkPage (Some d) (Some r) (Some v) app))))
       as [Hlt|_]; [lia|]
    | destruct k ];
    cbn -[token_add token_remove lit]; do 2 eexists;
    (split; [exact E|]); (split; [reflexivity|]); (split; [reflexivity|]);
    cbn -[token_add token_remove lit];
    (split; [reflexivity|]); (split; [reflexivity|]);
    (split; [|split; [reflexivity|split; [reflexivity|]]]);
    intros u;
    rewrite ?TextFacts.tx_In_add, ?TextFacts.tx_In_remove, ?TextFacts.tx_In_add,
      ?TextFacts.tx_In_remove, ?TextFacts.tx_In_add, ?TextFacts.tx_In_remove;
    destruct (list_eq_dec N.eq_dec u (lit "btn-resend-disabled"));
    destruct (list_eq_dec N.eq_dec u (lit "btn-verify-disabled"));
    tauto.
Qed.

(** X3 at work: loaded with 2, four seconds later. *)
Lemma X3_token_timer_buttons_after_expiry_witness :
  exists s r' v',
    TokenTimer.run (Some (lit "2")) Samples.token_page 4 = Normal s
    /\ TokenTimer.resend_btn (TokenTimer.page s) = Some r'
    /\ TokenTimer.verify_btn (TokenTimer.page s) = Some v'
    /\ disabled r' = false /\ text r' = lit "Re-send Code"
    /\ (forall u, In u (classList r')
                  <-> u = lit "btn-resend-active"
                      \/ (u <> lit "btn-resend-disabled"
                          /\ In u (classList Samples.button)))
    /\ disabled v' = true /\ text v' = text Samples.button
    /\ (forall u, In u (classList v')
                  <-> u = lit "btn-verify-disabled"
                      \/ In u (classList Samples.button)).
Proof.
  apply (X3_token_timer_buttons_after_expiry (Some (lit "2")) Samples.token_page
           Samples.box Samples.button Samples.button 4);
    try reflexivity. vm_compute. discriminate.
Defined.

(** X4.  The initial value of token_timer.js is read back exactly from
    decimal text: whatever safe integer the server wrote into data-seconds,
    negative or not, with white space before it and with any text after it
    that does not start with a digit, [countdown] starts at that integer.
    (The script reads the attribute when it is loaded, so the display must
    be in the document by then.) *)
Theorem X4_token_timer_reads_decimal :
  forall (ws tail : jsstring) (z : Z) (p : TokenTimer.Page) (d : Element),
    TokenTimer.token_timer p = Some d ->
    (forall c, In c ws -> isWhiteSpace c = true) ->
    starts_with_digit tail = false ->
    Number_isSafeInteger z = true ->
    TokenTimer.countdown
      (TokenTimer.load (Some (ws ++ Number_toString z ++ tail)) p) = z.
Proof.
  intros ws tail z p d Hp Hws Ht _.
  unfold TokenTimer.load, TokenTimer.countdownRaw. rewrite Hp.
  cbn [TokenTimer.countdown].
  now rewrite (TextFacts.tx_parse_decimal ws tail z Hws Ht).
Qed.

(** X4 at work: " -42s" is read as -42. *)
Lemma X4_token_timer_reads_decimal_witness :
  TokenTimer.countdown
    (TokenTimer.load (Some (lit " " ++ Number_toString (-42) ++ lit "s"))
       Samples.token_page) = -42.
Proof.
  apply (X4_token_timer_reads_decimal (lit " ") (lit "s") (-42)
           Samples.token_page Samples.box); try reflexivity.
  intros c [<-|[]]. reflexivity.
Defined.

(** X5.  A page loaded with a value of zero or less has expired from the
    start: at initialization and at every later second token_timer.js shows
    the expired message with verify disabled and resend enabled, and
    [countdown] keeps the value it was loaded with (it is never decremented
    below what it was, so no negative time is ever displayed). *)
Theorem X5_token_timer_nonpositive :
  forall a (p : TokenTimer.Page) (d : Element) (k : nat),
    TokenTimer.token_timer p = Some d ->
    TokenTimer.countdown (TokenTimer.load a p) <= 0 ->
    exists s,
      TokenTimer.run a p k = Normal s
      /\ TokenTimer.countdown s = TokenTimer.countdown (TokenTimer.load a p)
      /\ TokenTimer.displayed s = Some TokenTimer.expiredMessage
      /\ TokenTimer.verify_disabled s
      /\ TokenTimer.resend_enabled s.
Proof.
  intros a p d k Hp Hle. destruct k as [|k].
  - destruct (TokenTimerFacts.tt_init_expired a p d Hp Hle)
      as (s & E & (_ & _ & (Hd & Hv & Hr) & _) & Hc).
    exists s. unfold TokenTimer.run. rewrite E. auto.
  - destruct (TokenTimerFacts.tt_run_expired_nonpos a p d k Hp Hle)
      as (s & E & (_ & _ & (Hd & Hv & Hr) & _) & Hc).
    exists s. auto.
Qed.

(** X5 at work: loaded with "-5", seven seconds later. *)
Lemma X5_token_timer_nonpositive_witness :
  exists s,
    TokenTimer.run (Some (lit "-5")) Samples.token_page 7 = Normal s
    /\ TokenTimer.countdown s
       = TokenTimer.countdown (TokenTimer.load (Some (lit "-5")) Samples.token_page)
    /\ TokenTimer.displayed s = Some TokenTimer.expiredMessage
    /\ TokenTimer.verify_disabled s
    /\ TokenTimer.resend_enabled s.
Proof.
  apply (X5_token_timer_nonpositive (Some (lit "-5")) Samples.token_page
           Samples.box 7); [reflexivity|]. vm_compute. discriminate.
Defined.

(** ** More about token_status_checker.js *)

Module StatusCheckerMore.
Import StatusChecker.

Lemma sm_run_succ (config : Config) (p : Page) (k : nat) :
  run config p (S k) = (s <- run config p k ;; tick s).
Proof.
  unfold run.
  destruct (initTokenStatusChecker config p) as [s0|e]; [|reflexivity].
  cbn [JS.bind]. replace (S k) with (k + 1)%nat by lia.
  rewrite StatusCheckerFacts.sc_ticks_add.
  destruct (ticks k s0) as [s1|e]; [|reflexivity].
  cbn [JS.bind ticks]. destruct (tick s1); reflexivity.
Qed.

Lemma sm_ticks_idle (k : nat) (s : State) :
  live (timers s) = [] -> ticks k s = Normal s.
Proof.
  intros Hl. induction k as [|k IH]; cbn [ticks]; [reflexivity|].
  rewrite (StatusCheckerFacts.sc_tick_idle s Hl). exact IH.
Qed.

(** After a firing that does not expire, the display reads the new value. *)
Lemma sm_run_shows (config : Config) (p : Page) (k : nat) :
  Z.of_nat (S k) < initialCountdown config ->
  exists s, run config p (S k) = Normal s
            /\ shows (Number_toString (initialCountdown config - Z.of_nat (S k))) s.
Proof.
  intros Hk.
  destruct (StatusCheckerFacts.sc_run_counting config p k ltac:(lia))
    as (s & E & HC).
  destruct (StatusCheckerFacts.sc_tick_counting config _ s HC ltac:(lia))
    as (s' & E' & _ & Hs).
  exists s'. rewrite sm_run_succ, E. cbn [JS.bind]. split; [exact E'|].
  replace (initialCountdown config - Z.of_nat (S k))
    with (initialCountdown config - Z.of_nat k - 1) by lia.
  exact Hs.
Qed.

End StatusCheckerMore.

(** X6.  token_status_checker.js keeps its controls in step with its
    flags: after initialization and after any number of seconds, for any
    configuration and whichever elements the page has, the textarea and the
    verify button are disabled exactly when [canVerify] is false and the
    resend button exactly when [canResend] is false.  In particular the
    textarea and the verify button are always enabled or disabled together. *)
Theorem X6_status_checker_controls_follow_flags :
  forall (config : StatusChecker.Config) (p : StatusChecker.Page) (k : nat),
    exists s,
      StatusChecker.run config p k = Normal s
      /\ StatusChecker.rendered (StatusChecker.state s) (StatusChecker.page s)
      /\ (forall e b,
             StatusChecker.verification_code (StatusChecker.page s) = Some e ->
             StatusChecker.verify_code_button (StatusChecker.page s) = Some b ->
             disabled e = disabled b).
Proof.
  intros config p k.
  assert (H : exists s, StatusChecker.run config p k = Normal s
                        /\ StatusChecker.rendered (StatusChecker.state s)
                                                  (StatusChecker.page s)).
  { destruct (Z_lt_le_dec 0 (StatusChecker.initialCountdown config)) as [Hpos|Hle].
    - destruct (Z_lt_le_dec (Z.of_nat k) (StatusChecker.initialCountdown config))
        as [Hk|Hk].
      + destruct (StatusCheckerFacts.sc_run_counting config p k Hk)
          as (s & E & (_ & _ & R & _)).
        exists s. auto.
      + destruct (StatusCheckerFacts.sc_run_expired config p k ltac:(lia))
          as (s & E & (_ & _ & R & _)).
        exists s. auto.
    - destruct (StatusCheckerFacts.sc_init_nonpos config p Hle)
        as (s & E & _ & R & _ & Hl & _).
      exists s. unfold StatusChecker.run. rewrite E. cbn [JS.bind].
      rewrite (StatusCheckerMore.sm_ticks_idle k s Hl). auto. }
  destruct H as (s & E & R). exists s. split; [exact E|]. split; [exact R|].
  intros e b He Hb. destruct R as (R1 & R2 & _).
  now rewrite (R1 e He), (R2 b Hb).
Qed.

(** X7.  What the countdown display of token_status_checker.js reads,
    when it is configured with a whole number of seconds [n] (a safe
    integer).  With [n] zero or less (negative too) it reads "0" from
    initialization on, and no interval is ever scheduled.  With [n > 0],
    initialization does not write the display (it keeps the text the page
    was served with); from the first firing on it reads [n - k] after [k]
    seconds, and "0" from the [n]-th second on: it never reads a negative
    number. *)
Theorem X7_status_checker_display :
  forall (config : StatusChecker.Config) (p : StatusChecker.Page) (k : nat),
    Number_isSafeInteger (StatusChecker.initialCountdown config) = true ->
    exists s,
      StatusChecker.run config p k = Normal s
      /\ if StatusChecker.initialCountdown config <=? 0
         then StatusChecker.shows (lit "0") s /\ live (StatusChecker.timers s) = []
         else match k with
              | O => StatusChecker.countdown_timer (StatusChecker.page s)
                     = StatusChecker.countdown_timer p
              | S _ =>
                  if Z.of_nat k <? StatusChecker.initialCountdown config
                  then StatusChecker.shows
                         (Number_toString
                            (StatusChecker.initialCountdown config - Z.of_nat k)) s
                  else StatusChecker.shows (lit "0") s
              end.
Proof.
  intros config p k _.
  destruct (Z.leb_spec (StatusChecker.initialCountdown config) 0) as [Hle|Hpos].
  - destruct (StatusCheckerFacts.sc_init_nonpos config p Hle)
      as (s & E & _ & _ & Hs & Hl & _).
    exists s. unfold StatusChecker.run. rewrite E. cbn [JS.bind].
    rewrite (StatusCheckerMore.sm_ticks_idle k s Hl). auto.
  - destruct k as [|k].
    + destruct (StatusCheckerFacts.sc_init_counting config p Hpos)
        as (s & E & _ & Hd).
      exists s. unfold StatusChecker.run. rewrite E. auto.
    + destruct (Z.ltb_spec (Z.of_nat (S k)) (StatusChecker.initialCountdown config))
        as [Hk|Hk].
      * apply StatusCheckerMore.sm_run_shows, Hk.
      * destruct (StatusCheckerFacts.sc_run_expired config p (S k) ltac:(lia))
          as (s & E & (_ & _ & _ & _ & Hs)).
        exists s. auto.
Qed.

(** X7 at work: configured with 3, two seconds later the display reads 1;
    configured with -4 it reads "0". *)
Lemma X7_status_checker_display_witness :
  (exists s,
      StatusChecker.run (Samples.config_open 3) Samples.status_page 2 = Normal s
      /\ StatusChecker.shows (Number_toString (3 - Z.of_nat 2)) s)
  /\ (exists s,
        StatusChecker.run (Samples.config_open (-4)) Samples.status_page 2
        = Normal s
        /\ StatusChecker.shows (lit "0") s
        /\ live (StatusChecker.timers s) = []).
Proof.
  split.
  - exact (X7_status_checker_display (Samples.config_open 3) Samples.status_page
             2 eq_refl).
  - exact (X7_status_checker_display (Samples.config_open (-4))
             Samples.status_page 2 eq_refl).
Defined.

(** ** More about verify_account.js *)

Module VerifyAccountFacts.
Import VerifyAccount.

(** One call of updateTimer, with the resend button disabled as
    initVerifyAccountFlow left it. *)
Lemma va_updateTimer_call (c : Z) (rb : option ref) (pg : Page) (d : Element) :
  timer pg = Some d ->
  rb = getElementById pg ResendButton ->
  (forall b, resendButton_el pg = Some b -> disabled b = true) ->
  0 <= c ->
  exists s', updateTimer (mkState c rb pg false) = Normal s'
             /\ if 0 <? c then Counting (c - 1) s' else Finished s'.
Proof.
  intros Ht -> Hdis Hc. destruct pg as [t r]. cbn in Ht. subst t.
  unfold updateTimer, getElementById. cbn.
  destruct (Z.ltb_spec 0 c) as [Hpos|Hle].
  - eexists. split; [reflexivity|]. unfold Counting. cbn.
    split; [reflexivity|]. split; [lia|]. split; [reflexivity|].
    split; [destruct r; reflexivity|]. split; [|exact Hdis].
    do 2 f_equal. lia.
  - assert (c = 0) by lia. subst c.
    destruct r as [b|]; cbn; eexists; (split; [reflexivity|]);
      unfold Finished; cbn; repeat split; try reflexivity.
    + intros b' [= <-]. reflexivity.
    + intros b' [=].
Qed.

Lemma va_init (d : Element) (r : option Element) :
  exists s, initVerifyAccountFlow (load (mkPage (Some d) r)) = Normal s
            /\ Counting 59 s.
Proof.
  unfold initVerifyAccountFlow, load. cbn [page countdown scheduled].
  destruct r as [b|]; cbn [getElementById lookup resendButton_el JS.bind
                           resendButton assign with_page update page countdown
                           scheduled option_map timer].
  - apply (va_updateTimer_call 60 _ _ d); try reflexivity; [|lia].
    intros b' [= <-]. reflexivity.
  - apply (va_updateTimer_call 60 _ _ d); try reflexivity; [|lia].
    intros b' [=].
Qed.

Lemma va_tick_counting (c : Z) (s : State) :
  Counting c s ->
  exists s', tick s = Normal s'
             /\ if 0 <? c then Counting (c - 1) s' else Finished s'.
Proof.
  intros (Hc & Hc0 & Hs & Hr & Ht & Hd).
  unfold tick. rewrite Hs. rewrite Hc.
  destruct (timer (page s)) as [d|] eqn:E; [|discriminate].
  apply (va_updateTimer_call c _ _ d); assumption.
Qed.

Lemma va_ticks_finished (k : nat) (s : State) :
  Finished s -> ticks k s = Normal s.
Proof.
  intros (_ & Hs & _). induction k as [|k IH]; cbn [ticks]; [reflexivity|].
  unfold tick. rewrite Hs. exact IH.
Qed.

Lemma va_ticks (k : nat) :
  forall (c : Z) (s : State),
    Counting c s ->
    exists s', ticks k s = Normal s'
               /\ if Z.of_nat k <=? c then Counting (c - Z.of_nat k) s'
                  else Finished s'.
Proof.
  induction k as [|k IH]; intros c s HC.
  - exists s. split; [reflexivity|].
    destruct (Z.leb_spec (Z.of_nat 0) c) as [_|H].
    + now replace (c - Z.of_nat 0) with c by lia.
    + destruct HC as (_ & H0 & _). lia.
  - destruct (va_tick_counting c s HC) as (s1 & E1 & H1).
    cbn [ticks]. rewrite E1. cbn [JS.bind].
    destruct (Z.ltb_spec 0 c) as [Hpos|Hle].
    + destruct (IH (c - 1) s1 H1) as (s2 & E2 & H2).
      exists s2. split; [exact E2|].
      destruct (Z.leb_spec (Z.of_nat k) (c - 1));
        destruct (Z.leb_spec (Z.of_nat (S k)) c); try lia; [|exact H2].
      now replace (c - Z.of_nat (S k)) with (c - 1 - Z.of_nat k) by lia.
    + exists s1. split; [apply va_ticks_finished, H1|].
      destruct (Z.leb_spec (Z.of_nat (S k)) c); [lia | exact H1].
Qed.


End VerifyAccountFacts.

(** X8.  The countdown of verify_account.js, on any page that has the
    element "timer" (with or without the resend button): [k] seconds after
    the page loaded, for [k < 60], the display reads the clock text of
    [60 - k], the next call is scheduled and the resend button is disabled;
    from the 60th second on the display reads "You can now re-send the
    code.", nothing is scheduled any more and the resend button is enabled. *)
Theorem X8_verify_account_countdown :
  forall (d : Element) (r : option Element) (k : nat),
    exists s,
      VerifyAccount.run (VerifyAccount.mkPage (Some d) r) k = Normal s
      /\ if Z.of_nat k <? 60
         then option_map text (VerifyAccount.timer (VerifyAccount.page s))
              = Some (VerifyAccount.clockText (60 - Z.of_nat k))
              /\ VerifyAccount.scheduled s = true
              /\ (forall b,
                     VerifyAccount.resendButton_el (VerifyAccount.page s) = Some b ->
                     disabled b = true)
         else option_map text (VerifyAccount.timer (VerifyAccount.page s))
              = Some VerifyAccount.resendMessage
              /\ VerifyAccount.scheduled s = false
              /\ (forall b,
                     VerifyAccount.resendButton_el (VerifyAccount.page s) = Some b ->
                     disabled b = false).
Proof.
  intros d r k.
  destruct (VerifyAccountFacts.va_init d r) as (s0 & E0 & H0).
  destruct (VerifyAccountFacts.va_ticks k 59 s0 H0) as (s & E & H).
  exists s. unfold VerifyAccount.run. rewrite E0. cbn [JS.bind].
  split; [exact E|].
  destruct (Z.ltb_spec (Z.of_nat k) 60) as [Hk|Hk];
    destruct (Z.leb_spec (Z.of_nat k) 59); try lia.
  - destruct H as (_ & _ & Hs & _ & Ht & Hd).
    replace (59 - Z.of_nat k + 1) with (60 - Z.of_nat k) in Ht by lia. auto.
  - destruct H as (_ & Hs & Ht & Hd). auto.
Qed.



(** ** More about password_checklist.js *)

Module PasswordChecklistMore.
Import PasswordChecklist.

(** The input listener on a complete page, in one step. *)
Lemma pm_input (val : jsstring) (p0 q : Page) :
  complete p0 -> complete q ->
  input val (with_page q (onDOMContentLoaded p0))
  = Normal (with_page (after_input val q) (onDOMContentLoaded p0)).
Proof.
  intros (A0 & B0 & C0) (A & B & C).
  pose proof (C0 Length) as C01. pose proof (C0 Uppercase) as C02.
  pose proof (C0 Lowercase) as C03. pose proof (C0 Number) as C04.
  pose proof (C0 Symbol) as C05.
  pose proof (C Length) as C1. pose proof (C Uppercase) as C2.
  pose proof (C Lowercase) as C3. pose proof (C Number) as C4.
  pose proof (C Symbol) as C5.
  destruct p0 as [[v0|] [c0|] [a1|] [a2|] [a3|] [a4|] [a5|]];
    cbn in A0, B0, C01, C02, C03, C04, C05; try congruence.
  destruct q as [[v|] [c|] [b1|] [b2|] [b3|] [b4|] [b5|]];
    cbn in A, B, C1, C2, C3, C4, C5; try congruence.
  unfold input, onInput, after_input, onDOMContentLoaded, keys.
  cbn -[rules forallb lit].
  destruct (forallb _ _); reflexivity.
Qed.

Lemma pm_complete_after (val : jsstring) (p : Page) :
  complete p -> complete (after_input val p).
Proof.
  intros (A & B & C). destruct p as [v c e1 e2 e3 e4 e5].
  unfold complete in *. cbn in *.
  pose proof (C Length). pose proof (C Uppercase). pose proof (C Lowercase).
  pose proof (C Number). pose proof (C Symbol). cbn in *.
  destruct v, c, e1, e2, e3, e4, e5; try congruence.
  repeat split; try discriminate. intros k; destruct k; discriminate.
Qed.

Lemma pm_item_idempotent (t : jsstring) (force : bool) (e : Element) :
  classList_toggle t force (classList_toggle t force e) = classList_toggle t force e.
Proof.
  destruct e. unfold classList_toggle, set_classList. cbn.
  now rewrite TextFacts.tx_toggle_idempotent.
Qed.

Lemma pm_after_input_idempotent (val : jsstring) (p : Page) :
  after_input val (after_input val p) = after_input val p.
Proof.
  destruct p as [v c e1 e2 e3 e4 e5]. unfold after_input.
  cbn -[rules forallb lit classList_toggle].
  f_equal;
    match goal with
    | |- option_map _ (option_map _ ?x) = _ => destruct x as [y|]; [|reflexivity]
    end; cbn -[rules forallb lit classList_toggle]; f_equal;
    try apply pm_item_idempotent.
Qed.

(** Appending to a password never breaks a rule. *)
Lemma pm_rules_append (val more : jsstring) (k : key) :
  rules val k = true -> rules (val ++ more) k = true.
Proof.
  destruct k; unfold rules; rewrite ?existsb_app, ?orb_true_iff; auto.
  rewrite !Nat.leb_le, length_app. lia.
Qed.

Lemma pm_all_rules_append (val more : jsstring) :
  forallb (fun k => rules val k) keys = true ->
  forallb (fun k => rules (val ++ more) k) keys = true.
Proof.
  rewrite !forallb_forall. intros H k Hk. apply pm_rules_append, H, Hk.
Qed.

End PasswordChecklistMore.

(** X10.  The input listener of password_checklist.js is idempotent: a
    second input event with the same password leaves every item, the
    container and the field exactly as the first one did. *)
Theorem X10_checklist_idempotent :
  forall (val : jsstring) (p : PasswordChecklist.Page),
    PasswordChecklist.complete p ->
    exists s,
      PasswordChecklist.input val (PasswordChecklist.onDOMContentLoaded p) = Normal s
      /\ PasswordChecklist.input val s = Normal s.
Proof.
  intros val p Hp.
  pose proof (PasswordChecklistMore.pm_input val p p Hp Hp) as E.
  assert (E0 : PasswordChecklist.with_page p (PasswordChecklist.onDOMContentLoaded p)
               = PasswordChecklist.onDOMContentLoaded p).
  { destruct p as [[v|] c e1 e2 e3 e4 e5]; reflexivity. }
  rewrite E0 in E. eexists. split; [exact E|].
  rewrite (PasswordChecklistMore.pm_input val p _ Hp
             (PasswordChecklistMore.pm_complete_after val p Hp)).
  now rewrite PasswordChecklistMore.pm_after_input_idempotent.
Qed.

(** X10 at work: typing "Abc" twice. *)
Lemma X10_checklist_idempotent_witness :
  exists s,
    PasswordChecklist.input (lit "Abc")
      (PasswordChecklist.onDOMContentLoaded Samples.checklist_page) = Normal s
    /\ PasswordChecklist.input (lit "Abc") s = Normal s.
Proof.
  apply (X10_checklist_idempotent (lit "Abc") Samples.checklist_page).
  repeat split; try discriminate. intros k; destruct k; discriminate.
Defined.

(** X11.  In password_checklist.js, typing further characters at the end
    of the password never takes a tick away: an item that is "valid" after
    an input event is still "valid" after the next one with a longer
    password that starts with the old one, and a checklist that was hidden
    stays hidden. *)
Theorem X11_checklist_append :
  forall (val more : jsstring) (p : PasswordChecklist.Page),
    PasswordChecklist.complete p ->
    exists s1 s2,
      PasswordChecklist.input val (PasswordChecklist.onDOMContentLoaded p) = Normal s1
      /\ PasswordChecklist.input (val ++ more) s1 = Normal s2
      /\ (forall k e1 e2,
             PasswordChecklist.lookup (PasswordChecklist.page s1)
                                      (PasswordChecklist.Check k) = Some e1 ->
             PasswordChecklist.lookup (PasswordChecklist.page s2)
                                      (PasswordChecklist.Check k) = Some e2 ->
             In (lit "valid") (classList e1) -> In (lit "valid") (classList e2))
      /\ (forall c1 c2,
             PasswordChecklist.password_checklist (PasswordChecklist.page s1) = Some c1 ->
             PasswordChecklist.password_checklist (PasswordChecklist.page s2) = Some c2 ->
             styleDisplay c1 = lit "none" -> styleDisplay c2 = lit "none").
Proof.
  intros val more p Hp.
  pose proof (PasswordChecklistMore.pm_input val p p Hp Hp) as E1.
  assert (E0 : PasswordChecklist.with_page p (PasswordChecklist.onDOMContentLoaded p)
               = PasswordChecklist.onDOMContentLoaded p).
  { destruct p as [[v|] c e1 e2 e3 e4 e5]; reflexivity. }
  rewrite E0 in E1.
  pose proof (PasswordChecklistMore.pm_input (val ++ more) p _ Hp
                (PasswordChecklistMore.pm_complete_after val p Hp)) as E2.
  do 2 eexists. split; [exact E1|]. split; [exact E2|].
  pose proof (PasswordChecklistMore.pm_all_rules_append val more) as Hall.
  pose proof (PasswordChecklistMore.pm_rules_append val more) as Hone.
  destruct p as [v c a1 a2 a3 a4 a5].
  unfold PasswordChecklist.after_input.
  cbn -[PasswordChecklist.rules forallb lit token_toggle PasswordChecklist.keys].
  split.
  - intros k e1 e2 H1 H2 Hin. pose proof (Hone k) as Hk.
    destruct k; cbn -[PasswordChecklist.rules forallb lit token_toggle] in H1, H2;
      match type of H1 with
      | option_map _ ?x = _ => destruct x; [|discriminate]
      end;
      cbn -[PasswordChecklist.rules forallb lit token_toggle] in H1, H2;
      injection H1 as <-; injection H2 as <-;
      cbn -[PasswordChecklist.rules forallb lit token_toggle] in *;
      apply PasswordChecklistFacts.pc_token_toggle_In in Hin;
      apply PasswordChecklistFacts.pc_token_toggle_In; apply Hk, Hin.
  - intros c1 c2 H1 H2 Hd. destruct c as [c|]; [|discriminate].
    set (b1 := forallb (fun k => PasswordChecklist.rules val k)
                 PasswordChecklist.keys) in *.
    set (b2 := forallb (fun k => PasswordChecklist.rules (val ++ more) k)
                 PasswordChecklist.keys) in *.
    assert (D1 : styleDisplay c1 = if b1 then lit "none" else lit "block")
      by (injection H1 as <-; reflexivity).
    assert (D2 : styleDisplay c2 = if b2 then lit "none" else lit "block")
      by (injection H2 as <-; reflexivity).
    rewrite D1 in Hd. rewrite D2.
    destruct b1; [|discriminate]. now rewrite (Hall eq_refl).
Qed.

(** X11 at work: "Abcdef1!" and then "Abcdef1!xyz". *)
Lemma X11_checklist_append_witness :
  exists s1 s2,
    PasswordChecklist.input (lit "Abcdef1!")
      (PasswordChecklist.onDOMContentLoaded Samples.checklist_page) = Normal s1
    /\ PasswordChecklist.input (lit "Abcdef1!" ++ lit "xyz") s1 = Normal s2
    /\ (forall k e1 e2,
           PasswordChecklist.lookup (PasswordChecklist.page s1)
                                    (PasswordChecklist.Check k) = Some e1 ->
           PasswordChecklist.lookup (PasswordChecklist.page s2)
                                    (PasswordChecklist.Check k) = Some e2 ->
           In (lit "valid") (classList e1) -> In (lit "valid") (classList e2))
    /\ (forall c1 c2,
           PasswordChecklist.password_checklist (PasswordChecklist.page s1) = Some c1 ->
           PasswordChecklist.password_checklist (PasswordChecklist.page s2) = Some c2 ->
           styleDisplay c1 = lit "none" -> styleDisplay c2 = lit "none").
Proof.
  apply (X11_checklist_append (lit "Abcdef1!") (lit "xyz") Samples.checklist_page).
  repeat split; try discriminate. intros k; destruct k; discriminate.
Defined.

(** X12.  What password_checklist.js does when elements are missing.
    Without the field "id_password1" no listener is registered and an input
    event changes nothing.  With the field, the listener is not guarded: if
    any of the five items or the container is missing it throws a
    TypeError. *)
Theorem X12_checklist_missing_elements :
  forall (val : jsstring) (p q : PasswordChecklist.Page),
    PasswordChecklist.id_password1 p = None ->
    PasswordChecklist.id_password1 q <> None ->
    ~ PasswordChecklist.complete q ->
    PasswordChecklist.input val (PasswordChecklist.onDOMContentLoaded p)
    = Normal (PasswordChecklist.onDOMContentLoaded p)
    /\ PasswordChecklist.input val (PasswordChecklist.onDOMContentLoaded q)
       = Throws TypeError.
Proof.
  intros val p q Hp Hf Hc. split.
  - destruct p as [v c e1 e2 e3 e4 e5]. cbn in Hp. subst v. reflexivity.
  - destruct q as [[v|] c e1 e2 e3 e4 e5]; [|cbn in Hf; congruence].
    unfold PasswordChecklist.input, PasswordChecklist.onInput,
      PasswordChecklist.onDOMContentLoaded, PasswordChecklist.keys.
    cbn -[PasswordChecklist.rules forallb lit].
    destruct e1; [|reflexivity]. destruct e2; [|reflexivity].
    destruct e3; [|reflexivity]. destruct e4; [|reflexivity].
    destruct e5; [|reflexivity].
    destruct c.
    + exfalso. apply Hc. repeat split; try discriminate.
      intros k; destruct k; discriminate.
    + cbn -[PasswordChecklist.rules forallb lit].
      destruct (forallb _ _); reflexivity.
Qed.

(** X12 at work: a page without the field, and one without "check-number". *)
Lemma X12_checklist_missing_elements_witness :
  PasswordChecklist.input (lit "Abc")
    (PasswordChecklist.onDOMContentLoaded Samples.checklist_page_no_field)
  = Normal (PasswordChecklist.onDOMContentLoaded Samples.checklist_page_no_field)
  /\ PasswordChecklist.input (lit "Abc")
       (PasswordChecklist.onDOMContentLoaded Samples.checklist_page_no_number)
     = Throws TypeError.
Proof.
  apply (X12_checklist_missing_elements (lit "Abc")
           Samples.checklist_page_no_field Samples.checklist_page_no_number).
  - reflexivity.
  - discriminate.
  - intros (_ & _ & H). apply (H PasswordChecklist.Number). reflexivity.
Defined.

(** X13.  The input listener of password_checklist.js touches nothing but
    the class "valid" of the items and the display style of the container:
    every other class of an item, and its text, disabled state and style,
    are as before; so are the classes, text and disabled state of the
    container; and the field holds the password typed. *)
Theorem X13_checklist_touches_nothing_else :
  forall (old val : jsstring) (c e1 e2 e3 e4 e5 : Element),
    let p := PasswordChecklist.mkPage (Some old) (Some c) (Some e1) (Some e2)
                                      (Some e3) (Some e4) (Some e5) in
    exists s c',
      PasswordChecklist.input val (PasswordChecklist.onDOMContentLoaded p) = Normal s
      /\ PasswordChecklist.id_password1 (PasswordChecklist.page s) = Some val
      /\ PasswordChecklist.password_checklist (PasswordChecklist.page s) = Some c'
      /\ classList c' = classList c /\ text c' = text c /\ disabled c' = disabled c
      /\ forall k, exists e e',
           PasswordChecklist.lookup p (PasswordChecklist.Check k) = Some e
           /\ PasswordChecklist.lookup (PasswordChecklist.page s)
                                       (PasswordChecklist.Check k) = Some e'
           /\ text e' = text e /\ disabled e' = disabled e
           /\ styleDisplay e' = styleDisplay e
           /\ forall u, u <> lit "valid" ->
                        (In u (classList e') <-> In u (classList e)).
Proof.
  intros old val c e1 e2 e3 e4 e5 p.
  assert (Hp : PasswordChecklist.complete p)
    by (repeat split; try discriminate; intros k; destruct k; discriminate).
  pose proof (PasswordChecklistMore.pm_input val p p Hp Hp) as E.
  change (PasswordChecklist.with_page p (PasswordChecklist.onDOMContentLoaded p))
    with (PasswordChecklist.onDOMContentLoaded p) in E.
  do 2 eexists. split; [exact E|].
  split; [reflexivity|]. split; [reflexivity|].
  split; [reflexivity|]. split; [reflexivity|]. split; [reflexivity|].
  intros k. destruct k; do 2 eexists;
    (split; [reflexivity|]); (split; [reflexivity|]);
    (split; [reflexivity|]); (split; [reflexivity|]); (split; [reflexivity|]);
    intros u Hu; cbn -[PasswordChecklist.rules lit token_toggle];
    unfold token_toggle;
    destruct (PasswordChecklist.rules val _);
    rewrite ?TextFacts.tx_In_add, ?TextFacts.tx_In_remove; tauto.
Qed.

(** ** About login.js *)

Module LoginFacts.
Import Login.

(** A listener on a page that has the field and the icon. *)
Lemma lg_dispatch (e : event) (t : option jsstring) (tg : Element)
      (ic : option Element) (p0 : Page) :
  let s := mkState (Some PasswordField) (Some TogglePassword) true
                   (mkPage (Some t) (Some tg) ic) in
  dispatch e s
  = Normal (match e with TouchStart => true | _ => false end,
            mkState (Some PasswordField) (Some TogglePassword) true
              (mkPage (Some (Some (if pressing e then lit "text" else lit "password")))
                      (Some tg) ic)).
Proof. destruct e; reflexivity. Qed.

Lemma lg_events (es : list event) :
  forall (e : event) (t : option jsstring) (tg : Element) (ic : option Element),
    events (es ++ [e])
      (mkState (Some PasswordField) (Some TogglePassword) true
               (mkPage (Some t) (Some tg) ic))
    = Normal (mkState (Some PasswordField) (Some TogglePassword) true
                (mkPage (Some (Some (if pressing e then lit "text" else lit "password")))
                        (Some tg) ic)).
Proof.
  induction es as [|e0 es IH]; intros e t tg ic.
  - cbn [app events]. rewrite (lg_dispatch e t tg ic (mkPage None None None)).
    reflexivity.
  - cbn [app events]. rewrite (lg_dispatch e0 t tg ic (mkPage None None None)).
    cbn [JS.bind snd]. apply IH.
Qed.

Lemma lg_events_inert (es : list event) (s : State) :
  listening s = false -> events es s = Normal s.
Proof.
  intros H. induction es as [|e es IH]; [reflexivity|].
  cbn [events]. unfold dispatch. rewrite H. cbn [JS.bind snd]. exact IH.
Qed.

Lemma lg_is_password_text : is_password (Some (lit "text")) = false.
Proof. reflexivity. Qed.

Lemma lg_toggle_once (t : option jsstring) (tg : option Element) (ic : Element) :
  togglePasswordVisibility (mkPage (Some t) tg (Some ic))
  = Normal (mkPage (Some (Some (type_after (is_password t) 1))) tg
              (Some (set_text (icon_for (type_after (is_password t) 1)) ic))).
Proof.
  unfold togglePasswordVisibility, type_after, icon_for. cbn -[lit str_eqb].
  destruct (is_password t); reflexivity.
Qed.

Lemma lg_type_after_password (b : bool) (m : nat) :
  is_password (Some (type_after b m)) = Bool.eqb b (Nat.even m).
Proof. unfold type_after. destruct (Bool.eqb b (Nat.even m)); reflexivity. Qed.

Lemma lg_toggles (n : nat) :
  forall (t : option jsstring) (tg : option Element) (ic : Element),
    toggles (S n) (mkPage (Some t) tg (Some ic))
    = Normal (mkPage (Some (Some (type_after (is_password t) (S n)))) tg
                (Some (set_text (icon_for (type_after (is_password t) (S n))) ic))).
Proof.
  induction n as [|n IH]; intros t tg ic.
  - cbn [toggles]. rewrite lg_toggle_once. reflexivity.
  - change (toggles (S (S n)) ?p)
      with (p' <- togglePasswordVisibility p ;; toggles (S n) p').
    rewrite lg_toggle_once. cbn [JS.bind]. rewrite IH.
    rewrite lg_type_after_password.
    assert (E : type_after (Bool.eqb (is_password t) (Nat.even 1)) (S n)
                = type_after (is_password t) (S (S n))).
    { unfold type_after. rewrite Nat.even_succ_succ.
      change (Nat.even 1) with false. rewrite Nat.even_succ, <- Nat.negb_even.
      destruct (is_password t), (Nat.even n); reflexivity. }
    rewrite E. destruct ic; reflexivity.
Qed.

End LoginFacts.

(** X14.  The press-and-hold script of login.js, on a page that has the
    field and the icon: after any sequence of mouse and touch events on the
    icon, the type of the field is decided by the last event alone, "text"
    if it was a press (mousedown or touchstart) and "password" otherwise;
    so the password is readable only while the icon is being pressed.
    Nothing else on the page changes, and no listener throws. *)
Theorem X14_login_hold_to_show :
  forall (es : list Login.event) (e : Login.event)
         (t : option jsstring) (tg : Element) (ic : option Element),
    exists s,
      Login.events (es ++ [e])
        (Login.onDOMContentLoaded (Login.mkPage (Some t) (Some tg) ic)) = Normal s
      /\ Login.page s
         = Login.mkPage
             (Some (Some (if Login.pressing e then lit "text" else lit "password")))
             (Some tg) ic.
Proof.
  intros es e t tg ic. eexists. split.
  - exact (LoginFacts.lg_events es e t tg ic).
  - reflexivity.
Qed.

(** X15.  togglePasswordVisibility of login.js alternates: after [m >= 1]
    calls the type of the field is "password" or "text", "password" exactly
    when it was "password" at the start and [m] is even, or was anything
    else (also absent) and [m] is odd; the icon shows the eye exactly when
    the type is "password".  So two calls give back a type of "password" or
    "text", but turn any other type into "text". *)
Theorem X15_login_toggle_alternates :
  forall (m : nat) (t : option jsstring) (tg : option Element) (ic : Element),
    exists p',
      Login.toggles (S m) (Login.mkPage (Some t) tg (Some ic)) = Normal p'
      /\ Login.id_password p'
         = Some (Some (Login.type_after (Login.is_password t) (S m)))
      /\ (exists ic',
             Login.class_toggle_password p' = Some ic'
             /\ (text ic' = Login.eyeIcon
                 <-> Login.type_after (Login.is_password t) (S m) = lit "password")
             /\ (text ic' = Login.monkeyIcon
                 <-> Login.type_after (Login.is_password t) (S m) = lit "text")
             /\ classList ic' = classList ic /\ disabled ic' = disabled ic).
Proof.
  intros m t tg ic. eexists. split; [apply LoginFacts.lg_toggles|].
  cbn [Login.id_password Login.class_toggle_password].
  split; [reflexivity|].
  eexists. split; [reflexivity|].
  unfold Login.type_after, Login.icon_for.
  destruct (Bool.eqb _ _); cbn; repeat split; try reflexivity; try discriminate.
Qed.

(** X16.  Both scripts of login.js do nothing at all on a page that lacks
    one of their two elements: without the field or without the icon
    "togglePassword" no listener is registered, and no event changes the
    page; without the field or without an element of class
    "toggle-password", togglePasswordVisibility returns the page as it is. *)
Theorem X16_login_missing_elements :
  forall (es : list Login.event) (p q : Login.Page),
    Login.id_password p = None \/ Login.id_togglePassword p = None ->
    Login.id_password q = None \/ Login.class_toggle_password q = None ->
    Login.events es (Login.onDOMContentLoaded p)
    = Normal (Login.onDOMContentLoaded p)
    /\ Login.page (Login.onDOMContentLoaded p) = p
    /\ Login.togglePasswordVisibility q = Normal q.
Proof.
  intros es p q Hp Hq. split; [|split].
  - apply LoginFacts.lg_events_inert.
    destruct p as [[t|] [tg|] ic]; destruct Hp as [H|H]; cbn in H;
      try discriminate; reflexivity.
  - destruct p as [[t|] [tg|] ic]; reflexivity.
  - destruct q as [[t|] tg [ic|]]; destruct Hq as [H|H]; cbn in H;
      try discriminate; reflexivity.
Qed.

(** X16 at work: a login page with the field only. *)
Lemma X16_login_missing_elements_witness :
  Login.events [Login.MouseDown; Login.TouchStart]
    (Login.onDOMContentLoaded Samples.login_page_no_icon)
  = Normal (Login.onDOMContentLoaded Samples.login_page_no_icon)
  /\ Login.page (Login.onDOMContentLoaded Samples.login_page_no_icon)
     = Samples.login_page_no_icon
  /\ Login.togglePasswordVisibility Samples.login_page_no_icon
     = Normal Samples.login_page_no_icon.
Proof.
  apply (X16_login_missing_elements [Login.MouseDown; Login.TouchStart]
           Samples.login_page_no_icon Samples.login_page_no_icon);
    right; reflexivity.
Defined.

(** ** About user-dropdown.js *)

Module UserDropdownFacts.
Import UserDropdown.

Lemma ud_click (ev : Click) (d a : Element) :
  onDocumentClick ev (mkPage (Some d) (Some a))
  = Normal (if in_dropdown ev || in_avatar ev
            then mkPage (Some d) (Some a)
            else mkPage (Some (classList_add (lit "hidden") d)) (Some a)).
Proof. destruct ev as [[|] [|]]; reflexivity. Qed.

Lemma ud_toggle (d : Element) (a : option Element) :
  toggleUserMenu (mkPage (Some d) a)
  = Normal (mkPage (Some (classList_flip (lit "hidden") d)) a).
Proof. reflexivity. Qed.

Lemma ud_add_twice (t : jsstring) (l : list jsstring) :
  token_add t (token_add t l) = token_add t l.
Proof. exact (TextFacts.tx_toggle_idempotent t true l). Qed.

End UserDropdownFacts.

(** X17.  The click listener of user-dropdown.js, on a page that has the
    menu and the avatar.  A click inside the menu or inside the avatar
    changes nothing.  Any other click hides the menu: its class list gets
    "hidden" and keeps exactly the classes it had.  In both cases the text,
    the disabled state and the style of the menu are as before, the avatar
    is untouched, and the same click once more changes nothing. *)
Theorem X17_dropdown_click :
  forall (ev : UserDropdown.Click) (d a : Element),
    exists d',
      UserDropdown.onDocumentClick ev (UserDropdown.mkPage (Some d) (Some a))
      = Normal (UserDropdown.mkPage (Some d') (Some a))
      /\ (if UserDropdown.in_dropdown ev || UserDropdown.in_avatar ev
          then d' = d
          else In (lit "hidden") (classList d')
               /\ (forall u, In u (classList d')
                             <-> u = lit "hidden" \/ In u (classList d)))
      /\ text d' = text d /\ disabled d' = disabled d
      /\ styleDisplay d' = styleDisplay d
      /\ UserDropdown.onDocumentClick ev
           (UserDropdown.mkPage (Some d') (Some a))
         = Normal (UserDropdown.mkPage (Some d') (Some a)).
Proof.
  intros ev d a. rewrite UserDropdownFacts.ud_click.
  destruct (UserDropdown.in_dropdown ev || UserDropdown.in_avatar ev) eqn:E.
  - exists d. rewrite UserDropdownFacts.ud_click, E. repeat split.
  - exists (classList_add (lit "hidden") d).
    refine (conj eq_refl (conj (conj _ _)
             (conj eq_refl (conj eq_refl (conj eq_refl _))))).
    + apply TextFacts.tx_In_add. now left.
    + intros u. apply TextFacts.tx_In_add.
    + rewrite UserDropdownFacts.ud_click, E. unfold classList_add.
      cbn [classList set_classList disabled text styleDisplay].
      now rewrite UserDropdownFacts.ud_add_twice.
Qed.

(** X18.  toggleUserMenu of user-dropdown.js flips the class "hidden" of
    the menu and nothing else: the menu has "hidden" afterwards exactly when
    it did not have it before, and every other class, the text and the
    disabled state are as before.  Called twice, it gives back a menu with
    the classes it started with. *)
Theorem X18_dropdown_toggle :
  forall (d : Element) (a : option Element),
    let p := UserDropdown.mkPage (Some d) a in
    let d1 := classList_flip (lit "hidden") d in
    let d2 := classList_flip (lit "hidden") d1 in
    UserDropdown.toggleUserMenu p = Normal (UserDropdown.mkPage (Some d1) a)
    /\ (In (lit "hidden") (classList d1) <-> ~ In (lit "hidden") (classList d))
    /\ (forall u, u <> lit "hidden" ->
                  (In u (classList d1) <-> In u (classList d)))
    /\ text d1 = text d /\ disabled d1 = disabled d
    /\ (p' <- UserDropdown.toggleUserMenu p ;; UserDropdown.toggleUserMenu p')
       = Normal (UserDropdown.mkPage (Some d2) a)
    /\ (forall u, In u (classList d2) <-> In u (classList d)).
Proof.
  intros d a p d1 d2. subst p d1 d2.
  assert (F : forall l u, In u (token_flip (lit "hidden") l)
                          <-> (u = lit "hidden" /\ ~ In (lit "hidden") l)
                              \/ (u <> lit "hidden" /\ In u l))
    by (intros l u; apply TextFacts.tx_In_flip).
  unfold classList_flip. cbn [classList set_classList text disabled].
  refine (conj eq_refl (conj _ (conj _ (conj eq_refl (conj eq_refl
           (conj eq_refl _)))))).
  - rewrite F. tauto.
  - intros u Hu. rewrite F. tauto.
  - intros u. rewrite !F.
    destruct (list_eq_dec N.eq_dec u (lit "hidden")) as [->|Hu].
    + destruct (in_dec (list_eq_dec N.eq_dec) (lit "hidden") (classList d));
        tauto.
    + tauto.
Qed.

(** X19.  Neither function of user-dropdown.js is guarded.  Without the
    menu "user-dropdown", toggleUserMenu and every click throw a TypeError.
    With the menu but without an element of class "user-avatar", a click
    inside the menu is harmless (the avatar is not asked), and every other
    click throws a TypeError. *)
Theorem X19_dropdown_missing_elements :
  forall (ev : UserDropdown.Click) (p q : UserDropdown.Page),
    UserDropdown.user_dropdown p = None ->
    UserDropdown.user_dropdown q <> None ->
    UserDropdown.user_avatar q = None ->
    UserDropdown.toggleUserMenu p = Throws TypeError
    /\ UserDropdown.onDocumentClick ev p = Throws TypeError
    /\ UserDropdown.onDocumentClick ev q
       = (if UserDropdown.in_dropdown ev then Normal q else Throws TypeError).
Proof.
  intros ev [dp ap] [dq aq] Hp Hq Ha. cbn in Hp, Hq, Ha. subst dp aq.
  destruct dq as [dq|]; [|congruence].
  destruct ev as [[|] ia]; repeat split; reflexivity.
Qed.

(** X19 at work: a click outside everything, on a page without the menu
    and on a page without the avatar. *)
Lemma X19_dropdown_missing_elements_witness :
  UserDropdown.toggleUserMenu Samples.dropdown_page_no_menu = Throws TypeError
  /\ UserDropdown.onDocumentClick (UserDropdown.mkClick false false)
       Samples.dropdown_page_no_menu = Throws TypeError
  /\ UserDropdown.onDocumentClick (UserDropdown.mkClick false false)
       Samples.dropdown_page_no_avatar
     = (if UserDropdown.in_dropdown (UserDropdown.mkClick false false)
        then Normal Samples.dropdown_page_no_avatar else Throws TypeError).
Proof.
  apply (X19_dropdown_missing_elements (UserDropdown.mkClick false false)
           Samples.dropdown_page_no_menu Samples.dropdown_page_no_avatar).
  - reflexivity.
  - discriminate.
  - reflexivity.
Defined.

(** ** About auto_logout.js *)

Module AutoLogoutFacts.
Import AutoLogout.

Lemma al_last_cons (rest : list Z) :
  forall t d : Z, last (t :: rest) d = last rest t.
Proof.
  induction rest as [|r rest IH]; intros t d; [reflexivity|].
  change (last (t :: r :: rest) d) with (last (r :: rest) d).
  rewrite (IH r d), (IH r t). reflexivity.
Qed.

Lemma al_onLoad (t0 : Z) : Waiting t0 (onLoad t0 initial).
Proof.
  split; [reflexivity|]. split; [reflexivity|].
  exists 1%nat. repeat split.
Qed.

(** Before the timeout is due nothing runs. *)
Lemma al_advance_early (last now : Z) (s : State) :
  Waiting last s -> now < last + inactivityLimit -> advance now s = s.
Proof.
  intros (_ & _ & h & _ & _ & Hp) Hlt. unfold advance. rewrite Hp.
  cbn [filter snd]. destruct (Z.leb_spec (last + inactivityLimit) now); [lia|].
  reflexivity.
Qed.

(** From the due time on the page has gone to the logout route. *)
Lemma al_advance_due (last now : Z) (s : State) :
  Waiting last s -> last + inactivityLimit <= now ->
  location (advance now s) = Some logoutUrl /\ pending (advance now s) = [].
Proof.
  intros (_ & _ & h & _ & _ & Hp) Hle. unfold advance. rewrite Hp.
  cbn [filter snd]. destruct (Z.leb_spec (last + inactivityLimit) now); [|lia].
  split; reflexivity.
Qed.

(** Activity replaces the pending timeout by a fresh one. *)
Lemma al_activity (last now : Z) (s : State) :
  Waiting last s -> Waiting now (activity now s).
Proof.
  intros (Hl & Hloc & h & Ht & Hi & Hp). unfold activity. rewrite Hl.
  unfold resetTimer. rewrite Ht, Hp, Hi.
  cbn [clearTimeout filter fst]. rewrite Nat.eqb_refl. cbn [negb app].
  split; [exact Hl|]. split; [exact Hloc|].
  exists (S h). repeat split.
Qed.

Lemma al_session (ts : list Z) :
  forall (t0 : Z) (s : State) (more : list Z),
    Waiting t0 s -> steady t0 ts ->
    exists s', Waiting (last ts t0) s'
               /\ session (ts ++ more) s = session more s'.
Proof.
  induction ts as [|t ts IH]; intros t0 s more W St.
  - exists s. split; [exact W | reflexivity].
  - destruct St as [[Hlo Hhi] St]. rewrite al_last_cons.
    cbn [app session]. rewrite (al_advance_early t0 t s W Hhi).
    destruct W as (Hl & Hloc & W'). rewrite Hloc.
    apply IH; [|exact St].
    apply (al_activity t0 t s). exact (conj Hl (conj Hloc W')).
Qed.

End AutoLogoutFacts.

(** X20.  auto_logout.js while the user stays active.  If every activity
    event comes less than fifteen minutes after the one before (the first
    one after the load), then after the last of them exactly one timeout is
    pending: every earlier one was cleared, and the one left is due fifteen
    minutes after the last activity.  Observed at any time, the page has
    gone to "/users/logout/?auto=1" exactly when that time has been
    reached. *)
Theorem X20_auto_logout_active :
  forall (t0 : Z) (ts : list Z) (now : Z),
    AutoLogout.steady t0 ts ->
    AutoLogout.Waiting (last ts t0)
      (AutoLogout.session ts (AutoLogout.onLoad t0 AutoLogout.initial))
    /\ AutoLogout.location (AutoLogout.observe t0 ts now)
       = (if last ts t0 + AutoLogout.inactivityLimit <=? now
          then Some AutoLogout.logoutUrl else None).
Proof.
  intros t0 ts now St.
  destruct (AutoLogoutFacts.al_session ts t0 _ [] (AutoLogoutFacts.al_onLoad t0) St)
    as (s' & W & E).
  rewrite app_nil_r in E. cbn [AutoLogout.session] in E.
  unfold AutoLogout.observe. rewrite E. split; [exact W|].
  destruct (Z.leb_spec (last ts t0 + AutoLogout.inactivityLimit) now) as [H|H].
  - apply (AutoLogoutFacts.al_advance_due _ _ _ W H).
  - rewrite (AutoLogoutFacts.al_advance_early _ _ _ W H). apply W.
Qed.

(** X20 at work: loaded at 0, active after one and after five seconds,
    observed after six. *)
Lemma X20_auto_logout_active_witness :
  AutoLogout.Waiting (last [1000; 5000] 0)
    (AutoLogout.session [1000; 5000] (AutoLogout.onLoad 0 AutoLogout.initial))
  /\ AutoLogout.location (AutoLogout.observe 0 [1000; 5000] 6000)
     = (if last [1000; 5000] 0 + AutoLogout.inactivityLimit <=? 6000
        then Some AutoLogout.logoutUrl else None).
Proof.
  apply (X20_auto_logout_active 0 [1000; 5000] 6000).
  cbn. unfold AutoLogout.inactivityLimit. lia.
Defined.

(** X21.  auto_logout.js after a pause.  If the user was active as in X20
    and the next event comes fifteen minutes or more after the last one,
    the timeout has run before it: the page has gone to the logout route,
    no timeout is left pending, and no later activity brings the session
    back. *)
Theorem X21_auto_logout_after_pause :
  forall (t0 : Z) (ts : list Z) (t : Z) (rest : list Z),
    AutoLogout.steady t0 ts ->
    last ts t0 + AutoLogout.inactivityLimit <= t ->
    let s := AutoLogout.session (ts ++ t :: rest)
               (AutoLogout.onLoad t0 AutoLogout.initial) in
    AutoLogout.location s = Some AutoLogout.logoutUrl
    /\ AutoLogout.pending s = [].
Proof.
  intros t0 ts t rest St Hle s. subst s.
  destruct (AutoLogoutFacts.al_session ts t0 _ (t :: rest)
              (AutoLogoutFacts.al_onLoad t0) St) as (s' & W & E).
  rewrite E. cbn [AutoLogout.session].
  destruct (AutoLogoutFacts.al_advance_due _ _ _ W Hle) as [Hloc Hp].
  rewrite Hloc. split; assumption.
Qed.

(** X21 at work: active after one second, then again after twenty
    minutes. *)
Lemma X21_auto_logout_after_pause_witness :
  AutoLogout.location
    (AutoLogout.session ([1000] ++ 1201000 :: [1202000])
       (AutoLogout.onLoad 0 AutoLogout.initial)) = Some AutoLogout.logoutUrl
  /\ AutoLogout.pending
       (AutoLogout.session ([1000] ++ 1201000 :: [1202000])
          (AutoLogout.onLoad 0 AutoLogout.initial)) = [].
Proof.
  apply (X21_auto_logout_after_pause 0 [1000] 1201000 [1202000]).
  - cbn. unfold AutoLogout.inactivityLimit. lia.
  - cbn. unfold AutoLogout.inactivityLimit. lia.
Defined.
